(** * WSL Dev Kit: a shallow embedding of the orchestration engine

    The development follows [src/wsl_dev_kit.py].  Python functions become
    computations of a small monad [M] that threads the mutable machine state
    (the portproxy rule table, the file system, a logical clock), may raise a
    Python exception, and records the externally visible effects it performs
    (console messages, subprocesses, spawned browsers, sleeps, TCP connects,
    HTTP requests, recursive deletions) as a trace of events.

    Everything the tool cannot control (what the operating system reports,
    whether a port is open at a given moment, what a subprocess answers) is
    a field of the record [world].

    The command-line entry points ([main], [run_diagnostics]) are
    computations of a second monad [C] on top of [M], whose traces also hold
    the banner of [printer.header] and the portproxy listing of the
    diagnostics; the HTTP server of the test page is a parameter of [main]. *)

From stdpp Require Import base strings gmap list.
From Stdlib Require Import ZArith QArith Ascii String DecimalString Lia.

#[local] Open Scope Z_scope.
#[local] Open Scope string_scope.

(** ** Python string operations (on ASCII text) *)

Module PyStr.

(** [str.isspace] on one ASCII character: TAB, LF, VT, FF, CR, FS..US, SPACE. *)
Definition is_space (c : ascii) : bool :=
  let n := nat_of_ascii c in
  ((9 <=? n)%nat && (n <=? 13)%nat) || ((28 <=? n)%nat && (n <=? 32)%nat).

Definition lower_char (c : ascii) : ascii :=
  let n := nat_of_ascii c in
  if ((65 <=? n)%nat && (n <=? 90)%nat) then ascii_of_nat (n + 32) else c.

Definition upper_char (c : ascii) : ascii :=
  let n := nat_of_ascii c in
  if ((97 <=? n)%nat && (n <=? 122)%nat) then ascii_of_nat (n - 32) else c.

Fixpoint map_chars (f : ascii -> ascii) (s : string) : string :=
  match s with
  | EmptyString => EmptyString
  | String c s' => String (f c) (map_chars f s')
  end.

(** [s.lower()] and [s.upper()]. *)
Definition lower : string -> string := map_chars lower_char.
Definition upper : string -> string := map_chars upper_char.

Definition is_empty (s : string) : bool :=
  match s with EmptyString => true | String _ _ => false end.

Fixpoint lstrip (s : string) : string :=
  match s with
  | EmptyString => EmptyString
  | String c s' => if is_space c then lstrip s' else s
  end.

Fixpoint rstrip (s : string) : string :=
  match s with
  | EmptyString => EmptyString
  | String c s' =>
      let r := rstrip s' in
      if is_space c && is_empty r then EmptyString else String c r
  end.

(** [s.strip()]. *)
Definition strip (s : string) : string := rstrip (lstrip s).

(** [s.startswith(p)]. *)
Definition startswith (s p : string) : bool := String.prefix p s.

(** [needle in hay] for two strings. *)
Definition contains (needle hay : string) : bool :=
  match String.index 0 needle hay with Some _ => true | None => false end.

Definition snoc (s : string) (c : ascii) : string := s ++ String c EmptyString.

Fixpoint split_ws_go (cur : string) (s : string) : list string :=
  match s with
  | EmptyString => if is_empty cur then [] else [cur]
  | String c s' =>
      if is_space c
      then (if is_empty cur then split_ws_go EmptyString s'
            else cur :: split_ws_go EmptyString s')
      else split_ws_go (snoc cur c) s'
  end.

(** [s.split()]: the maximal runs of non-blank characters. *)
Definition split (s : string) : list string := split_ws_go EmptyString s.

Fixpoint split_on_go (sep : ascii) (cur : string) (s : string) : list string :=
  match s with
  | EmptyString => [cur]
  | String c s' =>
      if Ascii.eqb c sep then cur :: split_on_go sep EmptyString s'
      else split_on_go sep (snoc cur c) s'
  end.

(** [s.split(sep)] for a one-character separator. *)
Definition split_on (sep : ascii) (s : string) : list string :=
  split_on_go sep EmptyString s.

(** [sep.join(parts)]. *)
Fixpoint join (sep : string) (parts : list string) : string :=
  match parts with
  | [] => EmptyString
  | [p] => p
  | p :: rest => p ++ sep ++ join sep rest
  end.

Definition LF : ascii := ascii_of_nat 10.

(** The lines a text file yields when iterated; the line terminator is left
    out, every use in the source strips the line first. *)
Definition lines (content : string) : list string :=
  match content with
  | EmptyString => []
  | _ =>
      let ls := split_on LF content in
      match last ls with
      | Some EmptyString => removelast ls
      | _ => ls
      end
  end.

(** [s * n]. *)
Fixpoint repeat (s : string) (n : nat) : string :=
  match n with
  | O => EmptyString
  | S k => s ++ repeat s k
  end.

(** [str(n)] for an integer. *)
Definition of_Z (n : Z) : string := NilZero.string_of_int (Z.to_int n).

(** Truthiness of a string: [if s:] holds for a non-empty string. *)
Definition truthy (s : string) : bool := negb (is_empty s).

End PyStr.

(** ** Exceptions, outcomes and the effect monad *)

(** The classes of [Exception] the modelled calls can raise.  Asynchronous
    interruption ([KeyboardInterrupt], a [BaseException]) is outside the
    model. *)
Inductive exn_class :=
| FileNotFoundError | PermissionError | OSError | ValueError | TypeError
| OverflowError | AttributeError | TimeoutExpired | URLError | JSONDecodeError.

Record exn := mkExn { exn_cls : exn_class; exn_str : string }.

Definition is_FileNotFoundError (e : exn) : bool :=
  match exn_cls e with FileNotFoundError => true | _ => false end.

Definition is_TimeoutExpired (e : exn) : bool :=
  match exn_cls e with TimeoutExpired => true | _ => false end.

Inductive outcome (A : Type) :=
| Ret (a : A)
| Raise (e : exn).
Arguments Ret {A} a.
Arguments Raise {A} e.

(** The [printer] methods used by the core. *)
Inductive level := LStep | LSuccess | LWarning | LError | LInfo.

(** A subprocess result: [subprocess.CompletedProcess]. *)
Record completed := mkCompleted {
  returncode : Z;
  stdout : string;
  stderr : string
}.

(** The PowerShell script [WSLOrchestrator.run] builds: a fixed template
    (elevation check, search for a Python 3 interpreter) whose last line
    re-invokes this tool with the three values below. *)
Record ps_script := mkScript {
  ps_windows_path : string;
  ps_browser : string;
  ps_port : Z
}.

(** The external commands the tool runs through [subprocess.run]. *)
Inductive command :=
| Taskkill (image : string)
    (* taskkill /F /IM image /T *)
| Pkill (name : string)
    (* pkill -9 name *)
| IpRouteShowDefault
    (* ip route show default *)
| GetNetIPAddressWSL
    (* powershell -NoProfile -Command
       (Get-NetIPAddress -InterfaceAlias '*WSL*' -AddressFamily IPv4).IPAddress *)
| NetshDelete (listenaddress : string) (listenport : Z)
    (* netsh interface portproxy delete v4tov4 listenaddress=.. listenport=.. *)
| NetshAdd (listenaddress : string) (listenport : Z)
           (connectaddress : string) (connectport : Z)
    (* netsh interface portproxy add v4tov4 listenaddress=.. listenport=..
       connectaddress=.. connectport=.. *)
| PowershellExe (script : ps_script).
    (* powershell.exe -NoProfile -ExecutionPolicy Bypass -Command script *)

(** How a spawned browser is detached from the tool:
    [CREATE_NEW_PROCESS_GROUP | DETACHED_PROCESS] on Windows, [os.setsid]
    elsewhere. *)
Inductive detach := NewProcessGroup | Setsid.

(** Externally visible effects, in the order they happen. *)
Inductive event :=
| Log (lvl : level) (msg : string)
| Sleep (seconds : Q)
| AdminQuery
| Run (cmd : command)
| Popen (how : detach) (argv : list string)
| Connect (host : string) (port : Z)
| UrlOpen (url : string)
| Rmtree (path : string).

(** A JSON document as [json.loads] returns it. *)
#[local] Unset Elimination Schemes.
Inductive json :=
| JNull
| JBool (b : bool)
| JNum (n : Z)
| JStr (s : string)
| JArr (items : list json)
| JObj (fields : list (string * json)).
#[local] Set Elimination Schemes.

(** A file-system entry.  [removable] tells whether [os.unlink] (for a file)
    or [os.rmdir] (for an empty directory) succeeds on it: a file held open
    by a running browser on Windows, or in a read-only directory, is not. *)
#[local] Unset Elimination Schemes.
Inductive node :=
| File (removable : bool)
| Dir (removable : bool) (entries : list (string * node)).
#[local] Set Elimination Schemes.

(** The portproxy table of the host: (listen address, listen port) to
    (connect address, connect port). *)
Abbreviation rule_table := (gmap (string * Z) (string * Z)).

Record machine := mkMachine {
  tick : nat;
  rules : rule_table;
  fs : gmap string node
}.

Definition set_tick (n : nat) (m : machine) : machine :=
  mkMachine n (rules m) (fs m).
Definition set_rules (r : rule_table) (m : machine) : machine :=
  mkMachine (tick m) r (fs m).
Definition set_fs (f : gmap string node) (m : machine) : machine :=
  mkMachine (tick m) (rules m) f.

(** What the environment answers.  Answers that change while the tool runs
    (a port that opens once the browser is up, a subprocess) depend on the
    logical clock [tick]; the clock advances at every blocking call. *)
Record world := mkWorld {
  sys_platform : string;                       (* platform.system() *)
  sys_file : string -> outcome string;           (* open(path).read() *)
  sys_admin : outcome Z;                      (* ctypes...IsUserAnAdmin() *)
  sys_which : string -> option string;
  sys_expandvars : string -> string;
  sys_expanduser : string -> string;
  sys_tempdir : string;
  sys_sep : string;
  sys_script : string;                        (* os.path.abspath(__file__) *)
  sys_process : command -> nat -> outcome completed;  (* subprocess.run *)
  sys_spawn : detach -> list string -> nat -> outcome Z;        (* subprocess.Popen: the pid *)
  sys_connect : string -> Z -> nat -> outcome Z;   (* socket.connect_ex *)
  sys_http : string -> nat -> outcome json;   (* urlopen + read + json.loads *)
  netsh_fault : command -> option exn;            (* netsh cannot be run at all *)
  netsh_add_ok : string -> Z -> bool;             (* netsh accepts the new rule *)
  netsh_stderr : string
}.

Definition M (A : Type) : Type := machine -> outcome A * machine * list event.

#[global] Instance M_ret : MRet M := fun A a m => (Ret a, m, []).

#[global] Instance M_bind : MBind M := fun A B f c m =>
  match c m with
  | (Ret a, m1, t1) =>
      match f a m1 with (r, m2, t2) => (r, m2, (t1 ++ t2)%list) end
  | (Raise e, m1, t1) => (Raise e, m1, t1)
  end.

Definition raise {A} (e : exn) : M A := fun m => (Raise e, m, []).

(** [try: body except Exception as e: handler e]. *)
Definition try_except {A} (body : M A) (handler : exn -> M A) : M A := fun m =>
  match body m with
  | (Ret a, m1, t1) => (Ret a, m1, t1)
  | (Raise e, m1, t1) =>
      match handler e m1 with (r, m2, t2) => (r, m2, (t1 ++ t2)%list) end
  end.

(** [try: body except C: handler], for the classes selected by [catches]. *)
Definition try_except_only {A} (catches : exn -> bool) (body : M A)
    (handler : exn -> M A) : M A :=
  try_except body (fun e => if catches e then handler e else raise e).

Definition emit (e : event) : M unit := fun m => (Ret tt, m, [e]).

Definition printer (lvl : level) (msg : string) : M unit := emit (Log lvl msg).

Definition clock : M nat := fun m => (Ret (tick m), set_tick (S (tick m)) m, []).

Definition of_outcome {A} (o : outcome A) : M A := fun m => (o, m, []).

Definition result_of {A} (r : outcome A * machine * list event) : outcome A := r.1.1.
Definition machine_of {A} (r : outcome A * machine * list event) : machine := r.1.2.
Definition trace_of {A} (r : outcome A * machine * list event) : list event := r.2.

(** ** Enumerations and tables *)

Inductive Environment := WINDOWS | WSL | LINUX | MACOS | UNKNOWN.

Inductive Browser := CHROME | FIREFOX | LIBREWOLF.

Definition Environment_eqb (a b : Environment) : bool :=
  match a, b with
  | WINDOWS, WINDOWS | WSL, WSL | LINUX, LINUX | MACOS, MACOS
  | UNKNOWN, UNKNOWN => true
  | _, _ => false
  end.

Definition Environment_value (e : Environment) : string :=
  match e with
  | WINDOWS => "windows" | WSL => "wsl" | LINUX => "linux"
  | MACOS => "macos" | UNKNOWN => "unknown"
  end.

Definition Browser_value (b : Browser) : string :=
  match b with
  | CHROME => "chrome" | FIREFOX => "firefox" | LIBREWOLF => "librewolf"
  end.

(** [BrowserConfig]. *)
Record BrowserConfig := mkBrowserConfig {
  path : string;
  debug_port : Z;
  profile_dir : string;
  args : list string;
  process_name : string
}.

(** [WindowsSetupResult]. *)
Record WindowsSetupResult := mkWindowsSetupResult {
  success : bool;
  wsl_ip : string;
  portproxy_configured : bool;
  chrome_listening : bool;
  error_message : string
}.

(** [WSLSetupResult]. *)
Record WSLSetupResult := mkWSLSetupResult {
  wsl_success : bool;
  windows_host_ip : string;
  windows_setup_completed : bool;
  connection_verified : bool;
  wsl_error_message : string
}.

(** In-place updates of the result objects. *)
Definition with_wsl_ip (ip : string) (r : WindowsSetupResult) :=
  mkWindowsSetupResult (success r) ip (portproxy_configured r)
    (chrome_listening r) (error_message r).
Definition with_error_message (msg : string) (r : WindowsSetupResult) :=
  mkWindowsSetupResult (success r) (wsl_ip r) (portproxy_configured r)
    (chrome_listening r) msg.
Definition with_chrome_listening (b : bool) (r : WindowsSetupResult) :=
  mkWindowsSetupResult (success r) (wsl_ip r) (portproxy_configured r)
    b (error_message r).
Definition with_portproxy_configured (b : bool) (r : WindowsSetupResult) :=
  mkWindowsSetupResult (success r) (wsl_ip r) b
    (chrome_listening r) (error_message r).
Definition with_success (b : bool) (r : WindowsSetupResult) :=
  mkWindowsSetupResult b (wsl_ip r) (portproxy_configured r)
    (chrome_listening r) (error_message r).

Definition with_windows_host_ip (ip : string) (r : WSLSetupResult) :=
  mkWSLSetupResult (wsl_success r) ip (windows_setup_completed r)
    (connection_verified r) (wsl_error_message r).
Definition with_wsl_error_message (msg : string) (r : WSLSetupResult) :=
  mkWSLSetupResult (wsl_success r) (windows_host_ip r)
    (windows_setup_completed r) (connection_verified r) msg.
Definition with_wsl_success (b : bool) (r : WSLSetupResult) :=
  mkWSLSetupResult b (windows_host_ip r) (windows_setup_completed r)
    (connection_verified r) (wsl_error_message r).
Definition with_windows_setup_completed (b : bool) (r : WSLSetupResult) :=
  mkWSLSetupResult (wsl_success r) (windows_host_ip r) b
    (connection_verified r) (wsl_error_message r).
Definition with_connection_verified (b : bool) (r : WSLSetupResult) :=
  mkWSLSetupResult (wsl_success r) (windows_host_ip r)
    (windows_setup_completed r) b (wsl_error_message r).

(** ** The tool, in a given world *)

Section Tool.

Context (w : world).

(** *** Primitive calls *)

(** [time.sleep(d)]: a negative length raises [ValueError]. *)
Definition time_sleep (d : Q) : M unit :=
  if Qle_bool 0 d then (_ ← clock; emit (Sleep d))
  else raise (mkExn ValueError "sleep length must be non-negative").

(** Create a socket, [connect_ex((host, port))], close it. *)
Definition socket_connect_ex (host : string) (port : Z) : M Z :=
  t ← clock; emit (Connect host port);; of_outcome (sys_connect w host port t).

(** [json.loads(urlopen(url, timeout=2).read().decode())]. *)
Definition urlopen_json (url : string) : M json :=
  t ← clock; emit (UrlOpen url);; of_outcome (sys_http w url t).

(** [netsh interface portproxy delete]: the rule is gone afterwards; the
    exit status tells whether there was one. *)
Definition netsh_delete (a : string) (p : Z) : M completed := fun m =>
  match rules m !! (a, p) with
  | Some _ => (Ret (mkCompleted 0 "" ""), set_rules (delete (a, p) (rules m)) m, [])
  | None => (Ret (mkCompleted 1 "" (netsh_stderr w)), m, [])
  end.

(** [netsh interface portproxy add]: the rule for the listen address and
    port is set, unless netsh rejects the request. *)
Definition netsh_add (a : string) (p : Z) (ca : string) (cp : Z) : M completed :=
  fun m =>
  if netsh_add_ok w a p
  then (Ret (mkCompleted 0 "" ""), set_rules (<[(a, p) := (ca, cp)]> (rules m)) m, [])
  else (Ret (mkCompleted 1 "" (netsh_stderr w)), m, []).

(** [subprocess.run(cmd, capture_output=True, ...)]. *)
Definition subprocess_run (cmd : command) : M completed :=
  t ← clock; emit (Run cmd);;
  match cmd with
  | NetshDelete a p =>
      match netsh_fault w cmd with
      | Some e => raise e
      | None => netsh_delete a p
      end
  | NetshAdd a p ca cp =>
      match netsh_fault w cmd with
      | Some e => raise e
      | None => netsh_add a p ca cp
      end
  | _ => of_outcome (sys_process w cmd t)
  end.

(** [subprocess.Popen(cmd, ...)], detached; the result is the pid. *)
Definition subprocess_Popen (how : detach) (cmd : list string) : M Z :=
  t ← clock; emit (Popen how cmd);; of_outcome (sys_spawn w how cmd t).

(** [open(path, "r")] and reading it whole. *)
Definition open_read (path : string) : M string := of_outcome (sys_file w path).

Definition os_path_exists (p : string) : M bool := fun m =>
  (Ret (match fs m !! p with Some _ => true | None => false end), m, []).

Definition os_path_isfile (p : string) : M bool := fun m =>
  (Ret (match fs m !! p with Some (File _) => true | _ => false end), m, []).

(** [os.path.join(a, b)] for a relative [b]. *)
Definition os_path_join (a b : string) : string :=
  if PyStr.is_empty a then b
  else if String.eqb (String.substring (String.length a - 1) 1 a) (sys_sep w)
       then a ++ b
       else a ++ sys_sep w ++ b.

(** What is left of an entry once [shutil.rmtree(..., ignore_errors=True)]
    has gone through it: children first, then the directory itself, every
    failing [unlink] or [rmdir] skipped.  [None] means the entry is gone. *)
Fixpoint rm_node (n : node) : option node :=
  match n with
  | File r => if r then None else Some (File r)
  | Dir r es =>
      let left :=
        (fix rm_entries (es : list (string * node)) : list (string * node) :=
           match es with
           | [] => []
           | (name, c) :: tl =>
               match rm_node c with
               | None => rm_entries tl
               | Some c' => (name, c') :: rm_entries tl
               end
           end) es in
      match left with
      | [] => if r then None else Some (Dir r [])
      | _ :: _ => Some (Dir r left)
      end
  end.

(** [shutil.rmtree(p, ignore_errors=True)]: on something that is not a
    directory the scan and the final [rmdir] both fail and are ignored. *)
Definition shutil_rmtree_ignore_errors (p : string) : M unit := fun m =>
  let m' :=
    match fs m !! p with
    | Some (Dir r es) =>
        match rm_node (Dir r es) with
        | None => set_fs (delete p (fs m)) m
        | Some n' => set_fs (<[p := n']> (fs m)) m
        end
    | _ => m
    end in
  (Ret tt, set_tick (S (tick m')) m', [Rmtree p]).

(** *** Browser tables *)

(** [BROWSER_PATHS]; the [%LocalAppData%] entries are expanded when the
    module is loaded. *)
Definition BROWSER_PATHS (b : Browser) (env : Environment) : list string :=
  match b, env with
  | CHROME, WINDOWS =>
      [ "C:\Program Files\Google\Chrome\Application\chrome.exe";
        "C:\Program Files (x86)\Google\Chrome\Application\chrome.exe";
        sys_expandvars w "%LocalAppData%\Google\Chrome\Application\chrome.exe" ]
  | CHROME, WSL =>
      [ "/mnt/c/Program Files/Google/Chrome/Application/chrome.exe";
        "/mnt/c/Program Files (x86)/Google/Chrome/Application/chrome.exe" ]
  | CHROME, LINUX =>
      [ "/usr/bin/google-chrome"; "/usr/bin/google-chrome-stable";
        "/usr/bin/chromium"; "/usr/bin/chromium-browser"; "/snap/bin/chromium" ]
  | CHROME, MACOS =>
      [ "/Applications/Google Chrome.app/Contents/MacOS/Google Chrome" ]
  | FIREFOX, WINDOWS =>
      [ "C:\Program Files\Mozilla Firefox\firefox.exe";
        "C:\Program Files (x86)\Mozilla Firefox\firefox.exe";
        sys_expandvars w "%LocalAppData%\Mozilla Firefox\firefox.exe" ]
  | FIREFOX, WSL =>
      [ "/mnt/c/Program Files/Mozilla Firefox/firefox.exe";
        "/mnt/c/Program Files (x86)/Mozilla Firefox/firefox.exe" ]
  | FIREFOX, LINUX =>
      [ "/usr/bin/firefox"; "/usr/bin/firefox-esr"; "/snap/bin/firefox" ]
  | FIREFOX, MACOS =>
      [ "/Applications/Firefox.app/Contents/MacOS/firefox" ]
  | LIBREWOLF, WINDOWS =>
      [ "C:\Program Files\LibreWolf\librewolf.exe";
        "C:\Program Files (x86)\LibreWolf\librewolf.exe" ]
  | LIBREWOLF, WSL =>
      [ "/mnt/c/Program Files/LibreWolf/librewolf.exe";
        "/mnt/c/Program Files (x86)/LibreWolf/librewolf.exe" ]
  | LIBREWOLF, LINUX =>
      [ "/usr/bin/librewolf"; "/usr/local/bin/librewolf" ]
  | LIBREWOLF, MACOS =>
      [ "/Applications/LibreWolf.app/Contents/MacOS/librewolf" ]
  | _, UNKNOWN => []
  end.

Definition browser_names (b : Browser) : list string :=
  match b with
  | CHROME => [ "chrome"; "google-chrome"; "google-chrome-stable";
                "chromium"; "chromium-browser" ]
  | FIREFOX => [ "firefox"; "firefox-esr" ]
  | LIBREWOLF => [ "librewolf" ]
  end.

Fixpoint first_existing_file (paths : list string) : M (option string) :=
  match paths with
  | [] => mret None
  | p :: rest =>
      let expanded_path := sys_expandvars w (sys_expanduser w p) in
      found ← os_path_isfile expanded_path;
      if (found : bool) then mret (Some expanded_path)
      else first_existing_file rest
  end.

Fixpoint first_on_path (names : list string) : option string :=
  match names with
  | [] => None
  | name :: rest =>
      match sys_which w name with
      | Some found => if PyStr.truthy found then Some found else first_on_path rest
      | None => first_on_path rest
      end
  end.

(** [find_browser]. *)
Definition find_browser (b : Browser) (env : Environment) : M (option string) :=
  let default_paths := BROWSER_PATHS b env in
  r ← first_existing_file default_paths;
  match r with
  | Some p => mret (Some p)
  | None => mret (first_on_path (browser_names b))
  end.

(** [get_browser_args]. *)
Definition get_browser_args (b : Browser) (debug_port : Z) (profile_dir : string)
    (env : Environment) : list string :=
  match b with
  | CHROME =>
      [ "--remote-debugging-port=" ++ PyStr.of_Z debug_port;
        "--user-data-dir=" ++ profile_dir;
        "--no-first-run";
        "--no-default-browser-check";
        "--disable-background-networking";
        "--disable-client-side-phishing-detection";
        "--disable-component-update";
        "--disable-default-apps";
        "--disable-hang-monitor";
        "--disable-popup-blocking";
        "--disable-prompt-on-repost";
        "--disable-sync";
        "--disable-web-resources";
        "--metrics-recording-only";
        "--password-store=basic";
        "--use-mock-keychain";
        "about:blank" ]
  | FIREFOX | LIBREWOLF =>
      [ "--start-debugger-server=127.0.0.1:" ++ PyStr.of_Z debug_port;
        "--profile"; profile_dir;
        "--no-remote";
        "about:blank" ]
  end.

(** [get_process_name]. *)
Definition get_process_name (b : Browser) (env : Environment) : string :=
  match env with
  | WINDOWS =>
      match b with
      | CHROME => "chrome.exe"
      | FIREFOX => "firefox.exe"
      | LIBREWOLF => "librewolf.exe"
      end
  | _ =>
      match b with
      | CHROME => "chrome"
      | FIREFOX => "firefox"
      | LIBREWOLF => "librewolf"
      end
  end.

(** *** Profile and process management *)

(** [cleanup_profile]. *)
Definition cleanup_profile (profile_dir : string) : M unit :=
  present ← os_path_exists profile_dir;
  if (present : bool) then
    try_except
      (shutil_rmtree_ignore_errors profile_dir;;
       printer LStep ("Cleaned up profile directory: " ++ profile_dir))
      (fun e => printer LWarning ("Could not clean profile directory: " ++ exn_str e))
  else mret tt.

(** [kill_browser]. *)
Definition kill_browser (b : Browser) (env : Environment) : M unit :=
  let process_name := get_process_name b env in
  if negb (PyStr.truthy process_name) then mret tt
  else
    try_except
      ((if Environment_eqb env WINDOWS
        then subprocess_run (Taskkill process_name)
        else subprocess_run (Pkill process_name));;
       printer LStep ("Killed existing " ++ Browser_value b ++ " processes"))
      (fun e => printer LWarning ("Could not kill " ++ Browser_value b ++ ": " ++ exn_str e)).

(** [launch_browser]: the pid of the spawned process, or [None]. *)
Definition launch_browser (config : BrowserConfig) (env : Environment)
    : M (option Z) :=
  try_except
    (let cmd := path config :: args config in
     pid ← (if Environment_eqb env WINDOWS
            then subprocess_Popen NewProcessGroup cmd
            else subprocess_Popen Setsid cmd);
     printer LSuccess ("Launched browser with PID " ++ PyStr.of_Z pid);;
     mret (Some pid))
    (fun e =>
       printer LError ("Failed to launch browser: " ++ exn_str e);;
       mret None).

(** *** Environment detection *)

(** [detect_environment]. *)
Definition detect_environment : M Environment :=
  let system := PyStr.lower (sys_platform w) in
  if String.eqb system "windows" then mret WINDOWS
  else if String.eqb system "linux" then
    in_wsl ← try_except_only is_FileNotFoundError
      (content ← open_read "/proc/version";
       let version_info := PyStr.lower content in
       mret (PyStr.contains "microsoft" version_info
             || PyStr.contains "wsl" version_info))
      (fun _ => mret false);
    if (in_wsl : bool) then mret WSL else mret LINUX
  else if String.eqb system "darwin" then mret MACOS
  else mret UNKNOWN.

(** The loop over the lines of [/etc/resolv.conf]. *)
Fixpoint first_nameserver (ls : list string) : option string :=
  match ls with
  | [] => None
  | line :: rest =>
      let line := PyStr.strip line in
      if PyStr.startswith line "nameserver" then
        match PyStr.split line with
        | _ :: addr :: _ => Some addr
        | _ => first_nameserver rest
        end
      else first_nameserver rest
  end.

(** [detect_wsl_host_ip]. *)
Definition detect_wsl_host_ip : M string :=
  env ← detect_environment;
  if negb (Environment_eqb env WSL) then mret ""
  else
    found ← try_except
      (content ← open_read "/etc/resolv.conf";
       match first_nameserver (PyStr.lines content) with
       | Some addr => mret (Some addr)
       | None =>
           result ← subprocess_run IpRouteShowDefault;
           if (returncode result =? 0)%Z then
             match PyStr.split (PyStr.strip (stdout result)) with
             | p0 :: p1 :: p2 :: _ =>
                 if String.eqb p0 "default" && String.eqb p1 "via"
                 then mret (Some p2) else mret None
             | _ => mret None
             end
           else mret None
       end)
      (fun _ => mret None);
    match found with
    | Some addr => mret addr
    | None => mret ""
    end.

(** *** Windows network setup *)

(** [is_admin]. *)
Definition is_admin : M bool :=
  if negb (String.eqb (PyStr.lower (sys_platform w)) "windows") then mret false
  else
    try_except
      (emit AdminQuery;;
       r ← of_outcome (sys_admin w);
       mret (negb (r =? 0)%Z))
      (fun _ => mret false).

(** [get_wsl_adapter_ip]. *)
Definition get_wsl_adapter_ip : M string :=
  env ← detect_environment;
  if negb (Environment_eqb env WINDOWS) then mret ""
  else
    found ← try_except
      (result ← subprocess_run GetNetIPAddressWSL;
       if (returncode result =? 0)%Z && PyStr.truthy (PyStr.strip (stdout result))
       then
         let ip := PyStr.strip
           (hd "" (PyStr.split_on PyStr.LF (PyStr.strip (stdout result)))) in
         mret (Some ip)
       else mret None)
      (fun _ => mret None);
    match found with
    | Some ip => mret ip
    | None => mret ""
    end.

(** [setup_portproxy]. *)
Definition setup_portproxy (wsl_ip : string) (port : Z) : M bool :=
  admin ← is_admin;
  if negb admin then
    printer LError "Administrator privileges required for portproxy setup";;
    mret false
  else
    try_except
      (subprocess_run (NetshDelete wsl_ip port);;
       result ← subprocess_run (NetshAdd wsl_ip port "127.0.0.1" port);
       if (returncode result =? 0)%Z then
         printer LSuccess ("Configured portproxy: " ++ wsl_ip ++ ":" ++ PyStr.of_Z port
                           ++ " -> 127.0.0.1:" ++ PyStr.of_Z port);;
         mret true
       else
         printer LError ("Failed to configure portproxy: " ++ stderr result);;
         mret false)
      (fun e =>
         printer LError ("Error setting up portproxy: " ++ exn_str e);;
         mret false).

(** [cleanup_portproxy]. *)
Definition cleanup_portproxy (wsl_ip : string) (port : Z) : M bool :=
  admin ← is_admin;
  if negb admin then
    printer LWarning "Administrator privileges required for portproxy cleanup";;
    mret false
  else
    try_except
      (result ← subprocess_run (NetshDelete wsl_ip port);
       if (returncode result =? 0)%Z then
         printer LSuccess ("Removed portproxy rule for " ++ wsl_ip ++ ":" ++ PyStr.of_Z port);;
         mret true
       else
         (if negb (PyStr.contains "does not exist" (PyStr.lower (stderr result)))
          then printer LWarning ("Portproxy cleanup issue: " ++ stderr result)
          else mret tt);;
         mret true)
      (fun e =>
         printer LWarning ("Error cleaning up portproxy: " ++ exn_str e);;
         mret false).

(** [key in data] for a string key: membership in a dict's keys, in a
    list, or as a substring; anything else is not a container. *)
Definition py_in (key : string) (data : json) : outcome bool :=
  match data with
  | JObj fields => Ret (existsb (fun kv => String.eqb (fst kv) key) fields)
  | JArr items =>
      Ret (existsb (fun v => match v with JStr s => String.eqb s key | _ => false end) items)
  | JStr s => Ret (PyStr.contains key s)
  | _ => Raise (mkExn TypeError "argument is not iterable")
  end.

(** ['Browser' in data or 'webSocketDebuggerUrl' in data]. *)
Definition is_devtools_metadata (data : json) : outcome bool :=
  match py_in "Browser" data with
  | Ret true => Ret true
  | Ret false => py_in "webSocketDebuggerUrl" data
  | Raise e => Raise e
  end.

Definition version_url (port : Z) : string :=
  "http://127.0.0.1:" ++ PyStr.of_Z port ++ "/json/version".

(** One iteration of the loop of [verify_chrome_listening]; [true] stands
    for the [return True] inside it. *)
Definition verify_attempt (port max_retries : Z) (delay : Q) (attempt : Z) : M bool :=
  try_except
    (result ← socket_connect_ex "127.0.0.1" port;
     listening ←
       (if (result =? 0)%Z then
          try_except
            (data ← urlopen_json (version_url port);
             ok ← of_outcome (is_devtools_metadata data);
             if (ok : bool) then
               printer LSuccess ("Chrome DevTools listening on port " ++ PyStr.of_Z port);;
               mret true
             else mret false)
            (fun _ => mret false)
        else mret false);
     if (listening : bool) then mret true
     else
       (if (attempt <? max_retries - 1)%Z then time_sleep delay else mret tt);;
       mret false)
    (fun _ =>
       (if (attempt <? max_retries - 1)%Z then time_sleep delay else mret tt);;
       mret false).

Fixpoint verify_loop (port max_retries : Z) (delay : Q) (remaining : nat)
    (attempt : Z) : M bool :=
  match remaining with
  | O => mret false
  | S k =>
      listening ← verify_attempt port max_retries delay attempt;
      if (listening : bool) then mret true
      else verify_loop port max_retries delay k (attempt + 1)
  end.

(** [verify_chrome_listening]: [for attempt in range(max_retries)]. *)
Definition verify_chrome_listening (port max_retries : Z) (delay : Q) : M bool :=
  verify_loop port max_retries delay (Z.to_nat max_retries) 0.

(** *** Windows orchestration *)

(** The attributes of a [WindowsOrchestrator] object. *)
Record WindowsOrchestrator := mkWindowsOrchestrator {
  wo_browser : Browser;
  wo_debug_port : Z;
  wo_env : Environment;
  wo_wsl_ip : string
}.

(** [WindowsOrchestrator.__init__]. *)
Definition WindowsOrchestrator_init (b : Browser) (port : Z) : WindowsOrchestrator :=
  mkWindowsOrchestrator b port WINDOWS "".

Definition rule60 : string := PyStr.repeat "=" 60.

(** [WindowsOrchestrator.run]. *)
Definition WindowsOrchestrator_run (self : WindowsOrchestrator)
    : M WindowsSetupResult :=
  let result := mkWindowsSetupResult false "" false false "" in
  admin ← is_admin;
  if negb admin then
    let result := with_error_message "Administrator privileges required" result in
    printer LError (error_message result);;
    printer LInfo "Please run this script as Administrator";;
    mret result
  else
  printer LStep "Running as Administrator ✓";;
  printer LStep "Detecting WSL network adapter...";;
  ip ← get_wsl_adapter_ip;
  let self := mkWindowsOrchestrator (wo_browser self) (wo_debug_port self)
                (wo_env self) ip in
  let result := with_wsl_ip (wo_wsl_ip self) result in
  if negb (PyStr.truthy (wo_wsl_ip self)) then
    let result := with_error_message "Could not detect WSL adapter IP" result in
    printer LError (error_message result);;
    printer LInfo "Make sure WSL is installed and has been run at least once";;
    mret result
  else
  printer LSuccess ("WSL adapter IP: " ++ wo_wsl_ip self);;
  printer LStep ("Locating " ++ Browser_value (wo_browser self) ++ "...");;
  found ← find_browser (wo_browser self) (wo_env self);
  match found with
  | None | Some EmptyString =>
    let result := with_error_message
      ("Could not find " ++ Browser_value (wo_browser self) ++ " installation")
      result in
    printer LError (error_message result);;
    mret result
  | Some browser_path =>
  printer LSuccess ("Found: " ++ browser_path);;
  printer LStep "Preparing browser environment...";;
  kill_browser (wo_browser self) (wo_env self);;
  time_sleep 1;;
  let profile_dir := os_path_join (sys_tempdir w)
    ("wsl-dev-" ++ Browser_value (wo_browser self) ++ "-profile") in
  cleanup_profile profile_dir;;
  printer LStep ("Launching " ++ Browser_value (wo_browser self) ++ "...");;
  let browser_args := get_browser_args (wo_browser self) (wo_debug_port self)
                        profile_dir (wo_env self) in
  let process_name := get_process_name (wo_browser self) (wo_env self) in
  let config := mkBrowserConfig browser_path (wo_debug_port self) profile_dir
                  browser_args process_name in
  process ← launch_browser config (wo_env self);
  match process with
  | None =>
    let result := with_error_message "Failed to launch browser" result in
    printer LError (error_message result);;
    mret result
  | Some _ =>
  printer LStep "Waiting for browser to initialize...";;
  listening ← verify_chrome_listening (wo_debug_port self) 10 1;
  if negb listening then
    let result := with_error_message
      "Browser did not start listening on debug port" result in
    printer LError (error_message result);;
    mret result
  else
  let result := with_chrome_listening true result in
  printer LStep "Configuring network portproxy...";;
  configured ← setup_portproxy (wo_wsl_ip self) (wo_debug_port self);
  if negb configured then
    let result := with_error_message "Failed to configure portproxy" result in
    printer LError (error_message result);;
    mret result
  else
  let result := with_portproxy_configured true result in
  printer LStep "Verifying setup...";;
  let result := with_success true result in
  printer LSuccess rule60;;
  printer LSuccess "Windows setup complete!";;
  printer LSuccess ("Browser debug endpoint: " ++ wo_wsl_ip self ++ ":"
                    ++ PyStr.of_Z (wo_debug_port self));;
  printer LSuccess "WSL can now connect to the browser";;
  printer LSuccess rule60;;
  mret result
  end
  end.

(** *** WSL orchestration *)

(** [verify_connection]; the timeout bounds the blocking connect and has
    no other effect. *)
Definition verify_connection (host : string) (port : Z) (timeout : Q) : M bool :=
  try_except
    (result ← socket_connect_ex host port;
     mret (result =? 0)%Z)
    (fun _ => mret false).

(** [run_powershell_from_wsl]. *)
Definition run_powershell_from_wsl (script : ps_script) : M (bool * string) :=
  try_except
    (result ← subprocess_run (PowershellExe script);
     if (returncode result =? 0)%Z
     then mret (true, PyStr.strip (stdout result))
     else mret (false, PyStr.strip (stderr result)))
    (fun e =>
       if is_TimeoutExpired e then mret (false, "PowerShell command timed out")
       else mret (false, "Failed to run PowerShell: " ++ exn_str e)).

(** The attributes of a [WSLOrchestrator] object. *)
Record WSLOrchestrator := mkWSLOrchestrator {
  wsl_browser : Browser;
  wsl_debug_port : Z;
  wsl_windows_host_ip : string
}.

(** [WSLOrchestrator.__init__]. *)
Definition WSLOrchestrator_init (b : Browser) (port : Z) : WSLOrchestrator :=
  mkWSLOrchestrator b port "".

Definition max_attempts : Z := 5.

(** The verification loop at the end of [WSLOrchestrator.run]; [true]
    stands for leaving it through [break]. *)
Fixpoint wsl_verify_loop (host : string) (port : Z) (remaining : nat)
    (attempt : Z) : M bool :=
  match remaining with
  | O => mret false
  | S k =>
      ok ← verify_connection host port 2;
      if (ok : bool) then mret true
      else
        (if (attempt <? max_attempts - 1)%Z then
           printer LInfo ("Attempt " ++ PyStr.of_Z (attempt + 1) ++ "/"
                          ++ PyStr.of_Z max_attempts ++ " - waiting...");;
           time_sleep 2
         else mret tt);;
        wsl_verify_loop host port k (attempt + 1)
  end.

(** [WSLOrchestrator.run]. *)
Definition WSLOrchestrator_run (self : WSLOrchestrator) : M WSLSetupResult :=
  let result := mkWSLSetupResult false "" false false "" in
  printer LStep "Running from WSL - initiating cross-environment setup";;
  printer LStep "Detecting Windows host IP...";;
  ip ← detect_wsl_host_ip;
  let self := mkWSLOrchestrator (wsl_browser self) (wsl_debug_port self) ip in
  let result := with_windows_host_ip (wsl_windows_host_ip self) result in
  if negb (PyStr.truthy (wsl_windows_host_ip self)) then
    let result := with_wsl_error_message
      "Could not detect Windows host IP from WSL" result in
    printer LError (wsl_error_message result);;
    printer LInfo "Make sure you're running from WSL, not native Linux";;
    mret result
  else
  printer LSuccess ("Windows host IP: " ++ wsl_windows_host_ip self);;
  printer LStep "Checking existing connection...";;
  reachable ← verify_connection (wsl_windows_host_ip self) (wsl_debug_port self) 2;
  if (reachable : bool) then
    printer LSuccess "Browser debug port already accessible!";;
    let result := with_wsl_success true result in
    let result := with_windows_setup_completed true result in
    let result := with_connection_verified true result in
    printer LInfo "Skipping Windows setup (already configured)";;
    mret result
  else
  printer LStep "Preparing Windows setup script...";;
  let current_script := sys_script w in
  if negb (PyStr.startswith current_script "/mnt/") then
    let result := with_wsl_error_message
      "Could not determine Windows path to script" result in
    printer LError (wsl_error_message result);;
    printer LInfo ("Script path: " ++ current_script);;
    printer LInfo "Make sure the script is on a Windows drive (e.g., /mnt/c/...)";;
    mret result
  else
  let parts := PyStr.split_on "/" current_script in
  let drive := PyStr.upper (nth 2 parts "") in
  let windows_path := drive ++ ":\" ++ PyStr.join "\" (skipn 3 parts) in
  let ps := mkScript windows_path (Browser_value (wsl_browser self))
              (wsl_debug_port self) in
  printer LStep "Executing setup on Windows (this requires Administrator)...";;
  printer LWarning "You may see a UAC prompt on Windows - please approve it";;
  '(ok, output) ← run_powershell_from_wsl ps;
  if negb ok then
    let result := with_wsl_error_message ("Windows setup failed: " ++ output) result in
    printer LError (wsl_error_message result);;
    printer LInfo "";;
    printer LInfo "Troubleshooting steps:";;
    printer LInfo "1. Make sure PowerShell is run as Administrator on Windows";;
    printer LInfo "2. Verify Python 3 is installed on Windows";;
    printer LInfo "3. Check that the script path is accessible from Windows:";;
    printer LInfo ("   " ++ windows_path);;
    mret result
  else
  let result := with_windows_setup_completed true result in
  printer LSuccess "Windows setup completed";;
  printer LStep "Verifying connection from WSL...";;
  verified ← wsl_verify_loop (wsl_windows_host_ip self) (wsl_debug_port self)
               (Z.to_nat max_attempts) 0;
  let result :=
    if (verified : bool)
    then with_wsl_success true (with_connection_verified true result)
    else result in
  if negb (connection_verified result) then
    let result := with_wsl_error_message "Connection verification failed" result in
    printer LError (wsl_error_message result);;
    printer LInfo ("Could not connect to " ++ wsl_windows_host_ip self ++ ":"
                   ++ PyStr.of_Z (wsl_debug_port self));;
    printer LInfo "Windows setup may have completed but port is not accessible";;
    mret result
  else
  printer LSuccess rule60;;
  printer LSuccess "WSL orchestration complete!";;
  printer LSuccess ("Browser debug endpoint: " ++ wsl_windows_host_ip self ++ ":"
                    ++ PyStr.of_Z (wsl_debug_port self));;
  printer LSuccess "You can now use browser automation tools from WSL";;
  printer LSuccess rule60;;
  mret result.

End Tool.

(** ** The command line *)

(** [repr] of an ASCII string and of a list of strings, as an f-string
    prints them. *)
Module PyRepr.

Definition double_quote : ascii := ascii_of_nat 34.
Definition single_quote : ascii := ascii_of_nat 39.
Definition backslash : ascii := ascii_of_nat 92.

Fixpoint has_char (c : ascii) (s : string) : bool :=
  match s with
  | EmptyString => false
  | String d r => Ascii.eqb d c || has_char c r
  end.

Definition hex_digit (n : nat) : ascii :=
  nth n (list_ascii_of_string "0123456789abcdef") "0"%char.

(** One character inside the quotes. *)
Definition escape_char (quote c : ascii) : string :=
  let n := nat_of_ascii c in
  if Ascii.eqb c quote || Ascii.eqb c backslash
  then String backslash (String c EmptyString)
  else if (n =? 9)%nat then String backslash "t"
  else if (n =? 10)%nat then String backslash "n"
  else if (n =? 13)%nat then String backslash "r"
  else if (n <? 32)%nat || (n =? 127)%nat
  then String backslash
         (String "x" (String (hex_digit (n / 16)) (String (hex_digit (n mod 16)) EmptyString)))
  else String c EmptyString.

Fixpoint escape (quote : ascii) (s : string) : string :=
  match s with
  | EmptyString => EmptyString
  | String c r => escape_char quote c ++ escape quote r
  end.

(** [repr(s)]: single quotes, unless the string holds a single quote and
    no double quote. *)
Definition of_str (s : string) : string :=
  let quote :=
    if has_char single_quote s && negb (has_char double_quote s)
    then double_quote else single_quote in
  String quote (escape quote s) ++ String quote EmptyString.

(** [repr(l)] for a list of strings. *)
Definition of_list (l : list string) : string :=
  "[" ++ PyStr.join ", " (List.map of_str l) ++ "]".

End PyRepr.

(** What the command-line layer does beyond the core: the banner that
    [printer.header] prints and the portproxy listing of the diagnostics. *)
Inductive cli_event :=
| Core (e : event)
| Header (msg : string)
| RunNetshShow.
    (* netsh interface portproxy show v4tov4 *)

(** Computations of the command-line layer. *)
Definition C (A : Type) : Type := machine -> outcome A * machine * list cli_event.

#[global] Instance C_ret : MRet C := fun A a m => (Ret a, m, []).

#[global] Instance C_bind : MBind C := fun A B f c m =>
  match c m with
  | (Ret a, m1, t1) =>
      match f a m1 with (r, m2, t2) => (r, m2, (t1 ++ t2)%list) end
  | (Raise e, m1, t1) => (Raise e, m1, t1)
  end.

(** A computation of the core, run from the command line. *)
Definition lift {A} (c : M A) : C A := fun m =>
  match c m with (r, m1, t1) => (r, m1, List.map Core t1) end.

Definition cli_try_except {A} (body : C A) (handler : exn -> C A) : C A := fun m =>
  match body m with
  | (Ret a, m1, t1) => (Ret a, m1, t1)
  | (Raise e, m1, t1) =>
      match handler e m1 with (r, m2, t2) => (r, m2, (t1 ++ t2)%list) end
  end.

(** [printer.header]. *)
Definition header (msg : string) : C unit := fun m => (Ret tt, m, [Header msg]).

Definition exit_of {A} (r : outcome A * machine * list cli_event) : outcome A := r.1.1.
Definition state_of {A} (r : outcome A * machine * list cli_event) : machine := r.1.2.
Definition events_of {A} (r : outcome A * machine * list cli_event) : list cli_event := r.2.

(** The parsed arguments; [--browser] is one of the three choices the
    parser admits, so that [Browser[args.browser.upper()]] is defined. *)
Record Args := mkArgs {
  arg_browser : Browser;
  arg_port : Z;
  arg_detect_only : bool;
  arg_cleanup : bool;
  arg_verbose : bool;
  arg_diagnose : bool;
  arg_validate : bool;
  arg_serve : bool;
  arg_test : bool;
  arg_http_port : Z
}.

(** [l.append(x)]. *)
Definition list_append {A} (l : list A) (x : A) : list A := (l ++ [x])%list.

(** [DiagnosticResult]. *)
Record DiagnosticResult := mkDiagnosticResult {
  diag_env : Environment;
  browser_found : bool;
  browser_path : string;
  admin_rights : bool;
  diag_wsl_ip : string;
  host_ip : string;
  port_accessible : bool;
  portproxy_rule_exists : bool;
  details : list string
}.

Section CommandLine.

Context (w : world).

(** What [netsh interface portproxy show v4tov4] answers for a rule table
    at a moment; the layout of the listing is netsh's business. *)
Context (netsh_show : rule_table -> nat -> outcome completed).

(** [serve_test_page], the HTTP server of the test page: it runs until it
    is interrupted, and is not part of this development. *)
Context (serve_test_page : Z -> bool -> option Browser -> option Environment -> C unit).

(** [subprocess.run] of the portproxy listing. *)
Definition subprocess_run_netsh_show : C completed := fun m =>
  (netsh_show (rules m) (tick m), set_tick (S (tick m)) m, [RunNetshShow]).

(** [run_diagnostics], for a browser name the parser admits. *)
Definition run_diagnostics (b : Browser) (port : Z) : C DiagnosticResult :=
  env ← lift (detect_environment w);
  let browser := b in
  let details := [] in
  header "Diagnostic Report";;
  let details := list_append details ("Environment: " ++ Environment_value env) in
  lift (printer LStep ("Environment: " ++ Environment_value env));;
  found ← lift (find_browser w browser env);
  let browser_found :=
    match found with Some p => PyStr.truthy p | None => false end in
  details ←
    (if browser_found then
       let p := match found with Some p => p | None => "" end in
       lift (printer LSuccess ("Browser found: " ++ p));;
       mret (list_append details ("Browser found: " ++ p))
     else
       lift (printer LError ("Browser not found: " ++ Browser_value browser));;
       mret (list_append details ("Browser not found: " ++ Browser_value browser)));
  '(admin_rights, details) ←
    (if Environment_eqb env WINDOWS then
       admin_rights ← lift (is_admin w);
       let status := if (admin_rights : bool) then "Yes" else "No" in
       (if admin_rights then lift (printer LSuccess ("Admin rights: " ++ status))
        else lift (printer LWarning ("Admin rights: " ++ status)));;
       mret (admin_rights, list_append details ("Admin rights: " ++ status))
     else
       lift (printer LInfo "Admin rights: N/A");;
       mret (false, list_append details "Admin rights: N/A (not Windows)"));
  '(wsl_ip, host_ip, details) ←
    (if Environment_eqb env WINDOWS then
       wsl_ip ← lift (get_wsl_adapter_ip w);
       if PyStr.truthy wsl_ip then
         lift (printer LSuccess ("WSL Adapter IP: " ++ wsl_ip));;
         mret (wsl_ip, "", list_append details ("WSL Adapter IP: " ++ wsl_ip))
       else
         lift (printer LWarning "WSL Adapter IP: Not found");;
         mret (wsl_ip, "", list_append details "WSL Adapter IP: Not found")
     else if Environment_eqb env WSL then
       host_ip ← lift (detect_wsl_host_ip w);
       if PyStr.truthy host_ip then
         lift (printer LSuccess ("Windows Host IP: " ++ host_ip));;
         mret ("", host_ip, list_append details ("Windows Host IP: " ++ host_ip))
       else
         lift (printer LWarning "Windows Host IP: Not found");;
         mret ("", host_ip, list_append details "Windows Host IP: Not found")
     else mret ("", "", details));
  checks_rule ←
    (if Environment_eqb env WINDOWS then
       admin ← lift (is_admin w);
       mret (admin && PyStr.truthy wsl_ip)
     else mret false);
  '(portproxy_rule_exists, details) ←
    (if (checks_rule : bool) then
       cli_try_except
         (result ← subprocess_run_netsh_show;
          if PyStr.contains wsl_ip (stdout result)
             && PyStr.contains (PyStr.of_Z port) (stdout result)
          then
            let msg := "Portproxy rule exists for " ++ wsl_ip ++ ":" ++ PyStr.of_Z port in
            lift (printer LSuccess msg);;
            mret (true, list_append details msg)
          else
            let msg := "No portproxy rule found for " ++ wsl_ip ++ ":" ++ PyStr.of_Z port in
            lift (printer LWarning msg);;
            mret (false, list_append details msg))
         (fun e =>
            let msg := "Error checking portproxy: " ++ exn_str e in
            lift (printer LError msg);;
            mret (false, list_append details msg))
     else mret (false, details));
  let check_ip :=
    if Environment_eqb env WSL && PyStr.truthy host_ip then host_ip else "127.0.0.1" in
  let details :=
    list_append details ("Checking connection to " ++ check_ip ++ ":" ++ PyStr.of_Z port ++ "...") in
  reachable ← lift (verify_connection w check_ip port 1);
  '(port_accessible, details) ←
    (if (reachable : bool) then
       let msg := "Port " ++ PyStr.of_Z port ++ " is accessible" in
       lift (printer LSuccess msg);;
       mret (true, list_append details msg)
     else
       let msg := "Port " ++ PyStr.of_Z port ++ " is NOT accessible" in
       lift (printer LWarning msg);;
       mret (false, list_append details msg));
  mret (mkDiagnosticResult env browser_found
          (match found with Some p => p | None => "" end)
          admin_rights wsl_ip host_ip port_accessible portproxy_rule_exists details).

(** [main]: the exit status of the tool. *)
Definition main (args : Args) : C Z :=
  header "WSL Dev Kit - Browser Debug Bridge";;
  if arg_serve args || arg_test args then
    (if arg_test args then
       lift (printer LInfo "Test mode: serving test page and opening browser");;
       env ← lift (detect_environment w);
       let browser := arg_browser args in
       serve_test_page (arg_http_port args) true (Some browser) (Some env)
     else
       lift (printer LInfo "Serving embedded test page");;
       serve_test_page (arg_http_port args) false None None);;
    mret 0
  else if arg_diagnose args then
    run_diagnostics (arg_browser args) (arg_port args);;
    mret 0
  else if arg_validate args then
    lift (printer LInfo "Running validation check...");;
    result ← run_diagnostics (arg_browser args) (arg_port args);
    if browser_found result && port_accessible result then
      lift (printer LSuccess "Validation PASSED");;
      mret 0
    else
      lift (printer LError "Validation FAILED");;
      mret 1
  else
  env ← lift (detect_environment w);
  lift (printer LInfo ("Detected environment: " ++ Environment_value env));;
  (if Environment_eqb env WSL then
     host_ip ← lift (detect_wsl_host_ip w);
     if PyStr.truthy host_ip
     then lift (printer LInfo ("Windows host IP: " ++ host_ip))
     else lift (printer LWarning "Could not detect Windows host IP")
   else mret tt);;
  let browser := arg_browser args in
  lift (printer LInfo ("Target browser: " ++ Browser_value browser));;
  lift (printer LInfo ("Debug port: " ++ PyStr.of_Z (arg_port args)));;
  found ← lift (find_browser w browser env);
  match found with
  | None | Some EmptyString =>
    lift (printer LError ("Could not find " ++ Browser_value browser ++ " installation"));;
    lift (printer LInfo ("Searched paths: "
                         ++ PyRepr.of_list (BROWSER_PATHS w browser env)));;
    mret 1
  | Some browser_path =>
  lift (printer LSuccess ("Found browser: " ++ browser_path));;
  if arg_detect_only args then
    lift (printer LSuccess "Detection complete");;
    mret 0
  else if arg_cleanup args then
    lift (printer LStep "Cleaning up...");;
    lift (kill_browser w browser env);;
    (if Environment_eqb env WINDOWS then
       admin ← lift (is_admin w);
       if (admin : bool) then
         wsl_ip ← lift (get_wsl_adapter_ip w);
         if PyStr.truthy wsl_ip
         then lift (cleanup_portproxy w wsl_ip (arg_port args));; mret tt
         else mret tt
       else mret tt
     else mret tt);;
    mret 0
  else if Environment_eqb env WINDOWS then
    let orchestrator := WindowsOrchestrator_init browser (arg_port args) in
    result ← lift (WindowsOrchestrator_run w orchestrator);
    if negb (success result) then mret 1 else mret 0
  else if Environment_eqb env WSL then
    let orchestrator := WSLOrchestrator_init browser (arg_port args) in
    result ← lift (WSLOrchestrator_run w orchestrator);
    if negb (wsl_success result) then mret 1 else mret 0
  else
  lift (printer LStep "Native environment detected - launching browser locally");;
  let profile_dir := os_path_join w (sys_tempdir w)
    ("wsl-dev-" ++ Browser_value browser ++ "-profile") in
  lift (printer LStep "Preparing browser environment...");;
  lift (kill_browser w browser env);;
  lift (time_sleep 1);;
  lift (cleanup_profile profile_dir);;
  let browser_args := get_browser_args browser (arg_port args) profile_dir env in
  let process_name := get_process_name browser env in
  let config := mkBrowserConfig browser_path (arg_port args) profile_dir
                  browser_args process_name in
  lift (printer LStep ("Launching " ++ Browser_value browser ++ "..."));;
  process ← lift (launch_browser w config env);
  match process with
  | None =>
    lift (printer LError "Failed to launch browser");;
    mret 1
  | Some _ =>
  lift (printer LStep "Waiting for browser to initialize...");;
  lift (time_sleep 3);;
  lift (printer LSuccess ("Browser launched successfully on port "
                          ++ PyStr.of_Z (arg_port args)));;
  lift (printer LInfo "Browser is running in the background");;
  mret 0
  end
  end.

End CommandLine.

(** ** Concrete worlds *)

Module Scenarios.

Definition nl : string := String PyStr.LF EmptyString.

Definition not_found (p : string) : exn :=
  mkExn FileNotFoundError ("No such file or directory: " ++ p).

Definition denied (p : string) : exn :=
  mkExn PermissionError ("Permission denied: " ++ p).

Definition devtools_metadata : json :=
  JObj [ ("Browser", JStr "Chrome/120.0.0.0");
         ("webSocketDebuggerUrl", JStr "ws://127.0.0.1:9222/devtools/browser/1") ].

Definition chrome_exe : string :=
  "C:\Program Files\Google\Chrome\Application\chrome.exe".

(** A Windows host: the WSL adapter has address 10.0.0.5, Chrome is
    installed at its usual place, and the debug port opens [opens_at]
    clock ticks after the start. *)
Definition windows_world (admin : outcome Z) (opens_at : nat) : world :=
  {| sys_platform := "Windows";
     sys_file := fun p => Raise (not_found p);
     sys_admin := admin;
     sys_which := fun _ => None;
     sys_expandvars := fun p => p;
     sys_expanduser := fun p => p;
     sys_tempdir := "C:\Temp";
     sys_sep := "\";
     sys_script := "C:\tools\wsl_dev_kit.py";
     sys_process := fun cmd _ =>
       match cmd with
       | GetNetIPAddressWSL => Ret (mkCompleted 0 ("10.0.0.5" ++ nl) "")
       | Taskkill _ => Ret (mkCompleted 128 "" "ERROR: The process was not found.")
       | _ => Raise (mkExn OSError "unexpected command")
       end;
     sys_spawn := fun _ _ _ => Ret 4242;
     sys_connect := fun _ _ t => Ret (if (opens_at <=? t)%nat then 0 else 10061);
     sys_http := fun _ _ => Ret devtools_metadata;
     netsh_fault := fun _ => None;
     netsh_add_ok := fun _ _ => true;
     netsh_stderr := "The system cannot find the file specified." |}.

Definition chrome_profile : string := "C:\Temp\wsl-dev-chrome-profile".

(** The profile a previous run left behind; [lock_free] tells whether the
    lock file can be deleted. *)
Definition stale_profile (lock_free : bool) : node :=
  Dir true [ ("SingletonLock", File lock_free);
             ("Default", Dir true [ ("Preferences", File true);
                                    ("History", File true) ]);
             ("First Run", File true) ].

Definition windows_machine (lock_free : bool) : machine :=
  {| tick := 0;
     rules := ∅;
     fs := {[ chrome_exe := File false;
              chrome_profile := stale_profile lock_free ]} |}.

(** A WSL guest whose resolver configuration is [resolv] and whose default
    route is [route]; the host's debug port answers from tick [opens_at] on. *)
Definition wsl_world (resolv : outcome string) (route : outcome completed)
    (opens_at : nat) (remote : outcome completed) : world :=
  {| sys_platform := "Linux";
     sys_file := fun p =>
       if String.eqb p "/proc/version"
       then Ret "Linux version 5.15.90.1-microsoft-standard-WSL2"
       else if String.eqb p "/etc/resolv.conf" then resolv
       else Raise (not_found p);
     sys_admin := Raise (mkExn AttributeError "module 'ctypes' has no attribute 'windll'");
     sys_which := fun _ => None;
     sys_expandvars := fun p => p;
     sys_expanduser := fun p => p;
     sys_tempdir := "/tmp";
     sys_sep := "/";
     sys_script := "/mnt/c/tools/wsl_dev_kit.py";
     sys_process := fun cmd _ =>
       match cmd with
       | IpRouteShowDefault => route
       | PowershellExe _ => remote
       | _ => Raise (mkExn OSError "unexpected command")
       end;
     sys_spawn := fun _ _ _ => Raise (mkExn OSError "cannot spawn");
     sys_connect := fun _ _ t => Ret (if (opens_at <=? t)%nat then 0 else 111);
     sys_http := fun _ _ => Raise (mkExn URLError "connection refused");
     netsh_fault := fun c => Some (not_found "netsh");
     netsh_add_ok := fun _ _ => false;
     netsh_stderr := "" |}.

(** A Linux machine on which reading [/proc/version] has the outcome
    [version]. *)
Definition linux_world (version : outcome string) : world :=
  {| sys_platform := "Linux";
     sys_file := fun p =>
       if String.eqb p "/proc/version" then version else Raise (not_found p);
     sys_admin := Raise (mkExn AttributeError "module 'ctypes' has no attribute 'windll'");
     sys_which := fun _ => None;
     sys_expandvars := fun p => p;
     sys_expanduser := fun p => p;
     sys_tempdir := "/tmp";
     sys_sep := "/";
     sys_script := "/home/dev/wsl_dev_kit.py";
     sys_process := fun _ _ => Raise (mkExn OSError "unexpected command");
     sys_spawn := fun _ _ _ => Raise (mkExn OSError "cannot spawn");
     sys_connect := fun _ _ _ => Ret 111;
     sys_http := fun _ _ => Raise (mkExn URLError "connection refused");
     netsh_fault := fun c => Some (not_found "netsh");
     netsh_add_ok := fun _ _ => false;
     netsh_stderr := "" |}.

Definition resolv_conf : string :=
  "# This file was automatically generated by WSL." ++ nl ++
  "nameserver 192.168.1.1" ++ nl.

Definition default_route : completed :=
  mkCompleted 0 ("default via 172.20.0.1 dev eth0 proto kernel" ++ nl) "".

Definition empty_machine : machine := {| tick := 0; rules := ∅; fs := ∅ |}.

(** A system that is none of Windows, Linux and macOS. *)
Definition freebsd_world : world :=
  {| sys_platform := "FreeBSD";
     sys_file := fun p => Raise (not_found p);
     sys_admin := Raise (mkExn AttributeError "module 'ctypes' has no attribute 'windll'");
     sys_which := fun _ => None;
     sys_expandvars := fun p => p;
     sys_expanduser := fun p => p;
     sys_tempdir := "/tmp";
     sys_sep := "/";
     sys_script := "/home/dev/wsl_dev_kit.py";
     sys_process := fun _ _ => Raise (mkExn OSError "unexpected command");
     sys_spawn := fun _ _ _ => Raise (mkExn OSError "cannot spawn");
     sys_connect := fun _ _ _ => Ret 61;
     sys_http := fun _ _ => Raise (mkExn URLError "connection refused");
     netsh_fault := fun c => Some (not_found "netsh");
     netsh_add_ok := fun _ _ => false;
     netsh_stderr := "" |}.

(** The remote setup exits with status 0. *)
Definition remote_ok : outcome completed := Ret (mkCompleted 0 "" "").

(** A guest whose resolver configuration names no server. *)
Definition guest_without_nameserver : world :=
  wsl_world (Ret "# no server here") (Ret default_route) 0 remote_ok.

(** The worlds and machines of the concrete runs. *)

(** The guest of scenario D: the resolver names 192.168.1.1 and the debug
    port already answers. *)
Definition configured_guest : world :=
  wsl_world (Ret resolv_conf) (Ret default_route) 0 remote_ok.

(** A guest without a readable resolver configuration but with a default
    route. *)
Definition guest_without_resolv_conf : world :=
  wsl_world (Raise (not_found "/etc/resolv.conf")) (Ret default_route) 0 remote_ok.

(** A Linux machine on which [/proc/version] exists but may not be read. *)
Definition guarded_linux : world :=
  linux_world (Raise (denied "/proc/version")).

(** The host of scenario A: elevated, the port opens at tick 6. *)
Definition elevated_host : world := windows_world (Ret 1) 6.

(** The same host without elevation. *)
Definition plain_host : world := windows_world (Ret 0) 6.

(** A host on which the browser never starts listening. *)
Definition deaf_host : world := windows_world (Ret 1) 1000.

(** A rule for the same listen address and port left by an earlier run. *)
Definition machine_with_old_rule : machine :=
  {| tick := 0;
     rules := {[ ("10.0.0.5", 9222) := ("127.0.0.1", 9333) ]};
     fs := ∅ |}.

(** The remote setup is refused: PowerShell exits with status 1. *)
Definition refused_remote : outcome completed :=
  Ret (mkCompleted 1 "" "Administrator privileges required.").

(** A guest whose host runs the remote setup but never opens the port. *)
Definition silent_host_guest : world :=
  wsl_world (Ret resolv_conf) (Ret default_route) 1000 remote_ok.

(** A guest whose host refuses the remote setup. *)
Definition refusing_host_guest : world :=
  wsl_world (Ret resolv_conf) (Ret default_route) 1000 refused_remote.


(** The script the guest of the scenarios hands to Windows. *)
Definition chrome_setup_script : ps_script :=
  mkScript "C:\tools\wsl_dev_kit.py" "chrome" 9222.

(** A portproxy listing without any rule. *)
Definition empty_listing : rule_table -> nat -> outcome completed :=
  fun _ _ => Ret (mkCompleted 0 "" "").

(** The test page is never asked for in the runs below. *)
Definition no_test_page : Z -> bool -> option Browser -> option Environment -> C unit :=
  fun _ _ _ _ => mret tt.

(** The command line without any option, and with one mode flag. *)
Definition default_args : Args :=
  mkArgs CHROME 9222 false false false false false false false 8080.

Definition validate_args : Args :=
  mkArgs CHROME 9222 false false false false true false false 8080.

Definition cleanup_args : Args :=
  mkArgs CHROME 9222 false true false false false false false 8080.

End Scenarios.

(** ** Vocabulary of the statements *)

(** A command that touches the portproxy table. *)
Definition is_relay_command (e : event) : bool :=
  match e with
  | Run (NetshDelete _ _) | Run (NetshAdd _ _ _ _) => true
  | _ => false
  end.

(** A remote invocation of the tool on the Windows side. *)
Definition is_remote_invocation (e : event) : bool :=
  match e with
  | Run (PowershellExe _) => true
  | _ => false
  end.

(** Anything beyond talking to the console and asking for the privilege
    level: subprocesses, spawned browsers, deletions, sleeps, network. *)
Definition is_action (e : event) : bool :=
  match e with
  | Log _ _ | AdminQuery => false
  | _ => true
  end.

Definition is_connect (e : event) : bool :=
  match e with
  | Connect _ _ => true
  | _ => false
  end.

Definition is_sleep (e : event) : bool :=
  match e with
  | Sleep _ => true
  | _ => false
  end.

Definition none_of (p : event -> bool) (t : list event) : Prop :=
  Forall (fun e => p e = false) t.


(** The console message [verify_chrome_listening] prints just before it
    returns [True]. *)
Definition listening_message (port : Z) : event :=
  Log LSuccess ("Chrome DevTools listening on port " ++ PyStr.of_Z port).

(** The number of TCP connection attempts in a trace. *)
Definition connects (t : list event) : nat := List.length (List.filter is_connect t).

(** The number of sleeps in a trace. *)
Definition sleeps (t : list event) : nat := List.length (List.filter is_sleep t).

(** What one elevated call of [setup_portproxy] does to the rule table. *)
Definition rules_after_setup (w : world) (wsl_ip : string) (port : Z) (r : rule_table)
    : rule_table :=
  match netsh_fault w (NetshDelete wsl_ip port) with
  | Some _ => r
  | None =>
      match netsh_fault w (NetshAdd wsl_ip port "127.0.0.1" port) with
      | Some _ => delete (wsl_ip, port) r
      | None =>
          if netsh_add_ok w wsl_ip port
          then <[(wsl_ip, port) := ("127.0.0.1", port)]> r
          else delete (wsl_ip, port) r
      end
  end.

(** A computation that always returns normally. *)
Definition returns {A} (c : M A) : Prop :=
  forall m, exists a m' t, c m = (Ret a, m', t).

(** The path names a regular file. *)
Definition is_regular_file (m : machine) (p : string) : bool :=
  match fs m !! p with Some (File _) => true | _ => false end.

(** A table entry of [BROWSER_PATHS] after [expanduser] and [expandvars]. *)
Definition expanded (w : world) (p : string) : string :=
  sys_expandvars w (sys_expanduser w p).

(** [shutil.which] finds nothing usable under the name. *)
Definition off_path (w : world) (name : string) : bool :=
  match sys_which w name with
  | Some found => negb (PyStr.truthy found)
  | None => true
  end.

(** There is no white space in the string. *)
Fixpoint blank_free (s : string) : bool :=
  match s with
  | EmptyString => true
  | String c r => negb (PyStr.is_space c) && blank_free r
  end.

(** The character does not occur in the string. *)
Fixpoint free_of (c : ascii) (s : string) : bool :=
  match s with
  | EmptyString => true
  | String d r => negb (Ascii.eqb d c) && free_of c r
  end.

(** The number of remote invocations in a trace. *)
Definition remote_invocations (t : list event) : nat :=
  List.length (List.filter is_remote_invocation t).

(** An event that kills processes, deletes files, spawns a browser or
    changes the portproxy table. *)
Definition is_destructive (e : event) : bool :=
  match e with
  | Run (Taskkill _) | Run (Pkill _)
  | Run (NetshDelete _ _) | Run (NetshAdd _ _ _ _)
  | Popen _ _ | Rmtree _ => true
  | _ => false
  end.

(** The command [kill_browser] runs. *)
Definition kill_command (b : Browser) (env : Environment) : command :=
  if Environment_eqb env WINDOWS
  then Taskkill (get_process_name b env)
  else Pkill (get_process_name b env).

(** The profile directory the orchestrator uses for a browser. *)
Definition profile_path (w : world) (b : Browser) : string :=
  os_path_join w (sys_tempdir w) ("wsl-dev-" ++ Browser_value b ++ "-profile").

(** The PowerShell script [WSLOrchestrator.run] builds for a script path. *)
Definition remote_script (w : world) (self : WSLOrchestrator) : ps_script :=
  let parts := PyStr.split_on "/" (sys_script w) in
  mkScript (PyStr.upper (nth 2 parts "") ++ ":\" ++ PyStr.join "\" (skipn 3 parts))
    (Browser_value (wsl_browser self)) (wsl_debug_port self).

(** The messages of the three failures that come before the browser is
    touched. *)
Definition stopped_before_browser (b : Browser) (r : WindowsSetupResult) : Prop :=
  error_message r = "Administrator privileges required"
  \/ error_message r = "Could not detect WSL adapter IP"
  \/ error_message r = "Could not find " ++ Browser_value b ++ " installation".


(** A browser is spawned. *)
Definition is_spawn (e : event) : bool :=
  match e with
  | Popen _ _ => true
  | _ => false
  end.

(** How [launch_browser] detaches the browser. *)
Definition detach_mode (env : Environment) : detach :=
  if Environment_eqb env WINDOWS then NewProcessGroup else Setsid.

(** The trace spawns no browser, or exactly one: the executable
    [find_browser] answers, with the arguments of [get_browser_args] for
    the profile directory, after the kill command and a pause of one
    second. *)
Definition spawns_prepared (w : world) (self : WindowsOrchestrator) (m : machine)
    (t : list event) : Prop :=
  none_of is_spawn t
  \/ exists bp pre post,
       t = (pre
            ++ Popen (detach_mode (wo_env self))
                 (bp :: get_browser_args (wo_browser self) (wo_debug_port self)
                          (profile_path w (wo_browser self)) (wo_env self))
            :: post)%list
       /\ result_of (find_browser w (wo_browser self) (wo_env self) m) = Ret (Some bp)
       /\ none_of is_spawn pre
       /\ none_of is_spawn post
       /\ In (Run (kill_command (wo_browser self) (wo_env self))) pre
       /\ In (Sleep 1) pre.

(** An event of the command line that kills processes, deletes files,
    spawns a browser or changes the portproxy table. *)
Definition cli_destructive (e : cli_event) : bool :=
  match e with
  | Core e => is_destructive e
  | _ => false
  end.

(** A browser is spawned from the command line. *)
Definition cli_spawn (e : cli_event) : bool :=
  match e with
  | Core e => is_spawn e
  | _ => false
  end.

(** No event of the trace satisfies the predicate. *)
Definition cli_none_of (p : cli_event -> bool) (t : list cli_event) : Prop :=
  Forall (fun e => p e = false) t.

(** The arguments send [main] neither to the test page nor to the
    diagnostics. *)
Definition reaches_detection (args : Args) : Prop :=
  arg_serve args = false /\ arg_test args = false
  /\ arg_diagnose args = false /\ arg_validate args = false.

(** [bool(browser_path)] for what [find_browser] answers. *)
Definition found_browser (found : option string) : bool :=
  match found with
  | Some p => PyStr.truthy p
  | None => false
  end.

(** ** The string operations on sample inputs *)

Example strip_sample :
  PyStr.strip ("  nameserver 10.0.0.1 " ++ Scenarios.nl) = "nameserver 10.0.0.1".
Proof. reflexivity. Qed.

Example split_sample :
  PyStr.split "default via  172.20.0.1 dev eth0" =
  ["default"; "via"; "172.20.0.1"; "dev"; "eth0"].
Proof. reflexivity. Qed.

Example split_on_sample :
  PyStr.split_on "/" "/mnt/c/tools/wsl_dev_kit.py" =
  [""; "mnt"; "c"; "tools"; "wsl_dev_kit.py"].
Proof. reflexivity. Qed.

Example lines_sample :
  PyStr.lines Scenarios.resolv_conf =
  ["# This file was automatically generated by WSL."; "nameserver 192.168.1.1"].
Proof. reflexivity. Qed.

Example lower_sample : PyStr.lower "Windows" = "windows".
Proof. reflexivity. Qed.

Example contains_sample :
  PyStr.contains "microsoft"
    (PyStr.lower "Linux version 5.15.90.1-Microsoft-standard-WSL2") = true.
Proof. reflexivity. Qed.

Example of_Z_sample : PyStr.of_Z 9222 = "9222" /\ PyStr.of_Z (-1) = "-1".
Proof. split; reflexivity. Qed.

Example first_nameserver_sample :
  first_nameserver (PyStr.lines Scenarios.resolv_conf) = Some "192.168.1.1".
Proof. reflexivity. Qed.

(** ** Reasoning about computations *)

Lemma bind_unfold {A B} (c : M A) (f : A -> M B) (m : machine) :
  (c ≫= f) m =
    match c m with
    | (Ret a, m1, t1) =>
        match f a m1 with (r, m2, t2) => (r, m2, (t1 ++ t2)%list) end
    | (Raise e, m1, t1) => (Raise e, m1, t1)
    end.
Proof. reflexivity. Qed.

Lemma returns_ret {A} (a : A) : returns (mret a).
Proof. intros m. exists a, m, []. reflexivity. Qed.

Lemma returns_bind {A B} (c : M A) (f : A -> M B) :
  returns c -> (forall a, returns (f a)) -> returns (c ≫= f).
Proof.
  intros Hc Hf m. destruct (Hc m) as (a & m1 & t1 & E).
  destruct (Hf a m1) as (b & m2 & t2 & E2).
  exists b, m2, (t1 ++ t2)%list. rewrite bind_unfold, E, E2. reflexivity.
Qed.

Lemma returns_try_except {A} (body : M A) (handler : exn -> M A) :
  (forall e, returns (handler e)) -> returns (try_except body handler).
Proof.
  intros Hh m. unfold try_except.
  destruct (body m) as [[[a|e] m1] t1].
  - eauto.
  - destruct (Hh e m1) as (b & m2 & t2 & E2). rewrite E2. eauto.
Qed.

Lemma returns_emit (e : event) : returns (emit e).
Proof. intros m. exists tt, m, [e]. reflexivity. Qed.

Lemma returns_printer lvl msg : returns (printer lvl msg).
Proof. apply returns_emit. Qed.

Lemma returns_if {A} (b : bool) (c1 c2 : M A) :
  returns c1 -> returns c2 -> returns (if b then c1 else c2).
Proof. destruct b; auto. Qed.

Ltac returns_tac :=
  repeat first
    [ apply returns_ret
    | apply returns_printer
    | apply returns_emit
    | apply returns_try_except; intros ?
    | apply returns_bind; [ | intros ? ]
    | apply returns_if ].

(** Unfold the monad's plumbing and compute through it. *)
Ltac mred :=
  cbv beta iota zeta delta
    [mbind M_bind mret M_ret try_except try_except_only emit printer clock
     of_outcome raise app fst snd result_of machine_of trace_of];
  cbn [negb Environment_eqb tick rules fs set_tick set_rules set_fs].

(** The same, keeping appended traces folded. *)
Ltac mstep :=
  cbv beta iota zeta delta
    [mbind M_bind mret M_ret try_except try_except_only emit printer clock
     of_outcome raise fst snd result_of machine_of trace_of];
  cbn [app negb Environment_eqb tick rules fs set_tick set_rules set_fs].

(** Project the fields of the orchestrator and result records. *)
Ltac rsimpl :=
  cbn [wo_browser wo_debug_port wo_env wo_wsl_ip
       with_wsl_ip with_error_message with_chrome_listening
       with_portproxy_configured with_success
       success wsl_ip portproxy_configured chrome_listening error_message
       app negb].

Ltac relay_free :=
  unfold none_of in *;
  repeat first
    [ assumption
    | apply List.Forall_nil
    | apply List.Forall_cons; [reflexivity |]
    | apply List.Forall_app; split ].

Ltac trace_eq :=
  repeat (progress (rewrite <- ?List.app_assoc; cbn [app]));
  reflexivity.

Ltac stops_early :=
  eexists _, _, _; split; [reflexivity |]; left;
  repeat (split; [reflexivity |]); relay_free.

(** A node-by-node induction principle for file-system entries. *)
Lemma node_induction (P : node -> Prop) :
  (forall r, P (File r)) ->
  (forall r es, Forall (fun ne => P ne.2) es -> P (Dir r es)) ->
  forall n, P n.
Proof.
  intros HF HD.
  fix IH 1. intros [r | r es].
  - apply HF.
  - apply HD. induction es as [| [name c] tl IHes].
    + constructor.
    + constructor; [ apply IH | exact IHes ].
Qed.

(** ** Privilege check and relay management *)

Section Relay.

Context (w : world).

(** [is_admin] never raises, changes nothing, and answers [True] only on
    Windows and only when the system call says so. *)
Lemma is_admin_run (m : machine) :
  exists b t,
    is_admin w m = (Ret b, m, t)
    /\ (t = [] \/ t = [AdminQuery])
    /\ (b = true ->
        PyStr.lower (sys_platform w) = "windows"
        /\ t = [AdminQuery]
        /\ exists r, sys_admin w = Ret r /\ r <> 0).
Proof.
  unfold is_admin.
  destruct (String.eqb (PyStr.lower (sys_platform w)) "windows") eqn:E; simpl.
  - apply String.eqb_eq in E.
    unfold try_except, mbind, M_bind, mret, M_ret, emit, of_outcome; simpl.
    destruct (sys_admin w) as [r | e]; simpl.
    + exists (negb (r =? 0)%Z), [AdminQuery].
      repeat split; auto.
      exists r. split; [reflexivity |].
      destruct (Z.eqb_spec r 0); [discriminate | assumption].
    + exists false, [AdminQuery]. repeat split; auto; discriminate.
  - exists false, []. repeat split; auto; discriminate.
Qed.


(** C10.  On a platform that does not report itself as Windows, [is_admin]
    answers [False] without even asking the system, and both
    [setup_portproxy] and [cleanup_portproxy] return [False] after one
    console message: no command is run and the machine is unchanged. *)
Theorem portproxy_refused_off_windows (wsl_ip : string) (port : Z) (m : machine) :
  PyStr.lower (sys_platform w) <> "windows" ->
  is_admin w m = (Ret false, m, [])
  /\ setup_portproxy w wsl_ip port m =
       (Ret false, m,
        [Log LError "Administrator privileges required for portproxy setup"])
  /\ cleanup_portproxy w wsl_ip port m =
       (Ret false, m,
        [Log LWarning "Administrator privileges required for portproxy cleanup"])
  /\ none_of is_relay_command (trace_of (setup_portproxy w wsl_ip port m))
  /\ none_of is_relay_command (trace_of (cleanup_portproxy w wsl_ip port m)).
Proof.
  intros Hsys.
  assert (E : is_admin w m = (Ret false, m, [])).
  { unfold is_admin.
    destruct (String.eqb_spec (PyStr.lower (sys_platform w)) "windows") as [Heq | _].
    - contradiction.
    - reflexivity. }
  assert (Es : setup_portproxy w wsl_ip port m =
       (Ret false, m,
        [Log LError "Administrator privileges required for portproxy setup"])).
  { unfold setup_portproxy. rewrite bind_unfold, E. reflexivity. }
  assert (Ec : cleanup_portproxy w wsl_ip port m =
       (Ret false, m,
        [Log LWarning "Administrator privileges required for portproxy cleanup"])).
  { unfold cleanup_portproxy. rewrite bind_unfold, E. reflexivity. }
  rewrite Es, Ec. repeat split; try reflexivity; try assumption.
  - repeat constructor.
  - repeat constructor.
Qed.

Lemma setup_portproxy_run (wsl_ip : string) (port : Z) (m : machine) :
  result_of (is_admin w m) = Ret true ->
  exists b m' rest,
    setup_portproxy w wsl_ip port m =
      (Ret b, m', AdminQuery :: Run (NetshDelete wsl_ip port) :: rest)
    /\ rules m' = rules_after_setup w wsl_ip port (rules m)
    /\ fs m' = fs m
    /\ (b = true <-> rules m' !! (wsl_ip, port) = Some ("127.0.0.1", port)
                     /\ netsh_fault w (NetshDelete wsl_ip port) = None
                     /\ netsh_fault w (NetshAdd wsl_ip port "127.0.0.1" port) = None
                     /\ netsh_add_ok w wsl_ip port = true).
Proof.
  intros Hadm.
  destruct (is_admin_run m) as (b & t & E & _ & Hb).
  rewrite E in Hadm. simpl in Hadm. injection Hadm as ->.
  destruct (Hb eq_refl) as (_ & -> & _).
  unfold setup_portproxy, rules_after_setup.
  rewrite bind_unfold, E. simpl.
  unfold try_except, subprocess_run, clock, emit, raise, printer, emit.
  rewrite !bind_unfold. simpl.
  destruct (netsh_fault w (NetshDelete wsl_ip port)) as [e1 |] eqn:F1; simpl.
  { eexists _, _, _. split; [reflexivity |]. simpl.
    repeat split; try reflexivity; try discriminate.
    intros (_ & H & _). discriminate. }
  unfold netsh_delete. simpl.
  assert (Hdel : forall (r : rule_table),
             match r !! (wsl_ip, port) with
             | Some _ => delete (wsl_ip, port) r
             | None => r
             end = delete (wsl_ip, port) r).
  { intros r. destruct (r !! (wsl_ip, port)) eqn:L; [reflexivity |].
    symmetry. apply delete_id. exact L. }
  destruct (rules m !! (wsl_ip, port)) as [old |] eqn:L; simpl;
    rewrite !bind_unfold; simpl;
    (destruct (netsh_fault w (NetshAdd wsl_ip port "127.0.0.1" port)) as [e2 |] eqn:F2;
     simpl;
     [ eexists _, _, _; split; [reflexivity |]; simpl;
       repeat split; try reflexivity; try discriminate;
       try (symmetry; apply delete_id; exact L);
       intros (_ & _ & H & _); discriminate
     | ]);
    unfold netsh_add; simpl;
    (destruct (netsh_add_ok w wsl_ip port) eqn:Ok; simpl;
     eexists _, _, _; (split; [reflexivity |]); simpl).
  - rewrite insert_delete_eq. repeat split; try reflexivity.
    apply lookup_insert_eq.
  - repeat split; try reflexivity; try discriminate.
    intros (_ & _ & _ & H). discriminate.
  - repeat split; try reflexivity. apply lookup_insert_eq.
  - repeat split; try reflexivity; try discriminate.
    + symmetry. apply delete_id. exact L.
    + intros (_ & _ & _ & H). discriminate.
Qed.



(** X11.  [cleanup_portproxy] under elevated privilege, when netsh can be run:
    the answer is [True] whether or not a rule existed, the rule for the
    (listen address, port) pair is absent afterwards and every other rule
    is kept. *)
Theorem cleanup_portproxy_tolerates_missing_rule (wsl_ip : string) (port : Z)
    (m : machine) :
  result_of (is_admin w m) = Ret true ->
  netsh_fault w (NetshDelete wsl_ip port) = None ->
  exists m' t,
    cleanup_portproxy w wsl_ip port m = (Ret true, m', t)
    /\ rules m' !! (wsl_ip, port) = None
    /\ (forall k, k <> (wsl_ip, port) -> rules m' !! k = rules m !! k).
Proof.
  intros Hadm Hfault.
  destruct (is_admin_run m) as (b & t & E & _ & Hb).
  rewrite E in Hadm. simpl in Hadm. injection Hadm as ->.
  destruct (Hb eq_refl) as (_ & -> & _).
  unfold cleanup_portproxy.
  rewrite bind_unfold, E. unfold subprocess_run. mred.
  rewrite Hfault. unfold netsh_delete. mred.
  destruct (rules m !! (wsl_ip, port)) as [old |] eqn:L; mred;
    cbn [returncode stderr stdout Z.eqb]; mred.
  - eexists _, _. split; [reflexivity |]. cbn [rules]. split.
    + apply lookup_delete_eq.
    + intros k Hk. apply lookup_delete_ne. congruence.
  - destruct (negb (PyStr.contains "does not exist"
                      (PyStr.lower (netsh_stderr w)))); mred;
      (eexists _, _; split; [reflexivity |]; cbn [rules]; split;
       [exact L | reflexivity]).
Qed.

End Relay.

(** ** Environment and host-address detection *)

Section Detection.

Context (w : world).

(** [detect_environment] reads, and changes and prints nothing. *)
Lemma detect_environment_pure (m : machine) :
  detect_environment w m = (result_of (detect_environment w m), m, []).
Proof.
  unfold detect_environment.
  destruct (String.eqb (PyStr.lower (sys_platform w)) "windows"); [reflexivity |].
  destruct (String.eqb (PyStr.lower (sys_platform w)) "linux").
  - unfold try_except_only, try_except, open_read, of_outcome, raise.
    rewrite !bind_unfold. simpl.
    destruct (sys_file w "/proc/version") as [c | e]; simpl.
    + destruct (PyStr.contains "microsoft" (PyStr.lower c)
                || PyStr.contains "wsl" (PyStr.lower c)); reflexivity.
    + destruct (is_FileNotFoundError e); reflexivity.
  - destruct (String.eqb (PyStr.lower (sys_platform w)) "darwin"); reflexivity.
Qed.

Lemma detect_environment_windows (m : machine) :
  PyStr.lower (sys_platform w) = "windows" ->
  detect_environment w m = (Ret WINDOWS, m, []).
Proof.
  intros E. unfold detect_environment. rewrite E. reflexivity.
Qed.

(** X5.  When the kernel version file can be read, or is absent, detection
    returns a classification; a system that is none of Windows, Linux and
    Darwin is classified as unknown. *)
Lemma detect_environment_classifies (m : machine) :
  (forall e, sys_file w "/proc/version" = Raise e -> is_FileNotFoundError e = true) ->
  exists env,
    detect_environment w m = (Ret env, m, [])
    /\ (PyStr.lower (sys_platform w) <> "windows" ->
        PyStr.lower (sys_platform w) <> "linux" ->
        PyStr.lower (sys_platform w) <> "darwin" -> env = UNKNOWN).
Proof.
  intros Hread. unfold detect_environment.
  destruct (String.eqb_spec (PyStr.lower (sys_platform w)) "windows") as [E1 | E1].
  { exists WINDOWS. split; [reflexivity | congruence]. }
  destruct (String.eqb_spec (PyStr.lower (sys_platform w)) "linux") as [E2 | E2].
  { unfold try_except_only, try_except, open_read, of_outcome, raise.
    rewrite !bind_unfold. simpl.
    destruct (sys_file w "/proc/version") as [c | e] eqn:F; simpl.
    - destruct (PyStr.contains "microsoft" (PyStr.lower c)
                || PyStr.contains "wsl" (PyStr.lower c)); simpl;
        eexists; (split; [reflexivity | congruence]).
    - rewrite (Hread e eq_refl). simpl.
      exists LINUX. split; [reflexivity | congruence]. }
  destruct (String.eqb_spec (PyStr.lower (sys_platform w)) "darwin") as [E3 | E3].
  { exists MACOS. split; [reflexivity | congruence]. }
  exists UNKNOWN. split; [reflexivity | auto].
Qed.

(** On Linux, an error other than [FileNotFoundError] while reading the
    kernel version file is not handled: it leaves [detect_environment]. *)
Lemma detect_environment_propagates (m : machine) (e : exn) :
  PyStr.lower (sys_platform w) = "linux" ->
  sys_file w "/proc/version" = Raise e ->
  is_FileNotFoundError e = false ->
  detect_environment w m = (Raise e, m, []).
Proof.
  intros E F C. unfold detect_environment. rewrite E. simpl.
  unfold try_except_only, try_except, open_read, of_outcome, raise.
  rewrite !bind_unfold. simpl. rewrite F. simpl. rewrite C. reflexivity.
Qed.

(** The only command [detect_wsl_host_ip] can run is [ip route]. *)
Lemma detect_wsl_host_ip_trace (m : machine) :
  trace_of (detect_wsl_host_ip w m) = []
  \/ trace_of (detect_wsl_host_ip w m) = [Run IpRouteShowDefault].
Proof.
  unfold detect_wsl_host_ip.
  rewrite bind_unfold, (detect_environment_pure m).
  destruct (result_of (detect_environment w m)) as [env | e]; [| left; reflexivity].
  destruct (negb (Environment_eqb env WSL)); [left; reflexivity |].
  unfold try_except, open_read, of_outcome, subprocess_run, clock, emit.
  rewrite !bind_unfold. simpl.
  destruct (sys_file w "/etc/resolv.conf") as [c | e]; simpl; [| left; reflexivity].
  destruct (first_nameserver (PyStr.lines c)) as [addr |]; simpl; [left; reflexivity |].
  rewrite !bind_unfold. simpl.
  destruct (sys_process w IpRouteShowDefault (tick m)) as [res | e]; simpl;
    [| right; reflexivity].
  destruct (returncode res =? 0)%Z; [| right; reflexivity].
  destruct (PyStr.split (PyStr.strip (stdout res))) as [| p0 [| p1 [| p2 tl]]];
    try (right; reflexivity).
  destruct (String.eqb p0 "default" && String.eqb p1 "via"); right; reflexivity.
Qed.


(** In WSL, when the resolver configuration cannot be read, the error is
    swallowed together with the second method: the answer is the empty
    string and the default route is never asked. *)
Lemma detect_wsl_host_ip_unreadable (m : machine) (e : exn) :
  result_of (detect_environment w m) = Ret WSL ->
  sys_file w "/etc/resolv.conf" = Raise e ->
  detect_wsl_host_ip w m = (Ret "", m, []).
Proof.
  intros Henv Hfile.
  unfold detect_wsl_host_ip.
  rewrite bind_unfold, (detect_environment_pure m), Henv. simpl.
  unfold try_except, open_read, of_outcome.
  rewrite !bind_unfold. simpl. rewrite Hfile. reflexivity.
Qed.

End Detection.

(** ** Profile cleanup *)

Section Profile.


(** What [cleanup_profile] does to an existing directory. *)
Lemma cleanup_profile_run (profile_dir : string) (m : machine)
    (r : bool) (es : list (string * node)) :
  fs m !! profile_dir = Some (Dir r es) ->
  cleanup_profile profile_dir m =
    (Ret tt,
     mkMachine (S (tick m)) (rules m)
       match rm_node (Dir r es) with
       | None => delete profile_dir (fs m)
       | Some n' => <[profile_dir := n']> (fs m)
       end,
     [Rmtree profile_dir;
      Log LStep ("Cleaned up profile directory: " ++ profile_dir)]).
Proof.
  intros Hdir.
  unfold cleanup_profile, os_path_exists, try_except,
    shutil_rmtree_ignore_errors, printer, emit, mbind, M_bind.
  rewrite Hdir. cbv beta iota. rewrite Hdir. cbv beta iota.
  destruct (rm_node (Dir r es)); reflexivity.
Qed.


(** A profile path that does not exist is left alone: nothing is deleted
    and nothing is printed. *)
Lemma cleanup_profile_absent (profile_dir : string) (m : machine) :
  fs m !! profile_dir = None ->
  cleanup_profile profile_dir m = (Ret tt, m, []).
Proof.
  intros Hnone. unfold cleanup_profile.
  rewrite bind_unfold. unfold os_path_exists at 1. rewrite Hnone. reflexivity.
Qed.

Lemma cleanup_profile_returns (profile_dir : string) :
  returns (cleanup_profile profile_dir).
Proof.
  unfold cleanup_profile. apply returns_bind.
  - intros m. unfold os_path_exists. eauto.
  - intros present. apply returns_if.
    + apply returns_try_except. intros e. apply returns_printer.
    + apply returns_ret.
Qed.

Lemma cleanup_profile_trace (profile_dir : string) (m : machine) :
  none_of is_relay_command (trace_of (cleanup_profile profile_dir m)).
Proof.
  unfold cleanup_profile. rewrite bind_unfold. unfold os_path_exists at 1.
  destruct (fs m !! profile_dir); [| constructor].
  unfold try_except. rewrite bind_unfold.
  unfold shutil_rmtree_ignore_errors. simpl.
  repeat constructor.
Qed.

End Profile.

(** ** Waiting for the browser *)

Lemma connects_app (t1 t2 : list event) :
  connects (t1 ++ t2) = (connects t1 + connects t2)%nat.
Proof. unfold connects. rewrite List.filter_app, List.length_app. reflexivity. Qed.

Lemma none_of_app (p : event -> bool) (t1 t2 : list event) :
  none_of p t1 -> none_of p t2 -> none_of p (t1 ++ t2).
Proof. unfold none_of. intros H1 H2. apply Forall_app. split; assumption. Qed.

Lemma none_of_not_in (p : event -> bool) (t : list event) (e : event) :
  none_of p t -> p e = true -> ~ In e t.
Proof.
  intros Hn He Hin. unfold none_of in Hn.
  rewrite List.Forall_forall in Hn. specialize (Hn e Hin). congruence.
Qed.

(** An event that the head of a trace excludes lies behind that head. *)
Lemma split_behind (p : event -> bool) (l1 l2 pre post : list event) (e : event) :
  none_of p l1 -> p e = true ->
  (l1 ++ l2 = pre ++ e :: post)%list ->
  exists rest, pre = (l1 ++ rest)%list.
Proof.
  intros Hn He. revert pre.
  induction l1 as [| a l1 IH]; intros pre Heq.
  - exists pre. reflexivity.
  - inversion Hn as [| ? ? Ha Hn']; subst.
    destruct pre as [| b pre]; cbn in Heq.
    + injection Heq as -> _. congruence.
    + injection Heq as -> Heq.
      destruct (IH Hn' pre Heq) as (rest & ->).
      exists rest. reflexivity.
Qed.

Section Listening.

Context (w : world).

Lemma time_sleep_run (d : Q) (m : machine) :
  (0 <= d)%Q ->
  time_sleep d m = (Ret tt, set_tick (S (tick m)) m, [Sleep d]).
Proof.
  intros Hd. unfold time_sleep.
  rewrite (proj2 (Qle_bool_iff 0 d) Hd). reflexivity.
Qed.

(** One polling attempt with a valid interval: it returns, it connects
    exactly once, and it leaves the rule table and the file system alone. *)
Lemma verify_attempt_run (port max_retries : Z) (delay : Q) (attempt : Z)
    (m : machine) :
  (0 <= delay)%Q ->
  exists b m' t,
    verify_attempt w port max_retries delay attempt m = (Ret b, m', t)
    /\ connects t = 1%nat
    /\ none_of is_relay_command t
    /\ rules m' = rules m /\ fs m' = fs m
    /\ (b = true -> sleeps t = 0%nat /\ In (listening_message port) t).
Proof.
  intros Hd.
  assert (Hfin : forall b m' t,
             connects t = 1%nat -> none_of is_relay_command t ->
             rules m' = rules m -> fs m' = fs m ->
             (b = true -> sleeps t = 0%nat /\ In (listening_message port) t) ->
             exists b0 m0 t0,
               (Ret b, m', t) = (Ret b0, m0, t0 : list event)
               /\ connects t0 = 1%nat
               /\ none_of is_relay_command t0
               /\ rules m0 = rules m /\ fs m0 = fs m
               /\ (b0 = true -> sleeps t0 = 0%nat /\ In (listening_message port) t0)).
  { intros b m' t ? ? ? ? ?. exists b, m', t. auto 10. }
  unfold verify_attempt, socket_connect_ex, urlopen_json. mred.
  destruct (sys_connect w "127.0.0.1" port (tick m)) as [c | e]; mred.
  - destruct (c =? 0)%Z; mred.
    + destruct (sys_http w (version_url port) (S (tick m))) as [data | e]; mred.
      * destruct (is_devtools_metadata data) as [[|] | e]; mred.
        -- apply Hfin; try reflexivity;
             [ repeat constructor
             | intros _; split; [reflexivity | right; right; left; reflexivity] ].
        -- destruct (attempt <? max_retries - 1)%Z; mred;
             rewrite ?(time_sleep_run delay _ Hd); mred;
             apply Hfin; try reflexivity; try discriminate; repeat constructor.
        -- destruct (attempt <? max_retries - 1)%Z; mred;
             rewrite ?(time_sleep_run delay _ Hd); mred;
             apply Hfin; try reflexivity; try discriminate; repeat constructor.
      * destruct (attempt <? max_retries - 1)%Z; mred;
          rewrite ?(time_sleep_run delay _ Hd); mred;
          apply Hfin; try reflexivity; try discriminate; repeat constructor.
    + destruct (attempt <? max_retries - 1)%Z; mred;
        rewrite ?(time_sleep_run delay _ Hd); mred;
        apply Hfin; try reflexivity; try discriminate; repeat constructor.
  - destruct (attempt <? max_retries - 1)%Z; mred;
      rewrite ?(time_sleep_run delay _ Hd); mred;
      apply Hfin; try reflexivity; try discriminate; repeat constructor.
Qed.

Lemma verify_loop_run (port max_retries : Z) (delay : Q) (remaining : nat) :
  (0 <= delay)%Q ->
  forall (attempt : Z) (m : machine),
  exists b m' t,
    verify_loop w port max_retries delay remaining attempt m = (Ret b, m', t)
    /\ (connects t <= remaining)%nat
    /\ (b = false -> connects t = remaining)
    /\ none_of is_relay_command t
    /\ rules m' = rules m /\ fs m' = fs m
    /\ (b = true -> In (listening_message port) t).
Proof.
  intros Hd. induction remaining as [| k IH]; intros attempt m.
  - exists false, m, []. repeat split; try reflexivity; try discriminate.
    constructor.
  - cbn [verify_loop]. rewrite bind_unfold.
    destruct (verify_attempt_run port max_retries delay attempt m Hd)
      as (b & m1 & t1 & E1 & C1 & N1 & R1 & F1 & L1).
    rewrite E1. destruct b.
    + exists true, m1, (t1 ++ [])%list. split; [reflexivity |].
      rewrite app_nil_r, C1.
      split; [lia |]. split; [discriminate |].
      split; [assumption |]. split; [assumption |]. split; [assumption |].
      intros _. apply L1. reflexivity.
    + destruct (IH (attempt + 1) m1)
        as (b & m2 & t2 & E2 & C2 & X2 & N2 & R2 & F2 & L2).
      rewrite E2. exists b, m2, (t1 ++ t2)%list. split; [reflexivity |].
      rewrite connects_app, C1.
      split; [lia |].
      split; [intros Hb; rewrite (X2 Hb); reflexivity |].
      split; [apply none_of_app; assumption |].
      split; [congruence |]. split; [congruence |].
      intros Hb. apply in_or_app. right. apply L2. exact Hb.
Qed.

Lemma verify_chrome_listening_run (port max_retries : Z) (delay : Q)
    (m : machine) :
  (0 <= delay)%Q ->
  exists b m' t,
    verify_chrome_listening w port max_retries delay m = (Ret b, m', t)
    /\ none_of is_relay_command t.
Proof.
  intros Hd. unfold verify_chrome_listening.
  destruct (verify_loop_run port max_retries delay (Z.to_nat max_retries) Hd 0 m)
    as (b & m' & t & E & _ & _ & N & _).
  exists b, m', t. split; assumption.
Qed.

(** A successful wait has printed its success message. *)
Lemma verify_chrome_listening_message (port max_retries : Z) (delay : Q)
    (m m' : machine) (t : list event) :
  (0 <= delay)%Q ->
  verify_chrome_listening w port max_retries delay m = (Ret true, m', t) ->
  In (listening_message port) t.
Proof.
  intros Hd E. unfold verify_chrome_listening in E.
  destruct (verify_loop_run port max_retries delay (Z.to_nat max_retries) Hd 0 m)
    as (b & m1 & t1 & E1 & _ & _ & _ & _ & _ & L).
  rewrite E1 in E. injection E as -> _ <-. apply L. reflexivity.
Qed.



End Listening.

(** ** Windows orchestration *)

Section Windows.

Context (w : world).

Lemma get_wsl_adapter_ip_run (m : machine) :
  PyStr.lower (sys_platform w) = "windows" ->
  exists ip m' t,
    get_wsl_adapter_ip w m = (Ret ip, m', t) /\ none_of is_relay_command t.
Proof.
  intros Hsys. unfold get_wsl_adapter_ip.
  rewrite bind_unfold, (detect_environment_windows w m Hsys).
  unfold subprocess_run. mred.
  destruct (sys_process w GetNetIPAddressWSL (tick m)) as [res | e]; mred.
  - destruct ((returncode res =? 0)%Z
              && PyStr.truthy (PyStr.strip (stdout res))); mred;
      eexists _, _, _; (split; [reflexivity |]); repeat constructor.
  - eexists _, _, _. split; [reflexivity |]. repeat constructor.
Qed.

Lemma first_existing_file_run (paths : list string) (m : machine) :
  exists found, first_existing_file w paths m = (Ret found, m, []).
Proof.
  induction paths as [| p rest IH].
  - exists None. reflexivity.
  - cbn [first_existing_file]. unfold os_path_isfile. mred.
    destruct (fs m !! sys_expandvars w (sys_expanduser w p)) as [[r | r es] |].
    + eexists. reflexivity.
    + destruct IH as (found & E). rewrite E. eexists. reflexivity.
    + destruct IH as (found & E). rewrite E. eexists. reflexivity.
Qed.

Lemma find_browser_run (b : Browser) (env : Environment) (m : machine) :
  exists found, find_browser w b env m = (Ret found, m, []).
Proof.
  unfold find_browser. rewrite bind_unfold.
  destruct (first_existing_file_run (BROWSER_PATHS w b env) m) as (found & E).
  rewrite E. destruct found; eexists; reflexivity.
Qed.

Lemma kill_browser_run (b : Browser) (env : Environment) (m : machine) :
  exists m' t,
    kill_browser w b env m = (Ret tt, m', t) /\ none_of is_relay_command t.
Proof.
  unfold kill_browser.
  destruct (negb (PyStr.truthy (get_process_name b env))).
  { exists m, []. split; [reflexivity | constructor]. }
  unfold subprocess_run.
  destruct (Environment_eqb env WINDOWS); mred.
  - destruct (sys_process w (Taskkill (get_process_name b env)) (tick m));
      eexists _, _; (split; [reflexivity |]); repeat constructor.
  - destruct (sys_process w (Pkill (get_process_name b env)) (tick m));
      eexists _, _; (split; [reflexivity |]); repeat constructor.
Qed.

Lemma launch_browser_run (config : BrowserConfig) (env : Environment)
    (m : machine) :
  exists process m' t,
    launch_browser w config env m = (Ret process, m', t)
    /\ none_of is_relay_command t.
Proof.
  unfold launch_browser, subprocess_Popen.
  destruct (Environment_eqb env WINDOWS); mred.
  - destruct (sys_spawn w NewProcessGroup (path config :: args config) (tick m));
      eexists _, _, _; (split; [reflexivity |]); repeat constructor.
  - destruct (sys_spawn w Setsid (path config :: args config) (tick m));
      eexists _, _, _; (split; [reflexivity |]); repeat constructor.
Qed.

Lemma cleanup_profile_total (profile_dir : string) (m : machine) :
  exists m' t,
    cleanup_profile profile_dir m = (Ret tt, m', t)
    /\ none_of is_relay_command t.
Proof.
  destruct (cleanup_profile_returns profile_dir m) as ([] & m' & t & E).
  exists m', t. split; [exact E |].
  pose proof (cleanup_profile_trace profile_dir m) as H.
  rewrite E in H. exact H.
Qed.

Lemma setup_portproxy_returns (wsl_ip : string) (port : Z) :
  returns (setup_portproxy w wsl_ip port).
Proof.
  unfold setup_portproxy. apply returns_bind.
  - intros m. destruct (is_admin_run w m) as (b & t & E & _). eauto.
  - intros admin. apply returns_if.
    + returns_tac.
    + apply returns_try_except. intros e. returns_tac.
Qed.

(** C3.  When the privilege check fails, [WindowsOrchestrator.run] returns
    at once with [success = False] and the message "Administrator
    privileges required".  The machine is left exactly as it was (no rule
    installed or deleted, no profile removed), and besides the privilege
    query the run only printed two console messages: no process was killed
    or spawned and no command was run. *)
Theorem run_without_privilege (self : WindowsOrchestrator) (m : machine) :
  result_of (is_admin w m) = Ret false ->
  exists t,
    WindowsOrchestrator_run w self m =
      (Ret (mkWindowsSetupResult false "" false false
              "Administrator privileges required"),
       m,
       (t ++ [Log LError "Administrator privileges required";
              Log LInfo "Please run this script as Administrator"])%list)
    /\ (t = [] \/ t = [AdminQuery])
    /\ none_of is_action (trace_of (WindowsOrchestrator_run w self m)).
Proof.
  intros H.
  destruct (is_admin_run w m) as (b & t & E & Ht & _).
  rewrite E in H. simpl in H. injection H as ->.
  assert (Erun : WindowsOrchestrator_run w self m =
      (Ret (mkWindowsSetupResult false "" false false
              "Administrator privileges required"),
       m,
       (t ++ [Log LError "Administrator privileges required";
              Log LInfo "Please run this script as Administrator"])%list)).
  { unfold WindowsOrchestrator_run.
    unfold mbind at 1. unfold M_bind at 1. rewrite E. reflexivity. }
  exists t. split; [exact Erun |]. split; [exact Ht |].
  rewrite Erun. unfold trace_of. cbn [snd].
  destruct Ht as [-> | ->]; repeat constructor.
Qed.


Lemma Q_0_le_1 : (0 <= 1)%Q.
Proof. unfold Qle. simpl. lia. Qed.

(** The shape of every run of [WindowsOrchestrator.run]. *)
Lemma run_cases (self : WindowsOrchestrator) (m : machine) :
  exists r m' t,
    WindowsOrchestrator_run w self m = (Ret r, m', t)
    /\ ((success r = false /\ chrome_listening r = false
         /\ portproxy_configured r = false /\ none_of is_relay_command t)
        \/ (exists ip m0 pre b m1 t1,
              let t0 := (pre ++ [Log LStep "Waiting for browser to initialize..."])%list in
              ip <> ""
              /\ none_of is_relay_command t0
              /\ verify_chrome_listening w (wo_debug_port self) 10 1 m0
                 = (Ret b, m1, t1)
              /\ none_of is_relay_command t1
              /\ if b then
                   exists c t2 t3,
                     setup_portproxy w ip (wo_debug_port self) m1 = (Ret c, m', t2)
                     /\ t = (t0 ++ t1
                             ++ [Log LStep "Configuring network portproxy..."]
                             ++ t2 ++ t3)%list
                     /\ none_of is_relay_command t3
                     /\ r = (if c
                             then mkWindowsSetupResult true ip true true ""
                             else mkWindowsSetupResult false ip false true
                                    "Failed to configure portproxy")
                 else
                   m' = m1
                   /\ t = (t0 ++ t1
                           ++ [Log LError "Browser did not start listening on debug port"])%list
                   /\ r = mkWindowsSetupResult false ip false false
                            "Browser did not start listening on debug port")).
Proof.
  unfold WindowsOrchestrator_run.
  destruct (is_admin_run w m) as (adm & ta & Ea & Hta & Hadm).
  rewrite bind_unfold, Ea. destruct adm; cbn [negb].
  2:{ mstep. destruct Hta as [-> | ->]; stops_early. }
  destruct (Hadm eq_refl) as (Hsys & -> & _). clear Hadm Hta.
  mstep.
  destruct (get_wsl_adapter_ip_run m Hsys) as (ip & m1 & t1 & E1 & N1).
  rewrite E1. mstep. rsimpl.
  destruct ip as [| c0 ip0]; cbn [PyStr.truthy PyStr.is_empty negb].
  { stops_early. }
  set (ip := String c0 ip0).
  destruct (find_browser_run (wo_browser self) (wo_env self) m1) as (found & E2).
  rewrite E2. mstep. rsimpl.
  destruct found as [[| c1 bp0] |]; try stops_early.
  set (bp := String c1 bp0).
  mstep. rsimpl.
  destruct (kill_browser_run (wo_browser self) (wo_env self) m1)
    as (m2 & t2 & E3 & N3).
  rewrite E3. mstep. rsimpl.
  rewrite (time_sleep_run 1 m2 Q_0_le_1). mstep. rsimpl.
  match goal with
  | |- context [cleanup_profile ?p ?mm] =>
      destruct (cleanup_profile_total p mm) as (m3 & t3 & E4 & N4); rewrite E4
  end.
  mstep. rsimpl.
  match goal with
  | |- context [launch_browser w ?c ?e ?mm] =>
      destruct (launch_browser_run c e mm) as (proc & m4 & t4 & E5 & N5); rewrite E5
  end.
  mstep. rsimpl.
  destruct proc as [pid |]; [| stops_early].
  mstep. rsimpl.
  set (pre := (AdminQuery
              :: Log LStep "Running as Administrator ✓"
              :: Log LStep "Detecting WSL network adapter..."
              :: t1
              ++ Log LSuccess ("WSL adapter IP: " ++ ip)
              :: Log LStep ("Locating " ++ Browser_value (wo_browser self) ++ "...")
              :: Log LSuccess ("Found: " ++ bp)
              :: Log LStep "Preparing browser environment..."
              :: t2
              ++ Sleep 1
              :: t3
              ++ Log LStep ("Launching " ++ Browser_value (wo_browser self) ++ "...")
              :: t4)%list).
  set (t0 := (pre ++ [Log LStep "Waiting for browser to initialize..."])%list).
  assert (N0 : none_of is_relay_command t0) by (subst t0 pre; relay_free).
  destruct (verify_chrome_listening_run w (wo_debug_port self) 10 1 m4 Q_0_le_1)
    as (b & m5 & t5 & E6 & N6).
  rewrite E6. mstep. rsimpl.
  destruct b; cbn [negb].
  - destruct (setup_portproxy_returns ip (wo_debug_port self) m5)
      as (c & m6 & t6 & E7).
    mstep. rsimpl. rewrite E7. mstep. rsimpl.
    destruct c; cbn [negb]; mstep; rsimpl;
      (eexists _, _, _; split; [reflexivity |]; right;
       exists ip, m4, pre, true, m5, t5; fold t0;
       split; [discriminate |];
       split; [exact N0 |];
       split; [exact E6 |];
       split; [exact N6 |]).
    + exists true, t6. eexists.
      split; [exact E7 |].
      split; [subst t0 pre; trace_eq |].
      split; [relay_free | reflexivity].
    + exists false, t6. eexists.
      split; [exact E7 |].
      split; [subst t0 pre; trace_eq |].
      split; [relay_free | reflexivity].
  - mstep. rsimpl.
    eexists _, _, _. split; [reflexivity |]. right.
    exists ip, m4, pre, false, m5, t5. fold t0.
    split; [discriminate |].
    split; [exact N0 |].
    split; [exact E6 |].
    split; [exact N6 |].
    split; [reflexivity |].
    split; [subst t0 pre; trace_eq | reflexivity].
Qed.

(** C4.  Every run of [WindowsOrchestrator.run] returns a result and has
    one of three shapes.  Either it stops before it waits for the browser,
    without any portproxy command; or, right after the message "Waiting for
    browser to initialize...", [verify_chrome_listening] answers
    [False], and the run ends right there with the failure "Browser did not
    start listening on debug port", again without any portproxy command and
    without calling [setup_portproxy]; or [verify_chrome_listening] answers
    [True], and only then is [setup_portproxy] called: every portproxy
    command of the run lies in the trace of that call, after the complete
    trace of the successful wait. *)
Theorem relay_only_after_listening (self : WindowsOrchestrator) (m : machine) :
  exists r m' t,
    WindowsOrchestrator_run w self m = (Ret r, m', t)
    /\ ((success r = false /\ chrome_listening r = false
         /\ none_of is_relay_command t)
        \/ (exists ip m0 pre m1 t1,
              let t0 := (pre ++ [Log LStep "Waiting for browser to initialize..."])%list in
              verify_chrome_listening w (wo_debug_port self) 10 1 m0
                = (Ret false, m1, t1)
              /\ r = mkWindowsSetupResult false ip false false
                       "Browser did not start listening on debug port"
              /\ m' = m1
              /\ t = (t0 ++ t1
                      ++ [Log LError "Browser did not start listening on debug port"])%list
              /\ none_of is_relay_command t)
        \/ (exists ip m0 pre m1 t1 c t2 t3,
              let t0 := (pre ++ [Log LStep "Waiting for browser to initialize..."])%list in
              verify_chrome_listening w (wo_debug_port self) 10 1 m0
                = (Ret true, m1, t1)
              /\ setup_portproxy w ip (wo_debug_port self) m1 = (Ret c, m', t2)
              /\ t = (t0 ++ t1
                      ++ [Log LStep "Configuring network portproxy..."]
                      ++ t2 ++ t3)%list
              /\ none_of is_relay_command (t0 ++ t1)
              /\ none_of is_relay_command t3
              /\ success r = c)).
Proof.
  destruct (run_cases self m) as (r & m' & t & E & H).
  exists r, m', t. split; [exact E |].
  destruct H as [(S & L & _ & N) | (ip & m0 & pre & b & m1 & t1 & H)].
  - left. auto.
  - cbv zeta in H. destruct H as (_ & N0 & V & N1 & H).
    destruct b.
    + destruct H as (c & t2 & t3 & Es & -> & N3 & ->).
      right. right. exists ip, m0, pre, m1, t1, c, t2, t3. cbv zeta.
      split; [exact V |]. split; [exact Es |]. split; [reflexivity |].
      split; [apply none_of_app; assumption |].
      split; [exact N3 |]. destruct c; reflexivity.
    + destruct H as (-> & -> & ->).
      right. left. exists ip, m0, pre, m1, t1. cbv zeta.
      split; [exact V |]. split; [reflexivity |]. split; [reflexivity |].
      split; [reflexivity |].
      apply none_of_app; [exact N0 |].
      apply none_of_app; [exact N1 |]. repeat constructor.
Qed.

(** X18.  Seen from the console: every portproxy command of a run comes after
    the message that the browser was found listening. *)
Lemma relay_commands_follow_listening_message (self : WindowsOrchestrator)
    (m : machine) (pre post : list event) (e : event) :
  trace_of (WindowsOrchestrator_run w self m) = (pre ++ e :: post)%list ->
  is_relay_command e = true ->
  In (listening_message (wo_debug_port self)) pre.
Proof.
  intros Ht He.
  destruct (run_cases self m) as (r & m' & t & E & H).
  rewrite E in Ht. unfold trace_of in Ht. cbn [snd] in Ht. subst t.
  assert (Hin : In e (pre ++ e :: post)) by (apply in_or_app; right; left; reflexivity).
  destruct H as [(_ & _ & _ & N) | (ip & m0 & pre0 & b & m1 & t1 & H)].
  - exfalso. exact (none_of_not_in _ _ _ N He Hin).
  - cbv zeta in H. destruct H as (_ & N0 & V & N1 & H).
    destruct b.
    + destruct H as (c & t2 & t3 & _ & Heq & _ & _).
      assert (N01 : none_of is_relay_command
                      ((pre0 ++ [Log LStep "Waiting for browser to initialize..."])
                       ++ t1)%list)
        by (apply none_of_app; assumption).
      rewrite List.app_assoc in Heq. symmetry in Heq.
      destruct (split_behind _ _ _ _ _ _ N01 He Heq) as (rest & ->).
      apply in_or_app. left. apply in_or_app. right.
      exact (verify_chrome_listening_message w _ _ _ _ _ _ Q_0_le_1 V).
    + destruct H as (_ & Heq & _). exfalso.
      assert (N : none_of is_relay_command (pre ++ e :: post)).
      { rewrite Heq. apply none_of_app; [exact N0 |].
        apply none_of_app; [exact N1 |]. repeat constructor. }
      exact (none_of_not_in _ _ _ N He Hin).
Qed.

(** C9.  [WindowsOrchestrator.run] always returns a result, and a result
    with [success = True] has [chrome_listening = True],
    [portproxy_configured = True], a non-empty [wsl_ip] and an empty
    [error_message]. *)
Theorem success_records_every_milestone (self : WindowsOrchestrator) (m : machine) :
  exists r m' t,
    WindowsOrchestrator_run w self m = (Ret r, m', t)
    /\ (success r = true ->
        chrome_listening r = true
        /\ portproxy_configured r = true
        /\ wsl_ip r <> ""
        /\ error_message r = "").
Proof.
  destruct (run_cases self m) as (r & m' & t & E & H).
  exists r, m', t. split; [exact E |].
  intros Hs.
  destruct H as [(S & _) | (ip & m0 & pre & b & m1 & t1 & H)].
  - rewrite S in Hs. discriminate.
  - cbv zeta in H. destruct H as (Hip & _ & _ & _ & H).
    destruct b.
    + destruct H as (c & t2 & t3 & _ & _ & _ & ->).
      destruct c; [| discriminate Hs].
      cbn. repeat split; auto.
    + destruct H as (_ & _ & ->). discriminate Hs.
Qed.

End Windows.

(** ** WSL orchestration *)

Section Guest.

Context (w : world).

Lemma verify_connection_run (host : string) (port : Z) (timeout : Q)
    (m : machine) :
  exists b,
    verify_connection w host port timeout m
    = (Ret b, set_tick (S (tick m)) m, [Connect host port]).
Proof.
  unfold verify_connection, socket_connect_ex. mred.
  destruct (sys_connect w host port (tick m)); eexists; reflexivity.
Qed.

(** C1, as amended.  When the host address is discovered and the first
    connectivity check to (host address, debug port) succeeds,
    [WSLOrchestrator.run] runs no PowerShell command at all and returns a
    result with [success = True], [connection_verified = True] and
    [windows_setup_completed = True]: the Windows setup is reported as
    completed, not as skipped. *)
Theorem wsl_fast_path (self : WSLOrchestrator) (m : machine)
    (ip : string) (m1 : machine) (t1 : list event) :
  detect_wsl_host_ip w m = (Ret ip, m1, t1) ->
  ip <> "" ->
  result_of (verify_connection w ip (wsl_debug_port self) 2 m1) = Ret true ->
  WSLOrchestrator_run w self m =
    (Ret (mkWSLSetupResult true ip true true ""),
     set_tick (S (tick m1)) m1,
     ([Log LStep "Running from WSL - initiating cross-environment setup";
       Log LStep "Detecting Windows host IP..."]
      ++ t1
      ++ [Log LSuccess ("Windows host IP: " ++ ip);
          Log LStep "Checking existing connection...";
          Connect ip (wsl_debug_port self);
          Log LSuccess "Browser debug port already accessible!";
          Log LInfo "Skipping Windows setup (already configured)"])%list)
  /\ none_of is_remote_invocation (trace_of (WSLOrchestrator_run w self m)).
Proof.
  intros Ed Hip Hv.
  destruct (verify_connection_run ip (wsl_debug_port self) 2 m1) as (b & Ev).
  rewrite Ev in Hv. cbn in Hv. injection Hv as ->.
  assert (Erun : WSLOrchestrator_run w self m =
    (Ret (mkWSLSetupResult true ip true true ""),
     set_tick (S (tick m1)) m1,
     ([Log LStep "Running from WSL - initiating cross-environment setup";
       Log LStep "Detecting Windows host IP..."]
      ++ t1
      ++ [Log LSuccess ("Windows host IP: " ++ ip);
          Log LStep "Checking existing connection...";
          Connect ip (wsl_debug_port self);
          Log LSuccess "Browser debug port already accessible!";
          Log LInfo "Skipping Windows setup (already configured)"])%list)).
  { unfold WSLOrchestrator_run. mstep. rewrite Ed. mstep.
    cbn [wsl_browser wsl_debug_port wsl_windows_host_ip].
    destruct ip as [| c0 ip0]; [congruence |].
    cbn [PyStr.truthy PyStr.is_empty negb].
    rewrite Ev. mstep. reflexivity. }
  split; [exact Erun |].
  rewrite Erun. unfold trace_of. cbn [snd app].
  pose proof (detect_wsl_host_ip_trace w m) as Ht.
  rewrite Ed in Ht. unfold trace_of in Ht. cbn [snd] in Ht.
  unfold none_of.
  destruct Ht as [-> | ->]; repeat constructor.
Qed.

(** X19.  When no host address is found, [WSLOrchestrator.run] gives up at once:
    no connection is tried and no PowerShell command is run. *)
Theorem wsl_host_unknown_aborts (self : WSLOrchestrator) (m m1 : machine)
    (t1 : list event) :
  detect_wsl_host_ip w m = (Ret "", m1, t1) ->
  WSLOrchestrator_run w self m =
    (Ret (mkWSLSetupResult false "" false false
            "Could not detect Windows host IP from WSL"),
     m1,
     ([Log LStep "Running from WSL - initiating cross-environment setup";
       Log LStep "Detecting Windows host IP..."]
      ++ t1
      ++ [Log LError "Could not detect Windows host IP from WSL";
          Log LInfo "Make sure you're running from WSL, not native Linux"])%list).
Proof.
  intros Ed. unfold WSLOrchestrator_run. mstep. rewrite Ed. mstep.
  reflexivity.
Qed.

End Guest.

(** ** Facts about the string operations *)

Lemma append_nil (s : string) : "" ++ s = s.
Proof. reflexivity. Qed.

Lemma append_cons (c : ascii) (a b : string) : String c a ++ b = String c (a ++ b).
Proof. reflexivity. Qed.



Lemma blank_free_snoc (cur : string) (c : ascii) :
  blank_free cur = true -> PyStr.is_space c = false ->
  blank_free (PyStr.snoc cur c) = true.
Proof.
  intros Hcur Hc. unfold PyStr.snoc.
  induction cur as [| d cur IH]; rewrite ?append_nil, ?append_cons;
    cbn [blank_free] in *.
  - rewrite Hc. reflexivity.
  - apply andb_prop in Hcur as [Hd Hrest]. rewrite Hd, (IH Hrest). reflexivity.
Qed.

Lemma snoc_not_empty (cur : string) (c : ascii) :
  PyStr.is_empty (PyStr.snoc cur c) = false.
Proof. destruct cur; reflexivity. Qed.

(** Every token of [s.split()] is non-empty and holds no white space. *)
Lemma split_ws_go_tokens (s : string) :
  forall cur, blank_free cur = true ->
  Forall (fun tok => blank_free tok = true /\ tok <> "") (PyStr.split_ws_go cur s).
Proof.
  induction s as [| c s IH]; intros cur Hcur; cbn [PyStr.split_ws_go].
  - destruct cur as [| d cur]; cbn [PyStr.is_empty]; constructor.
    + split; [exact Hcur | discriminate].
    + constructor.
  - destruct (PyStr.is_space c) eqn:Hc.
    + destruct cur as [| d cur]; cbn [PyStr.is_empty].
      * apply IH. reflexivity.
      * constructor; [split; [exact Hcur | discriminate] | apply IH; reflexivity].
    + apply IH. apply blank_free_snoc; assumption.
Qed.

Lemma split_tokens (s : string) :
  Forall (fun tok => blank_free tok = true /\ tok <> "") (PyStr.split s).
Proof. apply split_ws_go_tokens. reflexivity. Qed.

Lemma first_nameserver_token (ls : list string) (addr : string) :
  first_nameserver ls = Some addr -> blank_free addr = true /\ addr <> "".
Proof.
  induction ls as [| line rest IH]; cbn [first_nameserver]; [discriminate |].
  destruct (PyStr.startswith (PyStr.strip line) "nameserver"); [| exact IH].
  pose proof (split_tokens (PyStr.strip line)) as Htok.
  destruct (PyStr.split (PyStr.strip line)) as [| t0 [| t1 tl]]; try exact IH.
  intros [= <-].
  inversion Htok as [| ? ? _ Htl]; subst.
  inversion Htl as [| ? ? H1 _]; subst. exact H1.
Qed.









(** The pieces of [s.split(sep)] do not hold the separator. *)
Lemma free_of_snoc (sep : ascii) (cur : string) (c : ascii) :
  free_of sep cur = true -> Ascii.eqb c sep = false ->
  free_of sep (PyStr.snoc cur c) = true.
Proof.
  intros Hcur Hc. unfold PyStr.snoc.
  induction cur as [| d cur IH]; rewrite ?append_nil, ?append_cons;
    cbn [free_of] in *.
  - rewrite Hc. reflexivity.
  - apply andb_prop in Hcur as [Hd Hrest]. rewrite Hd, (IH Hrest). reflexivity.
Qed.

Lemma split_on_go_pieces (sep : ascii) (s : string) :
  forall cur, free_of sep cur = true ->
  Forall (fun piece => free_of sep piece = true) (PyStr.split_on_go sep cur s).
Proof.
  induction s as [| c s IH]; intros cur Hcur; cbn [PyStr.split_on_go].
  - constructor; [exact Hcur | constructor].
  - destruct (Ascii.eqb c sep) eqn:E.
    + constructor; [exact Hcur | apply IH; reflexivity].
    + apply IH. apply free_of_snoc; assumption.
Qed.

Lemma free_of_app (c : ascii) (a b : string) :
  free_of c a = true -> free_of c b = true -> free_of c (a ++ b) = true.
Proof.
  intros Ha Hb.
  induction a as [| d a IH]; rewrite ?append_nil, ?append_cons;
    cbn [free_of] in *; [exact Hb |].
  apply andb_prop in Ha as [Hd Hrest]. rewrite Hd, (IH Hrest). reflexivity.
Qed.

Lemma free_of_join (c : ascii) (sep : string) (parts : list string) :
  free_of c sep = true ->
  Forall (fun piece => free_of c piece = true) parts ->
  free_of c (PyStr.join sep parts) = true.
Proof.
  intros Hsep Hparts. induction Hparts as [| p rest Hp Hrest IH]; [reflexivity |].
  cbn [PyStr.join]. destruct rest as [| q rest]; [exact Hp |].
  apply free_of_app; [exact Hp |]. apply free_of_app; [exact Hsep | exact IH].
Qed.

Lemma upper_char_not_slash (c : ascii) :
  Ascii.eqb c "/" = false -> Ascii.eqb (PyStr.upper_char c) "/" = false.
Proof.
  intros H. unfold PyStr.upper_char.
  destruct ((97 <=? nat_of_ascii c)%nat && (nat_of_ascii c <=? 122)%nat) eqn:E;
    [| exact H].
  apply andb_prop in E as [E1 E2].
  apply Nat.leb_le in E1. apply Nat.leb_le in E2.
  apply Ascii.eqb_neq. intros Heq.
  apply (f_equal nat_of_ascii) in Heq.
  rewrite nat_ascii_embedding in Heq by lia.
  change (nat_of_ascii "/") with 47%nat in Heq. lia.
Qed.

Lemma free_of_upper (s : string) :
  free_of "/" s = true -> free_of "/" (PyStr.upper s) = true.
Proof.
  induction s as [| c s IH]; [reflexivity |].
  cbn. intros H. apply andb_prop in H as [Hc Hs].
  apply negb_true_iff in Hc.
  rewrite (upper_char_not_slash c Hc). cbn. exact (IH Hs).
Qed.

(** ** Host and adapter addresses *)

Section HostAddress.

Context (w : world).

(** X7.  Whatever [detect_wsl_host_ip] answers holds no white space: it is the
    empty string or one token of a [nameserver] line or of the default
    route. *)
Theorem detect_wsl_host_ip_blank_free (m : machine) (ip : string) :
  result_of (detect_wsl_host_ip w m) = Ret ip ->
  blank_free ip = true.
Proof.
  unfold detect_wsl_host_ip.
  rewrite bind_unfold, (detect_environment_pure w m).
  destruct (result_of (detect_environment w m)) as [env | e]; [| discriminate].
  destruct (negb (Environment_eqb env WSL)).
  { mred. intros [= <-]. reflexivity. }
  unfold open_read, subprocess_run. mred.
  destruct (sys_file w "/etc/resolv.conf") as [c | e]; mred.
  2:{ intros [= <-]. reflexivity. }
  destruct (first_nameserver (PyStr.lines c)) as [addr |] eqn:Ens; mred.
  { intros [= <-]. exact (proj1 (first_nameserver_token _ _ Ens)). }
  destruct (sys_process w IpRouteShowDefault (tick m)) as [res | e]; mred.
  2:{ intros [= <-]. reflexivity. }
  destruct (returncode res =? 0)%Z; mred.
  2:{ intros [= <-]. reflexivity. }
  pose proof (split_tokens (PyStr.strip (stdout res))) as Htok.
  destruct (PyStr.split (PyStr.strip (stdout res))) as [| p0 [| p1 [| p2 tl]]];
    mred; try (intros [= <-]; reflexivity).
  destruct (String.eqb p0 "default" && String.eqb p1 "via"); mred.
  2:{ intros [= <-]. reflexivity. }
  intros [= <-].
  inversion Htok as [| ? ? _ H1]; subst.
  inversion H1 as [| ? ? _ H2]; subst.
  inversion H2 as [| ? ? H3 _]; subst. exact (proj1 H3).
Qed.


End HostAddress.

(** ** Locating, killing and launching the browser *)

Section BrowserProcess.

Context (w : world).

Lemma first_existing_file_spec (paths : list string) (m : machine) :
  exists found,
    first_existing_file w paths m = (Ret found, m, [])
    /\ match found with
       | Some p =>
           exists pre q post,
             paths = (pre ++ q :: post)%list
             /\ p = expanded w q
             /\ is_regular_file m p = true
             /\ Forall (fun q' => is_regular_file m (expanded w q') = false) pre
       | None =>
           Forall (fun q' => is_regular_file m (expanded w q') = false) paths
       end.
Proof.
  induction paths as [| p rest IH].
  - exists None. split; [reflexivity | constructor].
  - cbn [first_existing_file]. unfold os_path_isfile. mred.
    fold (expanded w p).
    destruct (fs m !! expanded w p) as [[r | r es] |] eqn:L.
    + exists (Some (expanded w p)). split; [reflexivity |].
      exists [], p, rest. split; [reflexivity |]. split; [reflexivity |].
      split; [unfold is_regular_file; rewrite L; reflexivity | constructor].
    + destruct IH as (found & E & H). rewrite E.
      exists found. split; [destruct found; reflexivity |].
      assert (Hp : is_regular_file m (expanded w p) = false)
        by (unfold is_regular_file; rewrite L; reflexivity).
      destruct found as [f |].
      * destruct H as (pre & q & post & -> & -> & Hf & Hpre).
        exists (p :: pre), q, post. split; [reflexivity |].
        split; [reflexivity |]. split; [exact Hf |].
        constructor; assumption.
      * constructor; assumption.
    + destruct IH as (found & E & H). rewrite E.
      exists found. split; [destruct found; reflexivity |].
      assert (Hp : is_regular_file m (expanded w p) = false)
        by (unfold is_regular_file; rewrite L; reflexivity).
      destruct found as [f |].
      * destruct H as (pre & q & post & -> & -> & Hf & Hpre).
        exists (p :: pre), q, post. split; [reflexivity |].
        split; [reflexivity |]. split; [exact Hf |].
        constructor; assumption.
      * constructor; assumption.
Qed.

Lemma first_on_path_spec (names : list string) :
  match first_on_path w names with
  | Some p =>
      p <> ""
      /\ exists pre name post,
           names = (pre ++ name :: post)%list
           /\ sys_which w name = Some p
           /\ Forall (fun n => off_path w n = true) pre
  | None => Forall (fun n => off_path w n = true) names
  end.
Proof.
  induction names as [| name rest IH]; cbn [first_on_path]; [constructor |].
  destruct (sys_which w name) as [[| c f] |] eqn:Wh;
    cbn [PyStr.truthy PyStr.is_empty negb].
  - assert (Hn : off_path w name = true) by (unfold off_path; rewrite Wh; reflexivity).
    destruct (first_on_path w rest) as [p |].
    + destruct IH as (Hne & pre & n & post & -> & Hw & Hpre).
      split; [exact Hne |].
      exists (name :: pre), n, post. split; [reflexivity |].
      split; [exact Hw |]. constructor; assumption.
    + constructor; assumption.
  - split; [discriminate |].
    exists [], name, rest. split; [reflexivity |]. split; [exact Wh | constructor].
  - assert (Hn : off_path w name = true) by (unfold off_path; rewrite Wh; reflexivity).
    destruct (first_on_path w rest) as [p |].
    + destruct IH as (Hne & pre & n & post & -> & Hw & Hpre).
      split; [exact Hne |].
      exists (name :: pre), n, post. split; [reflexivity |].
      split; [exact Hw |]. constructor; assumption.
    + constructor; assumption.
Qed.

(** X1.  [find_browser] only reads.  It answers the first entry of the path
    table that is a regular file once expanded; the executables on PATH are
    consulted only when no entry is, in the order of the alias list; and it
    answers [None] exactly when both searches come up empty. *)
Theorem find_browser_order (b : Browser) (env : Environment) (m : machine) :
  exists found,
    find_browser w b env m = (Ret found, m, [])
    /\ match found with
       | Some p =>
           (exists pre q post,
              BROWSER_PATHS w b env = (pre ++ q :: post)%list
              /\ p = expanded w q
              /\ is_regular_file m p = true
              /\ Forall (fun q' => is_regular_file m (expanded w q') = false) pre)
           \/ (Forall (fun q' => is_regular_file m (expanded w q') = false)
                 (BROWSER_PATHS w b env)
               /\ p <> ""
               /\ exists pre name post,
                    browser_names b = (pre ++ name :: post)%list
                    /\ sys_which w name = Some p
                    /\ Forall (fun n => off_path w n = true) pre)
       | None =>
           Forall (fun q' => is_regular_file m (expanded w q') = false)
             (BROWSER_PATHS w b env)
           /\ Forall (fun n => off_path w n = true) (browser_names b)
       end.
Proof.
  unfold find_browser. rewrite bind_unfold.
  destruct (first_existing_file_spec (BROWSER_PATHS w b env) m) as (found & E & H).
  rewrite E. destruct found as [p |].
  - exists (Some p). split; [reflexivity |]. left. exact H.
  - pose proof (first_on_path_spec (browser_names b)) as Hp.
    exists (first_on_path w (browser_names b)). split; [reflexivity |].
    destruct (first_on_path w (browser_names b)) as [p |].
    + right. destruct Hp as (Hne & Hrest). auto.
    + split; assumption.
Qed.

(** X2.  [kill_browser] is best effort: it runs one kill command, by image name
    with [taskkill] on Windows and by process name with [pkill] elsewhere,
    never raises, and touches neither the rule table nor the file system.
    The exit status of the command is not looked at; only a command that
    cannot be run at all produces the warning. *)
Theorem kill_browser_best_effort (b : Browser) (env : Environment) (m : machine) :
  exists msg,
    kill_browser w b env m =
      (Ret tt, set_tick (S (tick m)) m, [Run (kill_command b env); msg])
    /\ msg = match sys_process w (kill_command b env) (tick m) with
             | Ret _ => Log LStep ("Killed existing " ++ Browser_value b ++ " processes")
             | Raise e =>
                 Log LWarning ("Could not kill " ++ Browser_value b ++ ": " ++ exn_str e)
             end.
Proof.
  unfold kill_browser, kill_command, subprocess_run.
  assert (Hname : negb (PyStr.truthy (get_process_name b env)) = false)
    by (destruct b, env; reflexivity).
  rewrite Hname.
  destruct (Environment_eqb env WINDOWS); mred.
  - destruct (sys_process w (Taskkill (get_process_name b env)) (tick m));
      eexists; split; reflexivity.
  - destruct (sys_process w (Pkill (get_process_name b env)) (tick m));
      eexists; split; reflexivity.
Qed.

(** X3.  [launch_browser] never raises: it spawns the executable with its
    arguments once, detached in a new process group on Windows and in a new
    session elsewhere, and answers [None] exactly when the spawn fails. *)
Theorem launch_browser_outcome (config : BrowserConfig) (env : Environment)
    (m : machine) :
  let how := if Environment_eqb env WINDOWS then NewProcessGroup else Setsid in
  let cmd := path config :: args config in
  exists process msg,
    launch_browser w config env m =
      (Ret process, set_tick (S (tick m)) m, [Popen how cmd; msg])
    /\ match sys_spawn w how cmd (tick m) with
       | Ret pid =>
           process = Some pid
           /\ msg = Log LSuccess ("Launched browser with PID " ++ PyStr.of_Z pid)
       | Raise e =>
           process = None
           /\ msg = Log LError ("Failed to launch browser: " ++ exn_str e)
       end.
Proof.
  unfold launch_browser, subprocess_Popen.
  destruct (Environment_eqb env WINDOWS); mred.
  - destruct (sys_spawn w NewProcessGroup (path config :: args config) (tick m));
      eexists _, _; (split; [reflexivity | split; reflexivity]).
  - destruct (sys_spawn w Setsid (path config :: args config) (tick m));
      eexists _, _; (split; [reflexivity | split; reflexivity]).
Qed.

End BrowserProcess.

(** ** What profile cleanup leaves *)

Section ProfileResidue.

(** What [rmtree] leaves of an entry it leaves for good: a second pass
    removes nothing more. *)
Lemma rm_node_residue (n : node) :
  forall n', rm_node n = Some n' -> rm_node n' = Some n'.
Proof.
  induction n as [r | r es IH] using node_induction; intros n'.
  - cbn [rm_node]. destruct r; [discriminate |]. intros [= <-]. reflexivity.
  - cbn [rm_node].
    set (rm_entries := fix rm_entries (es : list (string * node)) :=
                    match es with
                    | [] => []
                    | (name, c) :: tl =>
                        match rm_node c with
                        | None => rm_entries tl
                        | Some c' => (name, c') :: rm_entries tl
                        end
                    end).
    assert (Hfix : rm_entries (rm_entries es) = rm_entries es).
    { induction es as [| [name c] tl IHtl]; [reflexivity |].
      inversion IH as [| ? ? Hc Htl]; subst. cbn [snd] in Hc.
      specialize (IHtl Htl). cbn [rm_entries].
      destruct (rm_node c) as [c' |] eqn:Ec; [| exact IHtl].
      cbn [rm_entries]. rewrite (Hc c' eq_refl), IHtl. reflexivity. }
    destruct (rm_entries es) as [| x xs] eqn:El.
    + destruct r; [discriminate |]. intros [= <-]. reflexivity.
    + intros [= <-].
      change (rm_node (Dir r (x :: xs)))
        with (match rm_entries (x :: xs) with
              | [] => if r then None else Some (Dir r [])
              | _ :: _ => Some (Dir r (rm_entries (x :: xs)))
              end).
      rewrite Hfix. reflexivity.
Qed.

Lemma rm_node_dir (r : bool) (es : list (string * node)) (n' : node) :
  rm_node (Dir r es) = Some n' -> exists es', n' = Dir r es'.
Proof.
  cbn [rm_node].
  match goal with |- context [match ?l with [] => _ | _ :: _ => _ end] =>
    destruct l as [| x xs] end.
  - destruct r; [discriminate |]. intros [= <-]. eauto.
  - intros [= <-]. eauto.
Qed.

(** A path that is a regular file is not a profile directory: [rmtree]
    fails on it, the failure is ignored, and the file stays. *)
Lemma cleanup_profile_on_file (profile_dir : string) (m : machine) (r : bool) :
  fs m !! profile_dir = Some (File r) ->
  cleanup_profile profile_dir m =
    (Ret tt, set_tick (S (tick m)) m,
     [Rmtree profile_dir;
      Log LStep ("Cleaned up profile directory: " ++ profile_dir)]).
Proof.
  intros Hf.
  unfold cleanup_profile, os_path_exists, try_except,
    shutil_rmtree_ignore_errors, printer, emit, mbind, M_bind.
  rewrite Hf. cbv beta iota. rewrite Hf. reflexivity.
Qed.

(** X4.  Cleaning the profile twice leaves the file system as cleaning it once:
    what the first pass could not remove, the second cannot either, and
    nothing else is touched. *)
Theorem cleanup_profile_idempotent (profile_dir : string) (m : machine) :
  fs (machine_of (cleanup_profile profile_dir
                    (machine_of (cleanup_profile profile_dir m))))
  = fs (machine_of (cleanup_profile profile_dir m))
  /\ rules (machine_of (cleanup_profile profile_dir
                          (machine_of (cleanup_profile profile_dir m))))
     = rules m.
Proof.
  destruct (fs m !! profile_dir) as [[r | r es] |] eqn:L.
  - rewrite (cleanup_profile_on_file profile_dir m r L).
    unfold machine_of. cbn [fst snd].
    rewrite (cleanup_profile_on_file profile_dir (set_tick (S (tick m)) m) r L).
    split; reflexivity.
  - rewrite (cleanup_profile_run profile_dir m r es L).
    unfold machine_of. cbn [fst snd].
    destruct (rm_node (Dir r es)) as [n' |] eqn:Erm.
    + destruct (rm_node_dir r es n' Erm) as (es' & ->).
      erewrite cleanup_profile_run by (cbn [fs]; apply lookup_insert_eq).
      rewrite (rm_node_residue _ _ Erm).
      cbn [fst snd fs rules].
      split; [apply insert_insert_eq | reflexivity].
    + rewrite cleanup_profile_absent by (cbn [fs]; apply lookup_delete_eq).
      split; reflexivity.
  - rewrite (cleanup_profile_absent profile_dir m L).
    unfold machine_of. cbn [fst snd].
    rewrite (cleanup_profile_absent profile_dir m L). split; reflexivity.
Qed.

End ProfileResidue.

(** ** What the relay setup can change *)

Section RelayFrame.

Context (w : world).

(** X8.  [is_admin] never raises and changes nothing; it answers [True]
    exactly when the platform reports itself as Windows and the system call
    returns a non-zero value.  A system call that fails counts as "not an
    administrator". *)
Theorem is_admin_answers (m : machine) :
  exists b,
    result_of (is_admin w m) = Ret b
    /\ machine_of (is_admin w m) = m
    /\ (b = true <->
        PyStr.lower (sys_platform w) = "windows"
        /\ exists r, sys_admin w = Ret r /\ r <> 0).
Proof.
  unfold is_admin.
  destruct (String.eqb_spec (PyStr.lower (sys_platform w)) "windows") as [E | E];
    cbn [negb].
  - mred. destruct (sys_admin w) as [r | e] eqn:Ea; mred.
    + exists (negb (r =? 0)%Z). split; [reflexivity |]. split; [reflexivity |].
      destruct (Z.eqb_spec r 0) as [Hz | Hz]; cbn [negb]; split.
      * discriminate.
      * intros (_ & r' & [= <-] & Hne). contradiction.
      * intros _. split; [exact E |]. exists r. auto.
      * reflexivity.
    + exists false. split; [reflexivity |]. split; [reflexivity |].
      split; [discriminate |]. intros (_ & r' & [=] & _).
  - exists false. split; [reflexivity |]. split; [reflexivity |].
    split; [discriminate |]. intros (Hw & _). contradiction.
Qed.

(** What [setup_portproxy] can change, elevated or not. *)
Lemma setup_portproxy_effect (wsl_ip : string) (port : Z) (m : machine) :
  exists b m' t,
    setup_portproxy w wsl_ip port m = (Ret b, m', t)
    /\ fs m' = fs m
    /\ (forall k, k <> (wsl_ip, port) -> rules m' !! k = rules m !! k)
    /\ (b = true -> rules m' !! (wsl_ip, port) = Some ("127.0.0.1", port))
    /\ (b = false -> rules m' = rules m \/ rules m' !! (wsl_ip, port) = None).
Proof.
  destruct (is_admin_run w m) as (adm & ta & Ea & _).
  destruct adm.
  - assert (Hadm : result_of (is_admin w m) = Ret true) by (rewrite Ea; reflexivity).
    destruct (setup_portproxy_run w wsl_ip port m Hadm)
      as (b & m' & rest & E & R & F & B).
    exists b, m'. eexists. split; [exact E |]. split; [exact F |].
    split; [| split].
    + intros k Hk. rewrite R. unfold rules_after_setup.
      destruct (netsh_fault w (NetshDelete wsl_ip port)); [reflexivity |].
      destruct (netsh_fault w (NetshAdd wsl_ip port "127.0.0.1" port)).
      * apply lookup_delete_ne. congruence.
      * destruct (netsh_add_ok w wsl_ip port).
        -- apply lookup_insert_ne. congruence.
        -- apply lookup_delete_ne. congruence.
    + intros Hb. apply B. exact Hb.
    + intros Hb. rewrite R. unfold rules_after_setup.
      destruct (netsh_fault w (NetshDelete wsl_ip port)) eqn:F1; [left; reflexivity |].
      destruct (netsh_fault w (NetshAdd wsl_ip port "127.0.0.1" port)) eqn:F2.
      * right. apply lookup_delete_eq.
      * destruct (netsh_add_ok w wsl_ip port) eqn:Ok.
        -- exfalso. subst b.
           assert (H : false = true); [| discriminate H].
           apply B. split; [| auto].
           rewrite R. unfold rules_after_setup. rewrite F1, F2, Ok.
           apply lookup_insert_eq.
        -- right. apply lookup_delete_eq.
  - exists false, m. eexists. split.
    + unfold setup_portproxy. rewrite bind_unfold, Ea. reflexivity.
    + split; [reflexivity |]. split; [reflexivity |].
      split; [discriminate | left; reflexivity].
Qed.

Lemma setup_portproxy_no_spawn (wsl_ip : string) (port : Z) (m : machine) :
  none_of is_spawn (trace_of (setup_portproxy w wsl_ip port m)).
Proof.
  destruct (is_admin_run w m) as (adm & ta & Ea & Hta & _).
  assert (Hta' : none_of is_spawn ta)
    by (destruct Hta as [-> | ->]; repeat constructor).
  unfold setup_portproxy. rewrite bind_unfold, Ea.
  destruct adm; cbn [negb].
  2:{ mstep. relay_free. }
  unfold subprocess_run, netsh_delete, netsh_add. mstep.
  destruct (netsh_fault w (NetshDelete wsl_ip port)); mstep; [relay_free |].
  destruct (rules m !! (wsl_ip, port)); mstep;
    (destruct (netsh_fault w (NetshAdd wsl_ip port "127.0.0.1" port)); mstep;
     [relay_free |]);
    (destruct (netsh_add_ok w wsl_ip port); mstep;
     cbn [returncode Z.eqb]; mstep; relay_free).
Qed.

(** X10.  [setup_portproxy] never raises and never touches the file system or
    a rule for another (listen address, port) pair.  When it answers [True]
    the pair is mapped to the loopback address on the same port; when it
    answers [False] the table is as before or the pair has no rule at all
    (a rule of an earlier run is removed before the new one is added, and
    stays removed when adding fails). *)
Theorem setup_portproxy_frame (wsl_ip : string) (port : Z) (m : machine) :
  exists b,
    result_of (setup_portproxy w wsl_ip port m) = Ret b
    /\ fs (machine_of (setup_portproxy w wsl_ip port m)) = fs m
    /\ (forall k, k <> (wsl_ip, port) ->
          rules (machine_of (setup_portproxy w wsl_ip port m)) !! k = rules m !! k)
    /\ (b = true ->
          rules (machine_of (setup_portproxy w wsl_ip port m)) !! (wsl_ip, port)
          = Some ("127.0.0.1", port))
    /\ (b = false ->
          rules (machine_of (setup_portproxy w wsl_ip port m)) = rules m
          \/ rules (machine_of (setup_portproxy w wsl_ip port m)) !! (wsl_ip, port)
             = None).
Proof.
  destruct (setup_portproxy_effect wsl_ip port m) as (b & m' & t & E & H).
  rewrite E. exists b. split; [reflexivity | exact H].
Qed.

End RelayFrame.

(** ** The handshake and the pauses of the wait *)

Lemma sleeps_app (t1 t2 : list event) :
  sleeps (t1 ++ t2) = (sleeps t1 + sleeps t2)%nat.
Proof. unfold sleeps. rewrite List.filter_app, List.length_app. reflexivity. Qed.

Lemma remote_invocations_app (t1 t2 : list event) :
  remote_invocations (t1 ++ t2) = (remote_invocations t1 + remote_invocations t2)%nat.
Proof.
  unfold remote_invocations. rewrite List.filter_app, List.length_app. reflexivity.
Qed.

Section Handshake.

Context (w : world).

(** A polling attempt answers [True] only after the port accepted the
    connection and the version endpoint returned DevTools metadata. *)
Lemma verify_attempt_accepts (port max_retries : Z) (delay : Q) (attempt : Z)
    (m : machine) :
  result_of (verify_attempt w port max_retries delay attempt m) = Ret true ->
  sys_connect w "127.0.0.1" port (tick m) = Ret 0
  /\ exists data,
       sys_http w (version_url port) (S (tick m)) = Ret data
       /\ is_devtools_metadata data = Ret true.
Proof.
  unfold verify_attempt, socket_connect_ex, urlopen_json. mred.
  destruct (sys_connect w "127.0.0.1" port (tick m)) as [c | e] eqn:Ec; mred.
  - destruct (Z.eqb_spec c 0) as [-> | Hc]; mred.
    + destruct (sys_http w (version_url port) (S (tick m))) as [data | e] eqn:Eh; mred.
      * destruct (is_devtools_metadata data) as [[|] | e] eqn:Ed; mred.
        -- intros _. split; [reflexivity |]. exists data. split; [reflexivity | exact Ed].
        -- unfold time_sleep. destruct (attempt <? max_retries - 1)%Z;
             [| mred; discriminate].
           destruct (Qle_bool 0 delay); mred; discriminate.
        -- unfold time_sleep. destruct (attempt <? max_retries - 1)%Z;
             [| mred; discriminate].
           destruct (Qle_bool 0 delay); mred; discriminate.
      * unfold time_sleep. destruct (attempt <? max_retries - 1)%Z;
          [| mred; discriminate].
        destruct (Qle_bool 0 delay); mred; discriminate.
    + unfold time_sleep. destruct (attempt <? max_retries - 1)%Z;
        [| mred; discriminate].
      destruct (Qle_bool 0 delay); mred; discriminate.
  - unfold time_sleep. destruct (attempt <? max_retries - 1)%Z;
      [| mred; discriminate].
    destruct (Qle_bool 0 delay); mred; discriminate.
Qed.

Lemma verify_loop_accepts (port max_retries : Z) (delay : Q) (remaining : nat) :
  forall (attempt : Z) (m : machine),
  result_of (verify_loop w port max_retries delay remaining attempt m) = Ret true ->
  exists k data,
    sys_connect w "127.0.0.1" port k = Ret 0
    /\ sys_http w (version_url port) (S k) = Ret data
    /\ is_devtools_metadata data = Ret true.
Proof.
  induction remaining as [| k IH]; intros attempt m.
  - cbn. discriminate.
  - cbn [verify_loop]. rewrite bind_unfold.
    pose proof (verify_attempt_accepts port max_retries delay attempt m) as Ha.
    destruct (verify_attempt w port max_retries delay attempt m)
      as [[[b | e] m1] t1]; [| discriminate].
    destruct b.
    + intros _. destruct (Ha eq_refl) as (Hc & data & Hh & Hd).
      exists (tick m), data. auto.
    + intros H. apply (IH (attempt + 1) m1).
      destruct (verify_loop w port max_retries delay k (attempt + 1) m1)
        as [[r m2] t2]. exact H.
Qed.

(** X12.  [verify_chrome_listening] answers [True] only if, at some moment, the
    loopback port accepted a connection and the version endpoint, asked
    right after, returned a document that is DevTools metadata: an open
    port alone is never enough. *)
Theorem verify_chrome_listening_needs_metadata (port max_retries : Z) (delay : Q)
    (m : machine) :
  result_of (verify_chrome_listening w port max_retries delay m) = Ret true ->
  exists k data,
    sys_connect w "127.0.0.1" port k = Ret 0
    /\ sys_http w (version_url port) (S k) = Ret data
    /\ is_devtools_metadata data = Ret true.
Proof. apply verify_loop_accepts. Qed.

Lemma verify_attempt_sleeps (port max_retries : Z) (delay : Q) (attempt : Z)
    (m : machine) :
  (0 <= delay)%Q ->
  exists b m' t,
    verify_attempt w port max_retries delay attempt m = (Ret b, m', t)
    /\ sleeps t = (if b then 0 else if (attempt <? max_retries - 1)%Z then 1 else 0)%nat
    /\ Forall (fun e => is_sleep e = true -> e = Sleep delay) t
    /\ none_of is_spawn t.
Proof.
  intros Hd.
  unfold verify_attempt, socket_connect_ex, urlopen_json. mred.
  destruct (sys_connect w "127.0.0.1" port (tick m)) as [c | e]; mred.
  - destruct (c =? 0)%Z; mred.
    + destruct (sys_http w (version_url port) (S (tick m))) as [data | e]; mred.
      * destruct (is_devtools_metadata data) as [[|] | e]; mred.
        -- eexists _, _, _. split; [reflexivity |]. split; [reflexivity |].
           split; [repeat (constructor; [discriminate |]); constructor |].
           repeat constructor.
        -- destruct (attempt <? max_retries - 1)%Z; mred;
             rewrite ?(time_sleep_run delay _ Hd); mred;
             (eexists _, _, _; split; [reflexivity |]; split; [reflexivity |]);
             (split; [repeat (constructor; [first [discriminate | reflexivity] |]);
                      constructor | repeat constructor]).
        -- destruct (attempt <? max_retries - 1)%Z; mred;
             rewrite ?(time_sleep_run delay _ Hd); mred;
             (eexists _, _, _; split; [reflexivity |]; split; [reflexivity |]);
             (split; [repeat (constructor; [first [discriminate | reflexivity] |]);
                      constructor | repeat constructor]).
      * destruct (attempt <? max_retries - 1)%Z; mred;
          rewrite ?(time_sleep_run delay _ Hd); mred;
          (eexists _, _, _; split; [reflexivity |]; split; [reflexivity |]);
          (split; [repeat (constructor; [first [discriminate | reflexivity] |]);
                   constructor | repeat constructor]).
    + destruct (attempt <? max_retries - 1)%Z; mred;
        rewrite ?(time_sleep_run delay _ Hd); mred;
        (eexists _, _, _; split; [reflexivity |]; split; [reflexivity |]);
        (split; [repeat (constructor; [first [discriminate | reflexivity] |]);
                 constructor | repeat constructor]).
  - destruct (attempt <? max_retries - 1)%Z; mred;
      rewrite ?(time_sleep_run delay _ Hd); mred;
      (eexists _, _, _; split; [reflexivity |]; split; [reflexivity |]);
      (split; [repeat (constructor; [first [discriminate | reflexivity] |]);
               constructor | repeat constructor]).
Qed.

Lemma verify_loop_sleeps (port max_retries : Z) (delay : Q) (remaining : nat) :
  (0 <= delay)%Q ->
  forall (attempt : Z) (m : machine),
  attempt + Z.of_nat remaining = max_retries ->
  exists b m' t,
    verify_loop w port max_retries delay remaining attempt m = (Ret b, m', t)
    /\ (sleeps t <= Nat.pred remaining)%nat
    /\ (b = false -> sleeps t = Nat.pred remaining)
    /\ Forall (fun e => is_sleep e = true -> e = Sleep delay) t
    /\ none_of is_spawn t.
Proof.
  intros Hd. induction remaining as [| k IH]; intros attempt m Hsum.
  - exists false, m, []. split; [reflexivity |]. split; [reflexivity |].
    split; [reflexivity |]. split; constructor.
  - cbn [verify_loop]. rewrite bind_unfold.
    destruct (verify_attempt_sleeps port max_retries delay attempt m Hd)
      as (b & m1 & t1 & E1 & S1 & A1 & P1).
    rewrite E1. destruct b.
    + exists true, m1, (t1 ++ [])%list. split; [reflexivity |].
      rewrite app_nil_r, S1. split; [lia |]. split; [discriminate |].
      split; assumption.
    + destruct (IH (attempt + 1) m1 ltac:(lia))
        as (b & m2 & t2 & E2 & S2 & X2 & A2 & P2).
      rewrite E2. exists b, m2, (t1 ++ t2)%list. split; [reflexivity |].
      rewrite sleeps_app, S1.
      assert (Hk : (if (attempt <? max_retries - 1)%Z then 1 else 0)%nat
                   = (if k is O then 0 else 1)%nat).
      { destruct (Z.ltb_spec attempt (max_retries - 1)); destruct k; lia. }
      rewrite Hk. cbn [Nat.pred].
      split; [destruct k; cbn [Nat.pred] in *; lia |].
      split; [intros Hb; rewrite (X2 Hb); destruct k; cbn [Nat.pred]; lia |].
      split; [apply List.Forall_app; split; assumption |].
      apply none_of_app; assumption.
Qed.

(** X13.  With a non-negative interval, [verify_chrome_listening] sleeps only
    between attempts, always for the given interval: at most
    [max_retries - 1] times, and exactly that often when it answers
    [False].  There is no sleep after the last attempt. *)
Theorem verify_chrome_listening_sleeps (port max_retries : Z) (delay : Q)
    (m : machine) :
  (0 <= delay)%Q ->
  (sleeps (trace_of (verify_chrome_listening w port max_retries delay m))
   <= Nat.pred (Z.to_nat max_retries))%nat
  /\ (result_of (verify_chrome_listening w port max_retries delay m) = Ret false ->
      sleeps (trace_of (verify_chrome_listening w port max_retries delay m))
      = Nat.pred (Z.to_nat max_retries))
  /\ Forall (fun e => is_sleep e = true -> e = Sleep delay)
       (trace_of (verify_chrome_listening w port max_retries delay m)).
Proof.
  intros Hd. unfold verify_chrome_listening.
  destruct (Z.le_gt_cases 0 max_retries) as [Hpos | Hneg].
  - destruct (verify_loop_sleeps port max_retries delay (Z.to_nat max_retries) Hd 0 m
                ltac:(lia)) as (b & m' & t & E & S & X & A & _).
    rewrite E. unfold trace_of, result_of. cbn [fst snd].
    split; [exact S |]. split; [| exact A].
    intros [= ->]. apply X. reflexivity.
  - replace (Z.to_nat max_retries) with 0%nat by lia.
    cbn. split; [lia |]. split; [reflexivity | constructor].
Qed.

End Handshake.

(** ** The footprint of the Windows orchestration *)

Ltac harmless :=
  unfold none_of;
  repeat first
    [ apply List.Forall_nil
    | apply List.Forall_cons; [reflexivity |]
    | apply List.Forall_app; split ].

Section WindowsFootprint.

Context (w : world).

Lemma get_wsl_adapter_ip_shape (m : machine) :
  PyStr.lower (sys_platform w) = "windows" ->
  exists ip,
    get_wsl_adapter_ip w m =
      (Ret ip, set_tick (S (tick m)) m, [Run GetNetIPAddressWSL]).
Proof.
  intros Hsys. unfold get_wsl_adapter_ip.
  rewrite bind_unfold, (detect_environment_windows w m Hsys).
  unfold subprocess_run. mred.
  destruct (sys_process w GetNetIPAddressWSL (tick m)) as [res | e]; mred.
  - destruct ((returncode res =? 0)%Z
              && PyStr.truthy (PyStr.strip (stdout res))); mred;
      eexists; reflexivity.
  - eexists. reflexivity.
Qed.

Lemma kill_browser_shape (b : Browser) (env : Environment) (m : machine) :
  exists lvl msg,
    kill_browser w b env m =
      (Ret tt, set_tick (S (tick m)) m, [Run (kill_command b env); Log lvl msg]).
Proof.
  unfold kill_browser, kill_command, subprocess_run.
  assert (Hname : negb (PyStr.truthy (get_process_name b env)) = false)
    by (destruct b, env; reflexivity).
  rewrite Hname.
  destruct (Environment_eqb env WINDOWS); mred.
  - destruct (sys_process w (Taskkill (get_process_name b env)) (tick m));
      eexists _, _; reflexivity.
  - destruct (sys_process w (Pkill (get_process_name b env)) (tick m));
      eexists _, _; reflexivity.
Qed.

Lemma launch_browser_shape (config : BrowserConfig) (env : Environment)
    (m : machine) :
  exists process lvl msg,
    launch_browser w config env m =
      (Ret process, set_tick (S (tick m)) m,
       [Popen (detach_mode env) (path config :: args config); Log lvl msg]).
Proof.
  unfold launch_browser, subprocess_Popen, detach_mode.
  destruct (Environment_eqb env WINDOWS); mred.
  - destruct (sys_spawn w NewProcessGroup (path config :: args config) (tick m));
      eexists _, _, _; reflexivity.
  - destruct (sys_spawn w Setsid (path config :: args config) (tick m));
      eexists _, _, _; reflexivity.
Qed.

Lemma first_existing_file_same_fs (paths : list string) (m1 m2 : machine) :
  fs m1 = fs m2 ->
  result_of (first_existing_file w paths m1)
  = result_of (first_existing_file w paths m2).
Proof.
  intros Hfs. induction paths as [| p rest IH]; [reflexivity |].
  cbn [first_existing_file]. unfold os_path_isfile. mred. rewrite Hfs.
  destruct (fs m2 !! sys_expandvars w (sys_expanduser w p)) as [[r | r es] |].
  - reflexivity.
  - destruct (first_existing_file_run w rest m1) as (f1 & E1).
    destruct (first_existing_file_run w rest m2) as (f2 & E2).
    rewrite E1, E2 in IH |- *. exact IH.
  - destruct (first_existing_file_run w rest m1) as (f1 & E1).
    destruct (first_existing_file_run w rest m2) as (f2 & E2).
    rewrite E1, E2 in IH |- *. exact IH.
Qed.

(** What [find_browser] answers depends on the file system only. *)
Lemma find_browser_same_fs (b : Browser) (env : Environment) (m1 m2 : machine) :
  fs m1 = fs m2 ->
  result_of (find_browser w b env m1) = result_of (find_browser w b env m2).
Proof.
  intros Hfs. unfold find_browser. rewrite !bind_unfold.
  pose proof (first_existing_file_same_fs (BROWSER_PATHS w b env) m1 m2 Hfs) as H.
  destruct (first_existing_file_run w (BROWSER_PATHS w b env) m1) as (f1 & E1).
  destruct (first_existing_file_run w (BROWSER_PATHS w b env) m2) as (f2 & E2).
  rewrite E1, E2 in H |- *. unfold result_of in H. cbn [fst] in H.
  injection H as ->. destruct f2; reflexivity.
Qed.

Lemma cleanup_profile_frame (profile_dir : string) (m : machine) :
  exists m' t,
    cleanup_profile profile_dir m = (Ret tt, m', t)
    /\ rules m' = rules m
    /\ (forall q, q <> profile_dir -> fs m' !! q = fs m !! q)
    /\ none_of is_spawn t.
Proof.
  destruct (fs m !! profile_dir) as [[r | r es] |] eqn:L.
  - rewrite (cleanup_profile_on_file profile_dir m r L).
    eexists _, _. split; [reflexivity |]. split; [reflexivity |].
    split; [reflexivity | repeat constructor].
  - rewrite (cleanup_profile_run profile_dir m r es L).
    eexists _, _. split; [reflexivity |]. split; [reflexivity |].
    split; [| repeat constructor].
    intros q Hq. cbn [fs].
    destruct (rm_node (Dir r es)).
    + apply lookup_insert_ne. congruence.
    + apply lookup_delete_ne. congruence.
  - rewrite (cleanup_profile_absent profile_dir m L).
    eexists _, _. split; [reflexivity |]. split; [reflexivity |].
    split; [reflexivity | constructor].
Qed.

Lemma verify_chrome_listening_frame (port : Z) (m : machine) :
  exists b m' t,
    verify_chrome_listening w port 10 1 m = (Ret b, m', t)
    /\ rules m' = rules m /\ fs m' = fs m
    /\ none_of is_spawn t.
Proof.
  unfold verify_chrome_listening.
  destruct (verify_loop_run w port 10 1 (Z.to_nat 10) Q_0_le_1 0 m)
    as (b & m' & t & E & _ & _ & _ & R & F & _).
  destruct (verify_loop_sleeps w port 10 1 (Z.to_nat 10) Q_0_le_1 0 m eq_refl)
    as (b' & m'' & t' & E' & _ & _ & _ & P).
  rewrite E in E'. injection E' as <- <- <-.
  exists b, m', t. auto.
Qed.

Lemma not_stopped_before_browser (b : Browser) (r : WindowsSetupResult) (Q : Prop) :
  (error_message r = "Failed to launch browser"
   \/ error_message r = "Browser did not start listening on debug port"
   \/ error_message r = "Failed to configure portproxy"
   \/ error_message r = "") ->
  stopped_before_browser b r -> Q.
Proof.
  unfold stopped_before_browser.
  intros [-> | [-> | [-> | ->]]] [H | [H | H]];
    try discriminate H; destruct b; vm_compute in H; discriminate H.
Qed.

(** What every run of [WindowsOrchestrator.run] leaves behind. *)
Lemma run_walk (self : WindowsOrchestrator) (m : machine) :
  exists r m' t,
    WindowsOrchestrator_run w self m = (Ret r, m', t)
    /\ (forall q, q <> profile_path w (wo_browser self) -> fs m' !! q = fs m !! q)
    /\ (forall k, k <> (wsl_ip r, wo_debug_port self) ->
          rules m' !! k = rules m !! k)
    /\ (chrome_listening r = false -> rules m' = rules m)
    /\ (success r = true ->
          rules m' !! (wsl_ip r, wo_debug_port self)
          = Some ("127.0.0.1", wo_debug_port self))
    /\ (stopped_before_browser (wo_browser self) r ->
          none_of is_destructive t /\ rules m' = rules m /\ fs m' = fs m)
    /\ spawns_prepared w self m t.
Proof.
  unfold WindowsOrchestrator_run.
  destruct (is_admin_run w m) as (adm & ta & Ea & Hta & Hadm).
  rewrite bind_unfold, Ea. destruct adm; cbn [negb].
  2:{ mstep. eexists _, _, _. split; [reflexivity |].
      split; [reflexivity |]. split; [reflexivity |]. split; [reflexivity |].
      split; [discriminate |].
      split; [| left; destruct Hta as [-> | ->]; harmless].
      intros _. split; [| split; reflexivity].
      destruct Hta as [-> | ->]; harmless. }
  destruct (Hadm eq_refl) as (Hsys & -> & _). clear Hadm Hta.
  mstep.
  destruct (get_wsl_adapter_ip_shape m Hsys) as (ip & E1).
  rewrite E1. mstep. rsimpl.
  destruct ip as [| c0 ip0]; cbn [PyStr.truthy PyStr.is_empty negb].
  { eexists _, _, _. split; [reflexivity |].
    split; [reflexivity |]. split; [reflexivity |]. split; [reflexivity |].
    split; [discriminate |].
    split; [| left; harmless].
    intros _. split; [harmless | split; reflexivity]. }
  set (ip := String c0 ip0).
  destruct (find_browser_run w (wo_browser self) (wo_env self)
              (set_tick (S (tick m)) m)) as (found & E2).
  assert (Hfound : result_of (find_browser w (wo_browser self) (wo_env self) m)
                   = Ret found).
  { rewrite (find_browser_same_fs (wo_browser self) (wo_env self) m
               (set_tick (S (tick m)) m) eq_refl), E2. reflexivity. }
  rewrite E2. mstep. rsimpl.
  assert (Hnone :
    exists r m' t,
      (Ret (mkWindowsSetupResult false ip false false
              ("Could not find " ++ Browser_value (wo_browser self) ++ " installation")),
       set_tick (S (tick m)) m,
       AdminQuery
       :: Log LStep "Running as Administrator ✓"
       :: Log LStep "Detecting WSL network adapter..."
       :: Run GetNetIPAddressWSL
       :: Log LSuccess ("WSL adapter IP: " ++ ip)
       :: Log LStep ("Locating " ++ Browser_value (wo_browser self) ++ "...")
       :: [Log LError
             ("Could not find " ++ Browser_value (wo_browser self) ++ " installation")])
      = (Ret r, m', t)
      /\ (forall q, q <> profile_path w (wo_browser self) -> fs m' !! q = fs m !! q)
      /\ (forall k, k <> (wsl_ip r, wo_debug_port self) ->
            rules m' !! k = rules m !! k)
      /\ (chrome_listening r = false -> rules m' = rules m)
      /\ (success r = true ->
            rules m' !! (wsl_ip r, wo_debug_port self)
            = Some ("127.0.0.1", wo_debug_port self))
      /\ (stopped_before_browser (wo_browser self) r ->
            none_of is_destructive t /\ rules m' = rules m /\ fs m' = fs m)
      /\ spawns_prepared w self m t).
  { eexists _, _, _. split; [reflexivity |].
    split; [reflexivity |]. split; [reflexivity |]. split; [reflexivity |].
    split; [discriminate |].
    split; [| left; harmless].
    intros _. split; [harmless | split; reflexivity]. }
  destruct found as [[| c1 bp0] |]; try exact Hnone.
  clear Hnone. set (bp := String c1 bp0) in *.
  mstep. rsimpl.
  destruct (kill_browser_shape (wo_browser self) (wo_env self)
              (set_tick (S (tick m)) m)) as (klvl & kmsg & E3).
  rewrite E3. mstep. rsimpl.
  match goal with
  | |- context [time_sleep 1 ?mm] => rewrite (time_sleep_run 1 mm Q_0_le_1)
  end.
  mstep. rsimpl.
  fold (profile_path w (wo_browser self)).
  match goal with
  | |- context [cleanup_profile ?p ?mm] =>
      destruct (cleanup_profile_frame p mm) as (m3 & t3 & E4 & R4 & F4 & P4);
      rewrite E4
  end.
  cbn [rules fs set_tick tick] in R4, F4.
  mstep. rsimpl.
  match goal with
  | |- context [launch_browser w ?c ?e ?mm] =>
      destruct (launch_browser_shape c e mm) as (proc & llvl & lmsg & E5);
      rewrite E5
  end.
  cbn [path args] in *.
  mstep. rsimpl.
  set (pre := (AdminQuery
               :: Log LStep "Running as Administrator ✓"
               :: Log LStep "Detecting WSL network adapter..."
               :: Run GetNetIPAddressWSL
               :: Log LSuccess ("WSL adapter IP: " ++ ip)
               :: Log LStep ("Locating " ++ Browser_value (wo_browser self) ++ "...")
               :: Log LSuccess ("Found: " ++ bp)
               :: Log LStep "Preparing browser environment..."
               :: Run (kill_command (wo_browser self) (wo_env self))
               :: Log klvl kmsg
               :: Sleep 1
               :: t3
               ++ [Log LStep ("Launching " ++ Browser_value (wo_browser self) ++ "...")])%list).
  assert (Hpre : none_of is_spawn pre) by (subst pre; relay_free).
  assert (Hkill : In (Run (kill_command (wo_browser self) (wo_env self))) pre).
  { subst pre. do 8 right. left. reflexivity. }
  assert (Hsleep : In (Sleep 1) pre).
  { subst pre. do 10 right. left. reflexivity. }
  assert (Hspawn : forall t post,
            none_of is_spawn post ->
            t = (pre
                 ++ Popen (detach_mode (wo_env self))
                      (bp :: get_browser_args (wo_browser self) (wo_debug_port self)
                               (profile_path w (wo_browser self)) (wo_env self))
                 :: post)%list ->
            spawns_prepared w self m t).
  { intros t post Hpost ->. right. exists bp, pre, post. auto 10. }
  destruct proc as [pid |].
  2:{ eexists _, _, _. split; [reflexivity |]. cbn [fs rules set_tick tick].
      split; [exact F4 |]. split; [intros k _; rewrite R4; reflexivity |].
      split; [intros _; exact R4 |]. split; [discriminate |].
      split; [apply not_stopped_before_browser; left; reflexivity |].
      eapply Hspawn; [| subst pre; trace_eq]. relay_free. }
  mstep. rsimpl.
  destruct (verify_chrome_listening_frame (wo_debug_port self) (set_tick (S (tick m3)) m3))
    as (b & m5 & t5 & E6 & R6 & F6 & P6).
  rewrite E6. cbn [rules fs set_tick tick] in R6, F6. mstep. rsimpl.
  destruct b; cbn [negb].
  - destruct (setup_portproxy_effect w ip (wo_debug_port self) m5)
      as (c & m6 & t6 & E7 & F7 & R7 & I7 & _).
    pose proof (setup_portproxy_no_spawn w ip (wo_debug_port self) m5) as P7.
    rewrite E7 in P7. unfold trace_of in P7. cbn [snd] in P7.
    mstep. rsimpl. rewrite E7. mstep. rsimpl.
    destruct c; cbn [negb]; mstep; rsimpl;
      (eexists _, _, _; split; [reflexivity |]); rsimpl; cbn [fs rules set_tick tick].
    + split; [intros q Hq; rewrite F7, F6; apply F4; exact Hq |].
      split; [intros k Hk; rewrite (R7 k Hk), R6, R4; reflexivity |].
      split; [discriminate |].
      split; [intros _; apply I7; reflexivity |].
      split; [apply not_stopped_before_browser; right; right; right; reflexivity |].
      eapply Hspawn; [| subst pre; trace_eq]. relay_free.
    + split; [intros q Hq; rewrite F7, F6; apply F4; exact Hq |].
      split; [intros k Hk; rewrite (R7 k Hk), R6, R4; reflexivity |].
      split; [discriminate |].
      split; [discriminate |].
      split; [apply not_stopped_before_browser; right; right; left; reflexivity |].
      eapply Hspawn; [| subst pre; trace_eq]. relay_free.
  - mstep. rsimpl.
    eexists _, _, _. split; [reflexivity |]. rsimpl. cbn [fs rules set_tick tick].
    split; [intros q Hq; rewrite F6; apply F4; exact Hq |].
    split; [intros k _; rewrite R6, R4; reflexivity |].
    split; [intros _; rewrite R6, R4; reflexivity |].
    split; [discriminate |].
    split; [apply not_stopped_before_browser; right; left; reflexivity |].
    eapply Hspawn; [| subst pre; trace_eq]. relay_free.
Qed.

(** X14.  Whatever happens, [WindowsOrchestrator.run] changes no file outside
    the browser's profile directory and no portproxy rule but the one for
    (adapter address, debug port); and a run that does not see the browser
    listening leaves the whole portproxy table as it was. *)
Theorem windows_run_frame (self : WindowsOrchestrator) (m : machine) :
  exists r,
    result_of (WindowsOrchestrator_run w self m) = Ret r
    /\ (forall q, q <> profile_path w (wo_browser self) ->
          fs (machine_of (WindowsOrchestrator_run w self m)) !! q = fs m !! q)
    /\ (forall k, k <> (wsl_ip r, wo_debug_port self) ->
          rules (machine_of (WindowsOrchestrator_run w self m)) !! k = rules m !! k)
    /\ (chrome_listening r = false ->
          rules (machine_of (WindowsOrchestrator_run w self m)) = rules m).
Proof.
  destruct (run_walk self m) as (r & m' & t & E & F & R & L & _).
  rewrite E. exists r. split; [reflexivity |].
  unfold machine_of. cbn [fst snd]. auto.
Qed.

(** X15.  After a successful run the portproxy table maps (adapter address,
    debug port) to the loopback address on the same port. *)
Theorem windows_success_installs_rule (self : WindowsOrchestrator) (m : machine)
    (r : WindowsSetupResult) :
  result_of (WindowsOrchestrator_run w self m) = Ret r ->
  success r = true ->
  rules (machine_of (WindowsOrchestrator_run w self m))
    !! (wsl_ip r, wo_debug_port self)
  = Some ("127.0.0.1", wo_debug_port self).
Proof.
  intros Hr Hs.
  destruct (run_walk self m) as (r' & m' & t & E & _ & _ & _ & I & _).
  rewrite E in Hr |- *. unfold result_of in Hr. cbn [fst] in Hr.
  injection Hr as ->. unfold machine_of. cbn [fst snd]. apply I. exact Hs.
Qed.

(** X16.  A run that ends without elevation, without an adapter address, or
    without finding the browser has killed no process, removed no profile,
    spawned nothing and run no portproxy command: the rule table and the
    file system are as before. *)
Theorem windows_early_failure_is_harmless (self : WindowsOrchestrator) (m : machine)
    (r : WindowsSetupResult) :
  result_of (WindowsOrchestrator_run w self m) = Ret r ->
  stopped_before_browser (wo_browser self) r ->
  none_of is_destructive (trace_of (WindowsOrchestrator_run w self m))
  /\ rules (machine_of (WindowsOrchestrator_run w self m)) = rules m
  /\ fs (machine_of (WindowsOrchestrator_run w self m)) = fs m.
Proof.
  intros Hr Hs.
  destruct (run_walk self m) as (r' & m' & t & E & _ & _ & _ & _ & H & _).
  rewrite E in Hr |- *. unfold result_of in Hr. cbn [fst] in Hr.
  injection Hr as ->. unfold machine_of, trace_of. cbn [fst snd]. apply H. exact Hs.
Qed.

(** X17.  [WindowsOrchestrator.run] spawns at most one browser: the executable
    [find_browser] answers for the initial file system, detached, with
    exactly the arguments of [get_browser_args] for the debug port and the
    profile directory, and only after the kill command has been run and one
    second has been slept. *)
Theorem windows_spawn_is_prepared (self : WindowsOrchestrator) (m : machine) :
  let t := trace_of (WindowsOrchestrator_run w self m) in
  none_of is_spawn t
  \/ exists bp pre post,
       t = (pre
            ++ Popen (detach_mode (wo_env self))
                 (bp :: get_browser_args (wo_browser self) (wo_debug_port self)
                          (profile_path w (wo_browser self)) (wo_env self))
            :: post)%list
       /\ result_of (find_browser w (wo_browser self) (wo_env self) m) = Ret (Some bp)
       /\ none_of is_spawn pre
       /\ none_of is_spawn post
       /\ In (Run (kill_command (wo_browser self) (wo_env self))) pre
       /\ In (Sleep 1) pre.
Proof.
  destruct (run_walk self m) as (r & m' & t & E & _ & _ & _ & _ & _ & H).
  rewrite E. exact H.
Qed.

End WindowsFootprint.

(** ** The shape of the WSL orchestration *)

Lemma Q_0_le_2 : (0 <= 2)%Q.
Proof. unfold Qle. simpl. lia. Qed.

(** Count the events of one kind in a trace built from known pieces. *)
Ltac count :=
  unfold connects, sleeps, remote_invocations in *;
  repeat (cbn [List.filter List.length app is_connect is_sleep is_remote_invocation];
          rewrite ?List.filter_app, ?List.length_app);
  cbn [List.filter List.length app is_connect is_sleep is_remote_invocation];
  try lia.

Lemma remote_invocations_none (t : list event) :
  none_of is_remote_invocation t -> remote_invocations t = 0%nat.
Proof.
  unfold none_of, remote_invocations. intros H.
  induction H as [| e t He Ht IH]; [reflexivity |].
  cbn [List.filter]. rewrite He. exact IH.
Qed.

Section GuestShape.

Context (w : world).

Lemma detect_wsl_host_ip_frame (m : machine) :
  rules (machine_of (detect_wsl_host_ip w m)) = rules m
  /\ fs (machine_of (detect_wsl_host_ip w m)) = fs m.
Proof.
  unfold detect_wsl_host_ip.
  rewrite bind_unfold, (detect_environment_pure w m).
  destruct (result_of (detect_environment w m)) as [env | e]; [| split; reflexivity].
  destruct (negb (Environment_eqb env WSL)); [split; reflexivity |].
  unfold open_read, subprocess_run. mred.
  destruct (sys_file w "/etc/resolv.conf") as [c | e]; mred; [| split; reflexivity].
  destruct (first_nameserver (PyStr.lines c)) as [addr |]; mred; [split; reflexivity |].
  destruct (sys_process w IpRouteShowDefault (tick m)) as [res | e]; mred;
    [| split; reflexivity].
  destruct (returncode res =? 0)%Z; mred; [| split; reflexivity].
  destruct (PyStr.split (PyStr.strip (stdout res))) as [| p0 [| p1 [| p2 tl]]];
    mred; try (split; reflexivity).
  destruct (String.eqb p0 "default" && String.eqb p1 "via"); split; reflexivity.
Qed.

Lemma run_powershell_from_wsl_shape (script : ps_script) (m : machine) :
  exists ok output,
    run_powershell_from_wsl w script m =
      (Ret (ok, output), set_tick (S (tick m)) m, [Run (PowershellExe script)])
    /\ (ok = true <->
        exists res,
          sys_process w (PowershellExe script) (tick m) = Ret res
          /\ returncode res = 0).
Proof.
  unfold run_powershell_from_wsl, subprocess_run. mred.
  destruct (sys_process w (PowershellExe script) (tick m)) as [res | e]; mred.
  - destruct (Z.eqb_spec (returncode res) 0) as [Hz | Hz]; mred;
      eexists _, _; (split; [reflexivity |]).
    + split; [intros _; exists res; auto | reflexivity].
    + split; [discriminate |]. intros (res' & [= <-] & Hz'). contradiction.
  - destruct (is_TimeoutExpired e); mred;
      eexists _, _; (split; [reflexivity |]);
      (split; [discriminate | intros (res' & [=] & _)]).
Qed.

(** The polling loop that follows the remote setup. *)
Lemma wsl_verify_loop_run (host : string) (port : Z) (remaining : nat) :
  forall (attempt : Z) (m : machine),
  attempt + Z.of_nat remaining = max_attempts ->
  exists b m' t,
    wsl_verify_loop w host port remaining attempt m = (Ret b, m', t)
    /\ (connects t <= remaining)%nat
    /\ (b = false -> connects t = remaining)
    /\ (sleeps t <= Nat.pred remaining)%nat
    /\ (b = false -> sleeps t = Nat.pred remaining)
    /\ Forall (fun e => is_sleep e = true -> e = Sleep 2) t
    /\ none_of is_remote_invocation t
    /\ rules m' = rules m /\ fs m' = fs m.
Proof.
  induction remaining as [| k IH]; intros attempt m Hsum.
  - exists false, m, []. split; [reflexivity |].
    repeat (split; [first [reflexivity | constructor] |]). reflexivity.
  - cbn [wsl_verify_loop]. rewrite bind_unfold.
    destruct (verify_connection_run w host port 2 m) as (b & Ev).
    rewrite Ev. destruct b.
    + mstep. eexists _, _, _. split; [reflexivity |].
      split; [count |]. split; [discriminate |]. split; [count |].
      split; [discriminate |].
      split; [repeat (constructor; [discriminate |]); constructor |].
      split; [harmless |]. split; reflexivity.
    + unfold max_attempts in *.
      destruct (Z.ltb_spec attempt (5 - 1)) as [Hlt | Hge].
      * mstep. rewrite (time_sleep_run 2 _ Q_0_le_2). mstep.
        match goal with
        | |- context [wsl_verify_loop w host port k (attempt + 1) ?mm] =>
            destruct (IH (attempt + 1) mm ltac:(lia))
              as (b1 & m2 & t2 & E2 & C2 & CX2 & S2 & SX2 & A2 & N2 & R2 & F2)
        end.
        cbn [rules fs set_tick tick] in R2, F2.
        rewrite E2. eexists _, _, _. split; [reflexivity |].
        split; [count |]. split; [intros Hb; specialize (CX2 Hb); count |].
        split; [destruct k; [lia |]; cbn [Nat.pred] in *; count |].
        split; [intros Hb; specialize (SX2 Hb);
                destruct k; [lia |]; cbn [Nat.pred] in *; count |].
        split; [constructor; [discriminate |]; constructor; [discriminate |];
                constructor; [reflexivity |]; exact A2 |].
        split; [unfold none_of in *; repeat (constructor; [reflexivity |]); exact N2 |].
        split; assumption.
      * mstep.
        match goal with
        | |- context [wsl_verify_loop w host port k (attempt + 1) ?mm] =>
            destruct (IH (attempt + 1) mm ltac:(lia))
              as (b3 & m4 & t4 & E4 & C4 & CX4 & S4 & SX4 & A4 & N4 & R4 & F4)
        end.
        cbn [rules fs set_tick tick] in R4, F4.
        rewrite E4. eexists _, _, _. split; [reflexivity |].
        split; [count |]. split; [intros Hb; specialize (CX4 Hb); count |].
        split; [destruct k; cbn [Nat.pred] in *; count |].
        split; [intros Hb; specialize (SX4 Hb);
                destruct k; [| lia]; cbn [Nat.pred] in *; count |].
        split; [constructor; [discriminate |]; exact A4 |].
        split; [unfold none_of in *; repeat (constructor; [reflexivity |]); exact N4 |].
        split; assumption.
Qed.

(** The script path handed to Windows holds no forward slash. *)
Lemma remote_script_path (self : WSLOrchestrator) :
  free_of "/" (ps_windows_path (remote_script w self)) = true.
Proof.
  unfold remote_script. cbn [ps_windows_path].
  pose proof (split_on_go_pieces "/" (sys_script w) "" eq_refl) as Hp.
  fold (PyStr.split_on "/" (sys_script w)) in Hp.
  apply free_of_app.
  - apply free_of_upper.
    assert (Hnth : forall (l : list string) n,
               Forall (fun piece => free_of "/" piece = true) l ->
               free_of "/" (nth n l "") = true).
    { intros l n Hl. revert n. induction Hl as [| x l Hx Hl IH]; intros [| n];
        cbn [nth]; auto. }
    apply Hnth. exact Hp.
  - apply free_of_app; [reflexivity |].
    apply free_of_join; [reflexivity |].
    assert (Hskip : forall (l : list string) n,
               Forall (fun piece => free_of "/" piece = true) l ->
               Forall (fun piece => free_of "/" piece = true) (skipn n l)).
    { intros l n Hl. revert n. induction Hl as [| x l Hx Hl IH]; intros [| n];
        cbn [skipn]; auto. }
    apply Hskip. exact Hp.
Qed.

(** When the host address cannot even be looked up, the error leaves
    [WSLOrchestrator.run]. *)
Lemma wsl_run_raises (self : WSLOrchestrator) (m m1 : machine) (e : exn)
    (t1 : list event) :
  detect_wsl_host_ip w m = (Raise e, m1, t1) ->
  WSLOrchestrator_run w self m =
    (Raise e, m1,
     ([Log LStep "Running from WSL - initiating cross-environment setup";
       Log LStep "Detecting Windows host IP..."] ++ t1)%list).
Proof.
  intros Ed. unfold WSLOrchestrator_run. mstep. rewrite Ed. reflexivity.
Qed.

Ltac remote_only :=
  match goal with
  | Hin : In _ _ |- _ =>
      cbn [app In] in Hin; rewrite ?List.in_app_iff in Hin; cbn [app In] in Hin;
      repeat match type of Hin with
             | _ \/ _ => destruct Hin as [Hin | Hin]
             end;
      first [ discriminate Hin
            | contradiction
            | injection Hin as <-; reflexivity
            | exfalso;
              match type of Hin with
              | In ?e ?t =>
                  match goal with
                  | N : none_of is_remote_invocation t |- _ =>
                      exact (none_of_not_in is_remote_invocation t e N eq_refl Hin)
                  end
              end ]
  end.

(** The shape of every run of [WSLOrchestrator.run] that gets past the
    lookup of the host address. *)
Lemma wsl_run_cases (self : WSLOrchestrator) (m : machine)
    (ip : string) (m1 : machine) (t1 : list event) :
  detect_wsl_host_ip w m = (Ret ip, m1, t1) ->
  exists r m' t,
    WSLOrchestrator_run w self m = (Ret r, m', t)
    /\ rules m' = rules m1 /\ fs m' = fs m1
    /\ (forall ps, In (Run (PowershellExe ps)) t -> ps = remote_script w self)
    /\ Forall (fun e => is_sleep e = true -> e = Sleep 2) t
    /\ ((r = mkWSLSetupResult false ip false false
                "Could not detect Windows host IP from WSL"
         /\ ip = ""
         /\ connects t = 0%nat /\ sleeps t = 0%nat /\ remote_invocations t = 0%nat)
        \/ (r = mkWSLSetupResult true ip true true ""
            /\ ip <> ""
            /\ connects t = 1%nat /\ sleeps t = 0%nat /\ remote_invocations t = 0%nat)
        \/ (r = mkWSLSetupResult false ip false false
                   "Could not determine Windows path to script"
            /\ ip <> ""
            /\ PyStr.startswith (sys_script w) "/mnt/" = false
            /\ connects t = 1%nat /\ sleeps t = 0%nat /\ remote_invocations t = 0%nat)
        \/ (exists output,
              r = mkWSLSetupResult false ip false false
                    ("Windows setup failed: " ++ output)
              /\ ip <> ""
              /\ PyStr.startswith (sys_script w) "/mnt/" = true
              /\ connects t = 1%nat /\ sleeps t = 0%nat
              /\ remote_invocations t = 1%nat)
        \/ (r = mkWSLSetupResult true ip true true ""
            /\ ip <> ""
            /\ PyStr.startswith (sys_script w) "/mnt/" = true
            /\ (connects t <= 6)%nat /\ (sleeps t <= 4)%nat
            /\ remote_invocations t = 1%nat)
        \/ (r = mkWSLSetupResult false ip true false "Connection verification failed"
            /\ ip <> ""
            /\ PyStr.startswith (sys_script w) "/mnt/" = true
            /\ connects t = 6%nat /\ sleeps t = 4%nat
            /\ remote_invocations t = 1%nat)).
Proof.
  intros Ed.
  pose proof (detect_wsl_host_ip_trace w m) as Ht.
  rewrite Ed in Ht. unfold trace_of in Ht. cbn [snd] in Ht.
  unfold WSLOrchestrator_run. mstep. rewrite Ed. mstep.
  cbn [wsl_browser wsl_debug_port wsl_windows_host_ip
       with_windows_host_ip with_wsl_error_message with_wsl_success
       with_windows_setup_completed with_connection_verified
       wsl_success windows_host_ip windows_setup_completed connection_verified
       wsl_error_message].
  destruct ip as [| c0 ip0]; cbn [PyStr.truthy PyStr.is_empty negb].
  { eexists _, _, _. split; [reflexivity |].
    split; [reflexivity |]. split; [reflexivity |].
    split; [intros ps Hin; destruct Ht as [-> | ->]; remote_only |].
    split; [destruct Ht as [-> | ->]; repeat (constructor; [discriminate |]); constructor |].
    left. split; [reflexivity |]. split; [reflexivity |].
    destruct Ht as [-> | ->]; repeat split; count. }
  set (ip := String c0 ip0).
  assert (Hip : ip <> "") by discriminate.
  destruct (verify_connection_run w ip (wsl_debug_port self) 2 m1) as (b0 & Ev).
  rewrite Ev. mstep.
  destruct b0.
  { mstep. eexists _, _, _. split; [reflexivity |].
    split; [reflexivity |]. split; [reflexivity |].
    split; [intros ps Hin; destruct Ht as [-> | ->]; remote_only |].
    split; [destruct Ht as [-> | ->]; repeat (constructor; [discriminate |]); constructor |].
    right. left. split; [reflexivity |]. split; [exact Hip |].
    destruct Ht as [-> | ->]; repeat split; count. }
  mstep.
  destruct (PyStr.startswith (sys_script w) "/mnt/") eqn:Hmnt; cbn [negb].
  2:{ mstep. eexists _, _, _. split; [reflexivity |].
      split; [reflexivity |]. split; [reflexivity |].
      split; [intros ps Hin; destruct Ht as [-> | ->]; remote_only |].
      split; [destruct Ht as [-> | ->]; repeat (constructor; [discriminate |]); constructor |].
      right. right. left. split; [reflexivity |]. split; [exact Hip |].
      split; [reflexivity |].
      destruct Ht as [-> | ->]; repeat split; count. }
  mstep. fold (remote_script w self).
  match goal with
  | |- context [run_powershell_from_wsl w ?ps ?mm] =>
      change ps with (remote_script w self);
      destruct (run_powershell_from_wsl_shape (remote_script w self) mm)
        as (ok & output & Ep & _)
  end.
  rewrite Ep. mstep.
  destruct ok; cbn [negb].
  2:{ mstep. eexists _, _, _. split; [reflexivity |].
      split; [reflexivity |]. split; [reflexivity |].
      split; [intros ps Hin; destruct Ht as [-> | ->]; remote_only |].
      split; [destruct Ht as [-> | ->]; repeat (constructor; [discriminate |]); constructor |].
      right. right. right. left. exists output.
      split; [reflexivity |]. split; [exact Hip |]. split; [reflexivity |].
      destruct Ht as [-> | ->]; repeat split; count. }
  mstep.
  match goal with
  | |- context [wsl_verify_loop w ip ?port ?n 0 ?mm] =>
      destruct (wsl_verify_loop_run ip port n 0 mm eq_refl)
        as (v & m3 & t3 & E3 & C3 & CX3 & S3 & SX3 & A3 & N3 & R3 & F3)
  end.
  cbn [rules fs set_tick tick] in R3, F3.
  change (Z.to_nat max_attempts) with 5%nat in *. cbn [Nat.pred] in *.
  rewrite E3. mstep.
  cbn [with_windows_host_ip with_wsl_error_message with_wsl_success
       with_windows_setup_completed with_connection_verified
       wsl_success windows_host_ip windows_setup_completed connection_verified
       wsl_error_message].
  destruct v;
    cbn [with_windows_host_ip with_wsl_error_message with_wsl_success
         with_windows_setup_completed with_connection_verified
         wsl_success windows_host_ip windows_setup_completed connection_verified
         wsl_error_message negb];
    mstep.
  - eexists _, _, _. split; [reflexivity |].
    split; [exact R3 |]. split; [exact F3 |].
    split; [intros ps Hin; destruct Ht as [-> | ->]; remote_only |].
    split.
    { destruct Ht as [-> | ->]; cbn [app];
        repeat (constructor; [discriminate |]);
        (apply List.Forall_app; split; [exact A3 |]);
        repeat (constructor; [discriminate |]); constructor. }
    right. right. right. right. left.
    split; [reflexivity |]. split; [exact Hip |]. split; [reflexivity |].
    pose proof (remote_invocations_none t3 N3) as Hr.
    destruct Ht as [-> | ->]; repeat split; count.
  - eexists _, _, _. split; [reflexivity |].
    split; [exact R3 |]. split; [exact F3 |].
    split; [intros ps Hin; destruct Ht as [-> | ->]; remote_only |].
    split.
    { destruct Ht as [-> | ->]; cbn [app];
        repeat (constructor; [discriminate |]);
        (apply List.Forall_app; split; [exact A3 |]);
        repeat (constructor; [discriminate |]); constructor. }
    right. right. right. right. right.
    split; [reflexivity |]. split; [exact Hip |]. split; [reflexivity |].
    specialize (CX3 eq_refl). specialize (SX3 eq_refl).
    pose proof (remote_invocations_none t3 N3) as Hr.
    destruct Ht as [-> | ->]; repeat split; count.
Qed.

End GuestShape.

(** ** What a WSL run does and reports *)

Section GuestRuns.

Context (w : world).

(** X20.  A result of [WSLOrchestrator.run] with [success = True] has
    [connection_verified = True] and [windows_setup_completed = True], a
    non-empty host address and no error message; and success is reported
    exactly when the connection was verified. *)
Theorem wsl_result_invariant (self : WSLOrchestrator) (m : machine)
    (r : WSLSetupResult) :
  result_of (WSLOrchestrator_run w self m) = Ret r ->
  wsl_success r = connection_verified r
  /\ (wsl_success r = true ->
      windows_setup_completed r = true
      /\ windows_host_ip r <> ""
      /\ wsl_error_message r = "").
Proof.
  intros Hr.
  destruct (detect_wsl_host_ip w m) as [[[ip | e] m1] t1] eqn:Ed.
  2:{ rewrite (wsl_run_raises w self m m1 e t1 Ed) in Hr. discriminate Hr. }
  destruct (wsl_run_cases w self m ip m1 t1 Ed)
    as (r' & m' & t & E & _ & _ & _ & _ & H).
  rewrite E in Hr. unfold result_of in Hr. cbn [fst] in Hr. injection Hr as ->.
  destruct H as [(-> & _) | [(-> & Hip & _) | [(-> & _) | [(out & -> & _)
                | [(-> & Hip & _) | (-> & _)]]]]];
    cbn [wsl_success connection_verified windows_setup_completed windows_host_ip
         wsl_error_message];
    (split; [reflexivity |]); intros Hs; try discriminate Hs; auto.
Qed.

(** X21.  One run of [WSLOrchestrator.run] invokes the Windows side at most
    once, tries at most six connections (the first check and five polls)
    and sleeps at most four times, two seconds each; it leaves the rule table
    and the file system of the guest alone. *)
Theorem wsl_run_is_bounded (self : WSLOrchestrator) (m : machine) :
  (remote_invocations (trace_of (WSLOrchestrator_run w self m)) <= 1)%nat
  /\ (connects (trace_of (WSLOrchestrator_run w self m)) <= 6)%nat
  /\ (sleeps (trace_of (WSLOrchestrator_run w self m)) <= 4)%nat
  /\ Forall (fun e => is_sleep e = true -> e = Sleep 2)
       (trace_of (WSLOrchestrator_run w self m))
  /\ rules (machine_of (WSLOrchestrator_run w self m)) = rules m
  /\ fs (machine_of (WSLOrchestrator_run w self m)) = fs m.
Proof.
  pose proof (detect_wsl_host_ip_trace w m) as Ht.
  pose proof (detect_wsl_host_ip_frame w m) as [Rd Fd].
  destruct (detect_wsl_host_ip w m) as [[[ip | e] m1] t1] eqn:Ed;
    unfold trace_of, machine_of in Ht, Rd, Fd; cbn [fst snd] in Ht, Rd, Fd.
  - destruct (wsl_run_cases w self m ip m1 t1 Ed)
      as (r & m' & t & E & R & F & _ & A & H).
    rewrite E. unfold trace_of, machine_of. cbn [fst snd].
    rewrite R, F.
    destruct H as [(_ & _ & C & S & N) | [(_ & _ & C & S & N)
                  | [(_ & _ & _ & C & S & N) | [(out & _ & _ & _ & C & S & N)
                  | [(_ & _ & _ & C & S & N) | (_ & _ & _ & C & S & N)]]]]];
      repeat split; try assumption; lia.
  - rewrite (wsl_run_raises w self m m1 e t1 Ed).
    unfold trace_of, machine_of. cbn [fst snd].
    destruct Ht as [-> | ->];
      (split; [count |]); (split; [count |]); (split; [count |]);
      (split; [repeat (constructor; [discriminate |]); constructor |]);
      (split; assumption).
Qed.

(** X22.  Polling and sleeping happen only after the remote setup reported
    success: a result with [windows_setup_completed = False] comes from a
    run with at most the one initial connection attempt and no sleep. *)
Theorem wsl_polls_only_after_remote_success (self : WSLOrchestrator) (m : machine)
    (r : WSLSetupResult) :
  result_of (WSLOrchestrator_run w self m) = Ret r ->
  windows_setup_completed r = false ->
  wsl_success r = false
  /\ (connects (trace_of (WSLOrchestrator_run w self m)) <= 1)%nat
  /\ sleeps (trace_of (WSLOrchestrator_run w self m)) = 0%nat.
Proof.
  intros Hr Hc.
  destruct (detect_wsl_host_ip w m) as [[[ip | e] m1] t1] eqn:Ed.
  2:{ rewrite (wsl_run_raises w self m m1 e t1 Ed) in Hr. discriminate Hr. }
  destruct (wsl_run_cases w self m ip m1 t1 Ed)
    as (r' & m' & t & E & _ & _ & _ & _ & H).
  rewrite E in Hr |- *. unfold result_of in Hr. cbn [fst] in Hr. injection Hr as ->.
  unfold trace_of. cbn [snd].
  destruct H as [(-> & _ & C & S & _) | [(-> & _) | [(-> & _ & _ & C & S & _)
                | [(out & -> & _ & _ & C & S & _) | [(-> & _) | (-> & _)]]]]];
    try discriminate Hc; (split; [reflexivity |]); (split; [lia | exact S]).
Qed.

(** X23.  The failure "Connection verification failed" is reported only after
    the remote setup succeeded and all five polls, with the four two-second
    sleeps between them, have failed. *)
Theorem wsl_verification_failure_after_five_polls (self : WSLOrchestrator)
    (m : machine) (r : WSLSetupResult) :
  result_of (WSLOrchestrator_run w self m) = Ret r ->
  wsl_error_message r = "Connection verification failed" ->
  r = mkWSLSetupResult false (windows_host_ip r) true false
        "Connection verification failed"
  /\ remote_invocations (trace_of (WSLOrchestrator_run w self m)) = 1%nat
  /\ connects (trace_of (WSLOrchestrator_run w self m)) = 6%nat
  /\ sleeps (trace_of (WSLOrchestrator_run w self m)) = 4%nat.
Proof.
  intros Hr Hmsg.
  destruct (detect_wsl_host_ip w m) as [[[ip | e] m1] t1] eqn:Ed.
  2:{ rewrite (wsl_run_raises w self m m1 e t1 Ed) in Hr. discriminate Hr. }
  destruct (wsl_run_cases w self m ip m1 t1 Ed)
    as (r' & m' & t & E & _ & _ & _ & _ & H).
  rewrite E in Hr |- *. unfold result_of in Hr. cbn [fst] in Hr. injection Hr as ->.
  unfold trace_of. cbn [snd].
  destruct H as [(-> & _) | [(-> & _) | [(-> & _)
                | [(out & -> & _) | [(-> & _) | (-> & _ & _ & C & S & N)]]]]];
    cbn [wsl_error_message] in Hmsg;
    try (vm_compute in Hmsg; discriminate Hmsg).
  cbn [windows_host_ip]. auto.
Qed.


(** X25.  Every remote invocation carries the orchestrator's own browser name
    and debug port, and a script path without any forward slash: the path
    of the tool with the drive letter in upper case and backslashes as
    separators. *)
Theorem wsl_remote_invocation_arguments (self : WSLOrchestrator) (m : machine)
    (ps : ps_script) :
  In (Run (PowershellExe ps)) (trace_of (WSLOrchestrator_run w self m)) ->
  ps_browser ps = Browser_value (wsl_browser self)
  /\ ps_port ps = wsl_debug_port self
  /\ free_of "/" (ps_windows_path ps) = true
  /\ ps_windows_path ps =
       PyStr.upper (nth 2 (PyStr.split_on "/" (sys_script w)) "") ++ ":\"
       ++ PyStr.join "\" (skipn 3 (PyStr.split_on "/" (sys_script w))).
Proof.
  intros Hin.
  pose proof (detect_wsl_host_ip_trace w m) as Ht.
  destruct (detect_wsl_host_ip w m) as [[[ip | e] m1] t1] eqn:Ed;
    unfold trace_of in Ht; cbn [snd] in Ht.
  - destruct (wsl_run_cases w self m ip m1 t1 Ed)
      as (r & m' & t & E & _ & _ & P & _).
    rewrite E in Hin. unfold trace_of in Hin. cbn [snd] in Hin.
    rewrite (P ps Hin).
    split; [reflexivity |]. split; [reflexivity |].
    split; [apply remote_script_path | reflexivity].
  - rewrite (wsl_run_raises w self m m1 e t1 Ed) in Hin.
    unfold trace_of in Hin. cbn [snd] in Hin. exfalso.
    destruct Ht as [-> | ->]; cbn [app In] in Hin;
      repeat match type of Hin with
             | _ \/ _ => destruct Hin as [Hin | Hin]
             end; first [discriminate Hin | contradiction].
Qed.

End GuestRuns.

(** ** The command line *)

(** Unfold the plumbing of the command-line layer and compute through it. *)
Ltac cstep :=
  cbv beta iota zeta delta
    [mbind C_bind M_bind mret C_ret M_ret lift header cli_try_except
     try_except try_except_only emit printer clock of_outcome raise fst snd
     exit_of state_of events_of result_of machine_of trace_of];
  cbn [app List.map negb Environment_eqb tick rules fs set_tick set_rules set_fs].

Ltac cli_quiet :=
  unfold cli_none_of in *;
  repeat first
    [ assumption
    | apply List.Forall_nil
    | apply List.Forall_cons; [reflexivity |]
    | apply List.Forall_app; split ].

Lemma cli_none_of_core (p : cli_event -> bool) (q : event -> bool) (t : list event) :
  (forall e, p (Core e) = q e) ->
  none_of q t -> cli_none_of p (List.map Core t).
Proof.
  intros Hpq H. unfold cli_none_of, none_of in *.
  induction H as [| e t He Ht IH]; cbn [List.map]; constructor.
  - rewrite Hpq. exact He.
  - exact IH.
Qed.

Section CommandLineFacts.

Context (w : world).
Context (netsh_show : rule_table -> nat -> outcome completed).
Context (serve_test_page : Z -> bool -> option Browser -> option Environment -> C unit).

(** The classification does not depend on the machine state. *)
Lemma detect_environment_stable (m m' : machine) :
  result_of (detect_environment w m) = result_of (detect_environment w m').
Proof.
  unfold detect_environment.
  destruct (String.eqb (PyStr.lower (sys_platform w)) "windows"); [reflexivity |].
  destruct (String.eqb (PyStr.lower (sys_platform w)) "linux").
  - unfold open_read. mred.
    destruct (sys_file w "/proc/version") as [c | e]; mred.
    + destruct (PyStr.contains "microsoft" (PyStr.lower c)
                || PyStr.contains "wsl" (PyStr.lower c)); reflexivity.
    + destruct (is_FileNotFoundError e); reflexivity.
  - destruct (String.eqb (PyStr.lower (sys_platform w)) "darwin"); reflexivity.
Qed.

Lemma detect_environment_at (m m' : machine) (env : Environment) :
  result_of (detect_environment w m) = Ret env ->
  detect_environment w m' = (Ret env, m', []).
Proof.
  intros H. rewrite (detect_environment_pure w m').
  rewrite (detect_environment_stable m' m), H. reflexivity.
Qed.

Lemma detect_environment_is_windows (m : machine) :
  result_of (detect_environment w m) = Ret WINDOWS ->
  PyStr.lower (sys_platform w) = "windows".
Proof.
  unfold detect_environment.
  destruct (String.eqb_spec (PyStr.lower (sys_platform w)) "windows") as [E | E];
    [intros _; exact E |].
  destruct (String.eqb (PyStr.lower (sys_platform w)) "linux").
  - unfold open_read. mred.
    destruct (sys_file w "/proc/version") as [c | e]; mred.
    + destruct (PyStr.contains "microsoft" (PyStr.lower c)
                || PyStr.contains "wsl" (PyStr.lower c)); discriminate.
    + destruct (is_FileNotFoundError e); discriminate.
  - destruct (String.eqb (PyStr.lower (sys_platform w)) "darwin"); discriminate.
Qed.

(** Once the environment is known, the host-address lookup returns: it
    reads, and runs [ip route] at most. *)
Lemma detect_wsl_host_ip_returns (m : machine) (env : Environment) :
  result_of (detect_environment w m) = Ret env ->
  exists ip m1 t1,
    detect_wsl_host_ip w m = (Ret ip, m1, t1)
    /\ rules m1 = rules m /\ fs m1 = fs m
    /\ (t1 = [] \/ t1 = [Run IpRouteShowDefault])
    /\ (env <> WSL -> ip = "").
Proof.
  intros Henv.
  pose proof (detect_wsl_host_ip_trace w m) as Ht.
  pose proof (detect_wsl_host_ip_frame w m) as [R F].
  assert (Hret : exists ip, result_of (detect_wsl_host_ip w m) = Ret ip
                            /\ (env <> WSL -> ip = "")).
  { unfold detect_wsl_host_ip.
    rewrite bind_unfold, (detect_environment_at m m env Henv).
    destruct (negb (Environment_eqb env WSL)) eqn:Ew.
    { exists "". split; [reflexivity | auto]. }
    assert (Hwsl : (env <> WSL -> False)) by (destruct env; try discriminate Ew; auto).
    unfold open_read, subprocess_run. mred.
    destruct (sys_file w "/etc/resolv.conf") as [c | e]; mred;
      [| eexists; split; [reflexivity | intros H; destruct (Hwsl H)]].
    destruct (first_nameserver (PyStr.lines c)) as [addr |]; mred;
      [eexists; split; [reflexivity | intros H; destruct (Hwsl H)] |].
    destruct (sys_process w IpRouteShowDefault (tick m)) as [res | e]; mred;
      [| eexists; split; [reflexivity | intros H; destruct (Hwsl H)]].
    destruct (returncode res =? 0)%Z; mred;
      [| eexists; split; [reflexivity | intros H; destruct (Hwsl H)]].
    destruct (PyStr.split (PyStr.strip (stdout res))) as [| p0 [| p1 [| p2 tl]]];
      mred; try (eexists; split; [reflexivity | intros H; destruct (Hwsl H)]).
    destruct (String.eqb p0 "default" && String.eqb p1 "via");
      eexists; (split; [reflexivity | intros H; destruct (Hwsl H)]). }
  destruct Hret as (ip & Hr & Hip).
  destruct (detect_wsl_host_ip w m) as [[r m1] t1].
  unfold result_of, machine_of, trace_of in *. cbn [fst snd] in *. subst r.
  exists ip, m1, t1. auto.
Qed.

(** [cleanup_portproxy] never raises, never touches the file system or a
    rule of another pair, and spawns nothing. *)
Lemma cleanup_portproxy_shape (wsl_ip : string) (port : Z) (m : machine) :
  exists b m' t,
    cleanup_portproxy w wsl_ip port m = (Ret b, m', t)
    /\ fs m' = fs m
    /\ (forall k, k <> (wsl_ip, port) -> rules m' !! k = rules m !! k)
    /\ none_of is_spawn t.
Proof.
  destruct (is_admin_run w m) as (adm & ta & Ea & Hta & _).
  assert (Hta' : none_of is_spawn ta)
    by (destruct Hta as [-> | ->]; repeat constructor).
  unfold cleanup_portproxy. rewrite bind_unfold, Ea.
  destruct adm; cbn [negb].
  2:{ mstep. eexists _, _, _. split; [reflexivity |].
      split; [reflexivity |]. split; [reflexivity |]. relay_free. }
  unfold subprocess_run, netsh_delete. mstep.
  destruct (netsh_fault w (NetshDelete wsl_ip port)); mstep.
  { eexists _, _, _. split; [reflexivity |].
    split; [reflexivity |]. split; [reflexivity |]. relay_free. }
  destruct (rules m !! (wsl_ip, port)) eqn:L; mstep;
    cbn [returncode stderr Z.eqb]; mstep.
  - eexists _, _, _. split; [reflexivity |]. cbn [fs rules].
    split; [reflexivity |].
    split; [intros k Hk; apply lookup_delete_ne; congruence | relay_free].
  - destruct (negb (PyStr.contains "does not exist" (PyStr.lower (netsh_stderr w))));
      mstep;
      (eexists _, _, _; split; [reflexivity |];
       split; [reflexivity |]; split; [reflexivity |]; relay_free).
Qed.

(** The shape of every diagnostic run that gets past the classification of
    the environment. *)
Lemma run_diagnostics_walk (b : Browser) (port : Z) (m : machine)
    (env : Environment) :
  result_of (detect_environment w m) = Ret env ->
  exists d m' t found,
    run_diagnostics w netsh_show b port m = (Ret d, m', t)
    /\ rules m' = rules m /\ fs m' = fs m
    /\ cli_none_of cli_destructive t
    /\ diag_env d = env
    /\ result_of (find_browser w b env m) = Ret found
    /\ browser_found d = found_browser found
    /\ browser_path d = match found with Some p => p | None => "" end
    /\ (admin_rights d = true -> env = WINDOWS)
    /\ (diag_wsl_ip d <> "" -> env = WINDOWS)
    /\ (host_ip d <> "" -> env = WSL)
    /\ (portproxy_rule_exists d = true ->
        env = WINDOWS /\ diag_wsl_ip d <> "").
Proof.
  intros Henv. unfold run_diagnostics.
  cstep. rewrite (detect_environment_at m m env Henv). cstep.
  destruct (find_browser_run w b env m) as (found & Ef). rewrite Ef. cstep.
  assert (Hdone : forall d m' t,
            rules m' = rules m -> fs m' = fs m ->
            cli_none_of cli_destructive t ->
            diag_env d = env ->
            browser_found d = found_browser found ->
            browser_path d = match found with Some p => p | None => "" end ->
            (admin_rights d = true -> env = WINDOWS) ->
            (diag_wsl_ip d <> "" -> env = WINDOWS) ->
            (host_ip d <> "" -> env = WSL) ->
            (portproxy_rule_exists d = true -> env = WINDOWS /\ diag_wsl_ip d <> "") ->
            exists d0 m0 t0 found0,
              (Ret d, m', t) = (Ret d0, m0, t0 : list cli_event)
              /\ rules m0 = rules m /\ fs m0 = fs m
              /\ cli_none_of cli_destructive t0
              /\ diag_env d0 = env
              /\ Ret found = Ret found0
              /\ browser_found d0 = found_browser found0
              /\ browser_path d0 = match found0 with Some p => p | None => "" end
              /\ (admin_rights d0 = true -> env = WINDOWS)
              /\ (diag_wsl_ip d0 <> "" -> env = WINDOWS)
              /\ (host_ip d0 <> "" -> env = WSL)
              /\ (portproxy_rule_exists d0 = true ->
                  env = WINDOWS /\ diag_wsl_ip d0 <> "")).
  { intros d m' t. intros. exists d, m', t, found. auto 15. }
  assert (Hfb : match found with Some p => PyStr.truthy p | None => false end
                = found_browser found) by reflexivity.
  rewrite Hfb. clear Hfb.
  assert (Hadmin : forall m0, exists adm ta,
             is_admin w m0 = (Ret adm, m0, ta)
             /\ cli_none_of cli_destructive (List.map Core ta)).
  { intros m0. destruct (is_admin_run w m0) as (adm & ta & Ea & Hta & _).
    exists adm, ta. split; [exact Ea |].
    destruct Hta as [-> | ->]; repeat constructor. }
  destruct (found_browser found) eqn:Hfound; cstep;
    destruct env eqn:Eenv; cstep.
  (* Windows *)
  1, 6:
    pose proof (detect_environment_is_windows m Henv) as Hsys;
    destruct (Hadmin m) as (adm & ta & Ea & Qa); rewrite Ea; cstep;
    destruct adm; cstep;
    (destruct (get_wsl_adapter_ip_shape w m Hsys) as (ip & Eip); rewrite Eip; cstep);
    destruct ip as [| c0 ip0]; cbn [PyStr.truthy PyStr.is_empty negb]; cstep;
    (match goal with
     | |- context [is_admin w ?mm] =>
         destruct (Hadmin mm) as (adm2 & ta2 & Ea2 & Qa2); rewrite Ea2
     end); cstep;
    destruct adm2; cbn [andb PyStr.truthy PyStr.is_empty negb]; cstep;
    unfold subprocess_run_netsh_show; cstep;
    try (match goal with
         | |- context [netsh_show ?r ?k] =>
             destruct (netsh_show r k) as [res | e]; cstep;
             [ match goal with
               | |- context [if ?c then _ else _] => destruct c; cstep
               end | ]
         end);
    (match goal with
     | |- context [verify_connection w ?h ?q ?d ?mm] =>
         destruct (verify_connection_run w h q d mm) as (vb & Ev); rewrite Ev
     end); cstep;
    destruct vb; cstep;
    (apply Hdone; cbn [rules fs set_tick tick diag_env browser_found browser_path
                       admin_rights diag_wsl_ip host_ip port_accessible
                       portproxy_rule_exists];
     first [ reflexivity | discriminate | solve [cli_quiet] | congruence
           | intros _; split; [reflexivity | discriminate]
           | intros H; exfalso; apply H; reflexivity
           | solve [auto] ]).
  (* WSL *)
  1, 5:
    destruct (detect_wsl_host_ip_returns m WSL Henv)
      as (ip & m1 & t1 & Eip & R1 & F1 & Ht1 & _);
    assert (Q1 : cli_none_of cli_destructive (List.map Core t1))
      by (destruct Ht1 as [-> | ->]; repeat constructor);
    rewrite Eip; cstep;
    destruct ip as [| c0 ip0]; cbn [andb PyStr.truthy PyStr.is_empty negb]; cstep;
    (match goal with
     | |- context [verify_connection w ?h ?q ?d ?mm] =>
         destruct (verify_connection_run w h q d mm) as (vb & Ev); rewrite Ev
     end); cstep;
    destruct vb; cstep;
    (apply Hdone; cbn [rules fs set_tick tick diag_env browser_found browser_path
                       admin_rights diag_wsl_ip host_ip port_accessible
                       portproxy_rule_exists];
     first [ assumption | reflexivity | discriminate | solve [cli_quiet] | congruence
           | intros H; exfalso; apply H; reflexivity
           | solve [auto] ]).
  (* the other environments *)
  all:
    (match goal with
     | |- context [verify_connection w ?h ?q ?d ?mm] =>
         destruct (verify_connection_run w h q d mm) as (vb & Ev); rewrite Ev
     end); cstep;
    destruct vb; cstep;
    (apply Hdone; cbn [rules fs set_tick tick diag_env browser_found browser_path
                       admin_rights diag_wsl_ip host_ip port_accessible
                       portproxy_rule_exists];
     first [ reflexivity | discriminate | solve [cli_quiet] | congruence
           | intros H; exfalso; apply H; reflexivity
           | solve [auto] ]).
Qed.

Lemma run_diagnostics_raises (b : Browser) (port : Z) (m : machine) (e : exn) :
  result_of (detect_environment w m) = Raise e ->
  run_diagnostics w netsh_show b port m = (Raise e, m, []).
Proof.
  intros Henv. unfold run_diagnostics. cstep.
  rewrite (detect_environment_pure w m), Henv. reflexivity.
Qed.

(** The diagnostics touch nothing, whether they return or raise. *)
Lemma run_diagnostics_frame (b : Browser) (port : Z) (m : machine) :
  rules (state_of (run_diagnostics w netsh_show b port m)) = rules m
  /\ fs (state_of (run_diagnostics w netsh_show b port m)) = fs m
  /\ cli_none_of cli_destructive (events_of (run_diagnostics w netsh_show b port m)).
Proof.
  destruct (result_of (detect_environment w m)) as [env | e] eqn:Henv.
  - destruct (run_diagnostics_walk b port m env Henv)
      as (d & m' & t & found & E & R & F & Q & _).
    rewrite E. unfold state_of, events_of. cbn [fst snd]. auto.
  - rewrite (run_diagnostics_raises b port m e Henv).
    unfold state_of, events_of. cbn [fst snd].
    split; [reflexivity |]. split; [reflexivity | constructor].
Qed.

(** X26.  [run_diagnostics] is read-only: whether it returns or raises, it
    changes neither the portproxy table nor the file system and kills,
    deletes and spawns nothing.  The report it returns is consistent:
    [browser_found] says whether [find_browser] answered a non-empty path,
    which is then [browser_path]; administrator rights, an adapter address
    and a portproxy rule are reported on Windows only, a host address in WSL
    only, and a portproxy rule only together with an adapter address. *)
Theorem run_diagnostics_is_read_only (b : Browser) (port : Z) (m : machine) :
  rules (state_of (run_diagnostics w netsh_show b port m)) = rules m
  /\ fs (state_of (run_diagnostics w netsh_show b port m)) = fs m
  /\ cli_none_of cli_destructive (events_of (run_diagnostics w netsh_show b port m))
  /\ forall d,
       exit_of (run_diagnostics w netsh_show b port m) = Ret d ->
       exists found,
         result_of (find_browser w b (diag_env d) m) = Ret found
         /\ result_of (detect_environment w m) = Ret (diag_env d)
         /\ browser_found d = found_browser found
         /\ browser_path d = match found with Some p => p | None => "" end
         /\ (admin_rights d = true -> diag_env d = WINDOWS)
         /\ (diag_wsl_ip d <> "" -> diag_env d = WINDOWS)
         /\ (host_ip d <> "" -> diag_env d = WSL)
         /\ (portproxy_rule_exists d = true ->
             diag_env d = WINDOWS /\ diag_wsl_ip d <> "").
Proof.
  destruct (run_diagnostics_frame b port m) as (R & F & Q).
  split; [exact R |]. split; [exact F |]. split; [exact Q |].
  intros d Hd.
  destruct (result_of (detect_environment w m)) as [env | e] eqn:Henv.
  - destruct (run_diagnostics_walk b port m env Henv)
      as (d' & m' & t & found & E & _ & _ & _ & He & Hf & H).
    rewrite E in Hd. unfold exit_of in Hd. cbn [fst] in Hd. injection Hd as ->.
    rewrite He. exists found. split; [exact Hf |]. split; [reflexivity | exact H].
  - rewrite (run_diagnostics_raises b port m e Henv) in Hd. discriminate Hd.
Qed.

(** X27.  With [--diagnose] or [--validate] (and neither [--serve] nor
    [--test]) [main] only runs the diagnostics: nothing is killed, deleted
    or spawned and the portproxy table and the file system are unchanged,
    whatever the other flags say.  [--diagnose] exits with status 0 once the
    diagnostics return; [--validate] alone exits with 0 exactly when the
    browser was found and the port is accessible, and with 1 otherwise. *)
Theorem main_diagnostic_modes (args : Args) (m : machine) :
  arg_serve args = false -> arg_test args = false ->
  arg_diagnose args = true \/ arg_validate args = true ->
  exit_of (main w netsh_show serve_test_page args m)
  = match exit_of (run_diagnostics w netsh_show (arg_browser args) (arg_port args) m) with
    | Ret d =>
        Ret (if arg_diagnose args then 0
             else if browser_found d && port_accessible d then 0 else 1)
    | Raise e => Raise e
    end
  /\ rules (state_of (main w netsh_show serve_test_page args m)) = rules m
  /\ fs (state_of (main w netsh_show serve_test_page args m)) = fs m
  /\ cli_none_of cli_destructive (events_of (main w netsh_show serve_test_page args m)).
Proof.
  intros Hs Ht Hmode.
  destruct (run_diagnostics_frame (arg_browser args) (arg_port args) m) as (R & F & Q).
  unfold main. cstep. rewrite Hs, Ht. cbn [orb].
  destruct (arg_diagnose args) eqn:Hd.
  - cstep.
    destruct (run_diagnostics w netsh_show (arg_browser args) (arg_port args) m)
      as [[[d | e] m'] t];
      unfold state_of, events_of, exit_of in *; cbn [fst snd] in *;
      (split; [reflexivity |]); (split; [exact R |]); (split; [exact F |]);
      cli_quiet.
  - destruct Hmode as [Hx | Hv]; [discriminate Hx |]. rewrite Hv. cstep.
    destruct (run_diagnostics w netsh_show (arg_browser args) (arg_port args) m)
      as [[[d | e] m'] t];
      unfold state_of, events_of, exit_of in *; cbn [fst snd] in *.
    + destruct (browser_found d && port_accessible d); cstep;
        (split; [reflexivity |]); (split; [exact R |]); (split; [exact F |]);
        cli_quiet.
    + (split; [reflexivity |]); (split; [exact R |]); (split; [exact F |]);
        cli_quiet.
Qed.

Lemma find_browser_at (b : Browser) (env : Environment) (m m1 : machine)
    (found : option string) :
  result_of (find_browser w b env m) = Ret found ->
  fs m1 = fs m ->
  find_browser w b env m1 = (Ret found, m1, []).
Proof.
  intros Hf Hfs.
  destruct (find_browser_run w b env m1) as (f1 & E1).
  pose proof (find_browser_same_fs w b env m1 m Hfs) as H.
  rewrite E1, Hf in H. unfold result_of in H. cbn [fst] in H.
  injection H as ->. exact E1.
Qed.

(** Walk [main] from its first line to the search for the browser: past
    the flags, the classification and, in WSL, the lookup of the host
    address. *)
Ltac main_to_search m env Hflags Henv Hfind :=
  destruct Hflags as (Hserve & Htest & Hdiag & Hval);
  unfold main; cstep;
  rewrite Hserve, Htest, Hdiag, Hval; cbn [orb]; cstep;
  rewrite (detect_environment_at m m env Henv); cstep;
  destruct (detect_wsl_host_ip_returns m env Henv)
    as (hip & mh & th & Eh & Rh & Fh & Hth & _);
  assert (Qh : cli_none_of cli_destructive (List.map Core th))
    by (destruct Hth as [-> | ->]; repeat constructor);
  assert (Ph : cli_none_of cli_spawn (List.map Core th))
    by (destruct Hth as [-> | ->]; repeat constructor);
  destruct (Environment_eqb env WSL) eqn:Ewsl; cstep;
  [ rewrite Eh; cstep;
    destruct hip as [| hc hip0]; cbn [PyStr.truthy PyStr.is_empty negb]; cstep;
    rewrite (find_browser_at _ _ m mh _ Hfind Fh); cstep
  | rewrite (find_browser_at _ _ m m _ Hfind eq_refl); cstep ].

(** X28.  Without a browser, or with [--detect-only], [main] is read-only:
    past the flags for the test page and the diagnostics, when
    [find_browser] finds nothing [main] exits with status 1 whatever the
    other flags are (also with [--cleanup]), and with [--detect-only] it
    exits with 0 exactly when the browser was found.  In both cases nothing
    is killed, deleted or spawned, and the portproxy table and the file
    system are unchanged. *)
Theorem main_detection_phase (args : Args) (m : machine) (env : Environment)
    (found : option string) :
  reaches_detection args ->
  result_of (detect_environment w m) = Ret env ->
  result_of (find_browser w (arg_browser args) env m) = Ret found ->
  found_browser found = false \/ arg_detect_only args = true ->
  exit_of (main w netsh_show serve_test_page args m)
  = Ret (if found_browser found then 0 else 1)
  /\ rules (state_of (main w netsh_show serve_test_page args m)) = rules m
  /\ fs (state_of (main w netsh_show serve_test_page args m)) = fs m
  /\ cli_none_of cli_destructive (events_of (main w netsh_show serve_test_page args m)).
Proof.
  intros Hflags Henv Hfind Hmode.
  main_to_search m env Hflags Henv Hfind.
  all: destruct found as [[| c0 p0] |];
    cbn [found_browser PyStr.truthy PyStr.is_empty negb] in *; cstep;
    try (destruct Hmode as [Hx | Hdet]; [discriminate Hx | rewrite Hdet]; cstep);
    (split; [reflexivity |]); (split; [first [exact Rh | reflexivity] |]);
    (split; [first [exact Fh | reflexivity] |]); cli_quiet.
Qed.

(** X29.  [--cleanup] with the browser installed: [main] exits with status
    0 whatever the kill command and netsh do.  It spawns nothing and leaves
    the file system alone (the profile directory is not removed); only
    portproxy rules for the debug port can change, and off Windows the
    portproxy table is unchanged. *)
Theorem main_cleanup_mode (args : Args) (m : machine) (env : Environment)
    (bp : string) :
  reaches_detection args ->
  arg_detect_only args = false ->
  arg_cleanup args = true ->
  result_of (detect_environment w m) = Ret env ->
  result_of (find_browser w (arg_browser args) env m) = Ret (Some bp) ->
  bp <> "" ->
  exit_of (main w netsh_show serve_test_page args m) = Ret 0
  /\ fs (state_of (main w netsh_show serve_test_page args m)) = fs m
  /\ cli_none_of cli_spawn (events_of (main w netsh_show serve_test_page args m))
  /\ (forall k, k.2 <> arg_port args ->
        rules (state_of (main w netsh_show serve_test_page args m)) !! k
        = rules m !! k)
  /\ (env <> WINDOWS ->
      rules (state_of (main w netsh_show serve_test_page args m)) = rules m).
Proof.
  intros Hflags Hdet Hclean Henv Hfind Hbp.
  destruct bp as [| c0 p0]; [congruence |].
  main_to_search m env Hflags Henv Hfind.
  all: rewrite Hdet, Hclean; cstep;
    (match goal with
     | |- context [kill_browser w ?b ?e ?mm] =>
         destruct (kill_browser_shape w b e mm) as (klvl & kmsg & Ek); rewrite Ek
     end); cstep.
  all: destruct env eqn:Eenv; try discriminate Ewsl; cstep;
    try ((split; [reflexivity |]); (split; [first [exact Fh | reflexivity] |]);
         (split; [cli_quiet |]);
         (split; [intros k _; first [rewrite Rh; reflexivity | reflexivity] |]);
         intros _; first [exact Rh | reflexivity]).
  pose proof (detect_environment_is_windows m Henv) as Hsys.
  match goal with
  | |- context [is_admin w ?mm] =>
      destruct (is_admin_run w mm) as (adm & ta & Ea & Hta & _); rewrite Ea
  end.
  assert (Pa : cli_none_of cli_spawn (List.map Core ta))
    by (destruct Hta as [-> | ->]; repeat constructor).
  cstep. destruct adm; cstep.
  2:{ (split; [reflexivity |]); (split; [reflexivity |]); (split; [cli_quiet |]).
      split; [intros k _; reflexivity | congruence]. }
  match goal with
  | |- context [get_wsl_adapter_ip w ?mm] =>
      destruct (get_wsl_adapter_ip_shape w mm Hsys) as (ip & Eip); rewrite Eip
  end.
  cstep. destruct ip as [| i0 ip0]; cbn [PyStr.truthy PyStr.is_empty negb]; cstep.
  { (split; [reflexivity |]); (split; [reflexivity |]); (split; [cli_quiet |]).
    split; [intros k _; reflexivity | congruence]. }
  match goal with
  | |- context [cleanup_portproxy w ?a ?q ?mm] =>
      destruct (cleanup_portproxy_shape a q mm) as (cb & mc & tc & Ec & Fc & Rc & Pc);
      rewrite Ec
  end.
  cbn [rules fs set_tick tick] in Fc, Rc.
  assert (Pc' : cli_none_of cli_spawn (List.map Core tc))
    by (apply (cli_none_of_core cli_spawn is_spawn); [reflexivity | exact Pc]).
  cstep.
  (split; [reflexivity |]); (split; [exact Fc |]); (split; [cli_quiet |]).
  split; [| congruence].
  intros [ka kp] Hk. cbn [snd] in Hk. apply Rc. congruence.
Qed.

(** X30.  The exit status reports the orchestration.  Without any mode
    flag and with the browser installed, on Windows [main] runs
    [WindowsOrchestrator.run] for the chosen browser and port from the
    initial state, and in WSL it runs [WSLOrchestrator.run] right after its
    own lookup of the host address; it exits with status 0 when the result
    says [success] and with 1 when it does not. *)
Theorem main_exit_code_reports_orchestration (args : Args) (m : machine)
    (env : Environment) (bp : string) :
  reaches_detection args ->
  arg_detect_only args = false ->
  arg_cleanup args = false ->
  result_of (detect_environment w m) = Ret env ->
  result_of (find_browser w (arg_browser args) env m) = Ret (Some bp) ->
  bp <> "" ->
  (env = WINDOWS ->
   exit_of (main w netsh_show serve_test_page args m)
   = match result_of (WindowsOrchestrator_run w
                        (WindowsOrchestrator_init (arg_browser args) (arg_port args))
                        m) with
     | Ret r => Ret (if success r then 0 else 1)
     | Raise e => Raise e
     end)
  /\ (env = WSL ->
      exit_of (main w netsh_show serve_test_page args m)
      = match result_of (WSLOrchestrator_run w
                           (WSLOrchestrator_init (arg_browser args) (arg_port args))
                           (machine_of (detect_wsl_host_ip w m))) with
        | Ret r => Ret (if wsl_success r then 0 else 1)
        | Raise e => Raise e
        end).
Proof.
  intros Hflags Hdet Hclean Henv Hfind Hbp.
  destruct bp as [| c0 p0]; [congruence |].
  main_to_search m env Hflags Henv Hfind.
  all: rewrite Hdet, Hclean; cstep.
  all: destruct env eqn:Eenv; try discriminate Ewsl; cstep;
    (split; [intros Hw; try discriminate Hw | intros Hw; try discriminate Hw]).
  - destruct (WSLOrchestrator_run w
                (WSLOrchestrator_init (arg_browser args) (arg_port args)) mh)
      as [[[r | e] m'] t]; cstep; [destruct (wsl_success r) |]; reflexivity.
  - destruct (WSLOrchestrator_run w
                (WSLOrchestrator_init (arg_browser args) (arg_port args)) mh)
      as [[[r | e] m'] t]; cstep; [destruct (wsl_success r) |]; reflexivity.
  - destruct (WindowsOrchestrator_run w
                (WindowsOrchestrator_init (arg_browser args) (arg_port args)) m)
      as [[[r | e] m'] t]; cstep; [destruct (success r) |]; reflexivity.
Qed.

End CommandLineFacts.

(** ** Concrete runs *)

Module Runs.

Import Scenarios.

(** C1, counterexample.  Scenario D: the first connectivity check succeeds,
    and the result says [windows_setup_completed = True], not [False]. *)
Lemma fast_path_reports_setup_completed :
  result_of (detect_wsl_host_ip configured_guest empty_machine) = Ret "192.168.1.1"
  /\ result_of (verify_connection configured_guest "192.168.1.1" 9222 2 empty_machine)
     = Ret true
  /\ result_of (WSLOrchestrator_run configured_guest
                  (WSLOrchestrator_init CHROME 9222) empty_machine)
     = Ret (mkWSLSetupResult true "192.168.1.1" true true "")
  /\ windows_setup_completed (mkWSLSetupResult true "192.168.1.1" true true "")
     <> false.
Proof.
  split; [vm_compute; reflexivity |].
  split; [vm_compute; reflexivity |].
  split; [vm_compute; reflexivity |].
  discriminate.
Qed.

(** The fast path on the guest of scenario D. *)
Lemma wsl_fast_path_witness :
  WSLOrchestrator_run configured_guest (WSLOrchestrator_init CHROME 9222)
    empty_machine =
    (Ret (mkWSLSetupResult true "192.168.1.1" true true ""),
     set_tick (S (tick empty_machine)) empty_machine,
     ([Log LStep "Running from WSL - initiating cross-environment setup";
       Log LStep "Detecting Windows host IP..."]
      ++ []
      ++ [Log LSuccess ("Windows host IP: " ++ "192.168.1.1");
          Log LStep "Checking existing connection...";
          Connect "192.168.1.1" (wsl_debug_port (WSLOrchestrator_init CHROME 9222));
          Log LSuccess "Browser debug port already accessible!";
          Log LInfo "Skipping Windows setup (already configured)"])%list)
  /\ none_of is_remote_invocation
       (trace_of (WSLOrchestrator_run configured_guest
                    (WSLOrchestrator_init CHROME 9222) empty_machine)).
Proof.
  apply (wsl_fast_path configured_guest (WSLOrchestrator_init CHROME 9222)
           empty_machine "192.168.1.1" empty_machine []).
  - vm_compute. reflexivity.
  - discriminate.
  - vm_compute. reflexivity.
Defined.



(** Scenario B: the host without elevation. *)
Lemma run_without_privilege_witness :
  exists t,
    WindowsOrchestrator_run plain_host (WindowsOrchestrator_init CHROME 9222)
      (windows_machine true) =
      (Ret (mkWindowsSetupResult false "" false false
              "Administrator privileges required"),
       windows_machine true,
       (t ++ [Log LError "Administrator privileges required";
              Log LInfo "Please run this script as Administrator"])%list)
    /\ (t = [] \/ t = [AdminQuery])
    /\ none_of is_action
         (trace_of (WindowsOrchestrator_run plain_host
                      (WindowsOrchestrator_init CHROME 9222) (windows_machine true))).
Proof.
  apply (run_without_privilege plain_host (WindowsOrchestrator_init CHROME 9222)
           (windows_machine true)).
  vm_compute. reflexivity.
Defined.

(** C5, the failing input.  In WSL, with no readable [/etc/resolv.conf]
    and a default route via 172.20.0.1, [detect_wsl_host_ip] answers the
    empty string and never runs [ip route]. *)
Lemma resolv_conf_unreadable_skips_route :
  result_of (detect_environment guest_without_resolv_conf empty_machine) = Ret WSL
  /\ sys_process guest_without_resolv_conf IpRouteShowDefault 0 = Ret default_route
  /\ detect_wsl_host_ip guest_without_resolv_conf empty_machine
     = (Ret "", empty_machine, []).
Proof.
  split; [vm_compute; reflexivity |].
  split; [reflexivity |].
  apply (detect_wsl_host_ip_unreadable guest_without_resolv_conf empty_machine
           (not_found "/etc/resolv.conf")).
  - vm_compute. reflexivity.
  - reflexivity.
Qed.

(** With a readable file that names no server, the same route is used. *)
Lemma resolv_conf_empty_uses_route :
  detect_wsl_host_ip guest_without_nameserver empty_machine
  = (Ret "172.20.0.1", set_tick 1 empty_machine, [Run IpRouteShowDefault]).
Proof. vm_compute. reflexivity. Qed.


(** Removing a rule that is not there, on the elevated host. *)
Lemma cleanup_portproxy_tolerates_missing_rule_witness :
  exists m' t,
    cleanup_portproxy elevated_host "10.0.0.5" 9222 empty_machine
    = (Ret true, m', t)
    /\ rules m' !! ("10.0.0.5", 9222) = None
    /\ (forall k, k <> ("10.0.0.5", 9222) ->
          rules m' !! k = rules empty_machine !! k).
Proof.
  apply (cleanup_portproxy_tolerates_missing_rule elevated_host "10.0.0.5" 9222
           empty_machine).
  - vm_compute. reflexivity.
  - reflexivity.
Defined.

(** The guest without a resolver file: no host address, no setup. *)
Lemma wsl_host_unknown_aborts_witness :
  WSLOrchestrator_run guest_without_resolv_conf
    (WSLOrchestrator_init CHROME 9222) empty_machine =
    (Ret (mkWSLSetupResult false "" false false
            "Could not detect Windows host IP from WSL"),
     empty_machine,
     ([Log LStep "Running from WSL - initiating cross-environment setup";
       Log LStep "Detecting Windows host IP..."]
      ++ []
      ++ [Log LError "Could not detect Windows host IP from WSL";
          Log LInfo "Make sure you're running from WSL, not native Linux"])%list).
Proof.
  apply (wsl_host_unknown_aborts guest_without_resolv_conf
           (WSLOrchestrator_init CHROME 9222) empty_machine empty_machine []).
  vm_compute. reflexivity.
Defined.


(** The first call replaces the old rule by the loopback mapping. *)
Lemma setup_portproxy_replaces_old_rule :
  rules (machine_of (setup_portproxy elevated_host "10.0.0.5" 9222
                       machine_with_old_rule))
    !! ("10.0.0.5", 9222)
  = Some ("127.0.0.1", 9222).
Proof. vm_compute. reflexivity. Qed.



(** C8, the failing input.  On Linux, when [/proc/version] exists but
    reading it is refused, [detect_environment] raises [PermissionError]. *)
Lemma detect_environment_unreadable_raises :
  detect_environment guarded_linux empty_machine
  = (Raise (denied "/proc/version"), empty_machine, []).
Proof. vm_compute. reflexivity. Qed.

(** A Linux machine without [/proc/version]. *)
Lemma detect_environment_classifies_witness :
  exists env,
    detect_environment (linux_world (Raise (not_found "/proc/version")))
      empty_machine = (Ret env, empty_machine, [])
    /\ (PyStr.lower (sys_platform (linux_world (Raise (not_found "/proc/version"))))
          <> "windows" ->
        PyStr.lower (sys_platform (linux_world (Raise (not_found "/proc/version"))))
          <> "linux" ->
        PyStr.lower (sys_platform (linux_world (Raise (not_found "/proc/version"))))
          <> "darwin" -> env = UNKNOWN).
Proof.
  apply (detect_environment_classifies
           (linux_world (Raise (not_found "/proc/version"))) empty_machine).
  intros e H. vm_compute in H. injection H as <-. reflexivity.
Defined.

(** An unrecognized system is classified as unknown. *)
Lemma freebsd_is_unknown :
  detect_environment freebsd_world empty_machine = (Ret UNKNOWN, empty_machine, []).
Proof. vm_compute. reflexivity. Qed.

(** When the file is absent the classification is plain Linux. *)
Lemma detect_environment_absent_is_linux :
  detect_environment (linux_world (Raise (not_found "/proc/version"))) empty_machine
  = (Ret LINUX, empty_machine, []).
Proof. vm_compute. reflexivity. Qed.

(** Scenario A: elevated, adapter 10.0.0.5, Chrome found, the port opens
    at the second polling attempt. *)
Lemma scenario_A_succeeds :
  result_of (WindowsOrchestrator_run elevated_host
               (WindowsOrchestrator_init CHROME 9222) (windows_machine true))
  = Ret (mkWindowsSetupResult true "10.0.0.5" true true "")
  /\ rules (machine_of (WindowsOrchestrator_run elevated_host
               (WindowsOrchestrator_init CHROME 9222) (windows_machine true)))
       !! ("10.0.0.5", 9222)
     = Some ("127.0.0.1", 9222).
Proof. split; vm_compute; reflexivity. Qed.

(** Scenario A again: the successful result carries every milestone. *)
Lemma success_records_every_milestone_witness :
  exists r,
    result_of (WindowsOrchestrator_run elevated_host
                 (WindowsOrchestrator_init CHROME 9222) (windows_machine true))
    = Ret r
    /\ success r = true
    /\ chrome_listening r = true
    /\ portproxy_configured r = true
    /\ wsl_ip r <> ""
    /\ error_message r = "".
Proof.
  destruct (success_records_every_milestone elevated_host
              (WindowsOrchestrator_init CHROME 9222) (windows_machine true))
    as (r & m' & t & E & H).
  exists r. split; [rewrite E; reflexivity |].
  assert (S : success r = true).
  { vm_compute in E. injection E as <- _ _. reflexivity. }
  split; [exact S |]. apply H. exact S.
Defined.

(** A listener that never opens: the run fails and the portproxy table is
    never touched. *)
Lemma deaf_host_never_installs :
  result_of (WindowsOrchestrator_run deaf_host
               (WindowsOrchestrator_init CHROME 9222) (windows_machine true))
  = Ret (mkWindowsSetupResult false "10.0.0.5" false false
           "Browser did not start listening on debug port")
  /\ forallb (fun e => negb (is_relay_command e))
       (trace_of (WindowsOrchestrator_run deaf_host
                    (WindowsOrchestrator_init CHROME 9222) (windows_machine true)))
     = true
  /\ connects (trace_of (WindowsOrchestrator_run deaf_host
                    (WindowsOrchestrator_init CHROME 9222) (windows_machine true)))
     = 10%nat.
Proof. repeat split; vm_compute; reflexivity. Qed.

(** The guest reports itself as Linux. *)
Lemma portproxy_refused_off_windows_witness :
  is_admin configured_guest empty_machine = (Ret false, empty_machine, [])
  /\ setup_portproxy configured_guest "10.0.0.5" 9222 empty_machine =
       (Ret false, empty_machine,
        [Log LError "Administrator privileges required for portproxy setup"])
  /\ cleanup_portproxy configured_guest "10.0.0.5" 9222 empty_machine =
       (Ret false, empty_machine,
        [Log LWarning "Administrator privileges required for portproxy cleanup"])
  /\ none_of is_relay_command
       (trace_of (setup_portproxy configured_guest "10.0.0.5" 9222 empty_machine))
  /\ none_of is_relay_command
       (trace_of (cleanup_portproxy configured_guest "10.0.0.5" 9222 empty_machine)).
Proof.
  apply (portproxy_refused_off_windows configured_guest "10.0.0.5" 9222
           empty_machine).
  vm_compute. discriminate.
Defined.

End Runs.

(** ** More concrete runs *)

Module MoreRuns.
Import Scenarios.

(** The resolver of the configured guest names 192.168.1.1. *)
Lemma detect_wsl_host_ip_blank_free_witness :
  blank_free "192.168.1.1" = true.
Proof.
  apply (detect_wsl_host_ip_blank_free configured_guest empty_machine "192.168.1.1").
  vm_compute. reflexivity.
Defined.


(** The port of the elevated host opens at tick 6 and serves metadata. *)
Lemma verify_chrome_listening_needs_metadata_witness :
  exists k data,
    sys_connect elevated_host "127.0.0.1" 9222 k = Ret 0
    /\ sys_http elevated_host (version_url 9222) (S k) = Ret data
    /\ is_devtools_metadata data = Ret true.
Proof.
  apply (verify_chrome_listening_needs_metadata elevated_host 9222 10 1
           (windows_machine true)).
  vm_compute. reflexivity.
Defined.

(** Three attempts, half a second apart, on the host that never listens:
    two sleeps. *)
Lemma verify_chrome_listening_sleeps_witness :
  (sleeps (trace_of (verify_chrome_listening deaf_host 9222 3 (1 # 2)
                       (windows_machine true)))
   <= Nat.pred (Z.to_nat 3))%nat
  /\ (result_of (verify_chrome_listening deaf_host 9222 3 (1 # 2)
                   (windows_machine true)) = Ret false ->
      sleeps (trace_of (verify_chrome_listening deaf_host 9222 3 (1 # 2)
                          (windows_machine true)))
      = Nat.pred (Z.to_nat 3))
  /\ Forall (fun e => is_sleep e = true -> e = Sleep (1 # 2))
       (trace_of (verify_chrome_listening deaf_host 9222 3 (1 # 2)
                    (windows_machine true))).
Proof.
  apply (verify_chrome_listening_sleeps deaf_host 9222 3 (1 # 2)
           (windows_machine true)).
  unfold Qle. simpl. lia.
Defined.

(** Scenario A leaves the loopback mapping for 10.0.0.5:9222. *)
Lemma windows_success_installs_rule_witness :
  rules (machine_of (WindowsOrchestrator_run elevated_host
                       (WindowsOrchestrator_init CHROME 9222) (windows_machine true)))
    !! (wsl_ip (mkWindowsSetupResult true "10.0.0.5" true true ""),
        wo_debug_port (WindowsOrchestrator_init CHROME 9222))
  = Some ("127.0.0.1", wo_debug_port (WindowsOrchestrator_init CHROME 9222)).
Proof.
  apply (windows_success_installs_rule elevated_host
           (WindowsOrchestrator_init CHROME 9222) (windows_machine true)
           (mkWindowsSetupResult true "10.0.0.5" true true "")).
  - vm_compute. reflexivity.
  - reflexivity.
Defined.

(** The elevated host without any browser installed. *)
Lemma windows_early_failure_is_harmless_witness :
  none_of is_destructive
    (trace_of (WindowsOrchestrator_run elevated_host
                 (WindowsOrchestrator_init CHROME 9222) machine_with_old_rule))
  /\ rules (machine_of (WindowsOrchestrator_run elevated_host
                          (WindowsOrchestrator_init CHROME 9222) machine_with_old_rule))
     = rules machine_with_old_rule
  /\ fs (machine_of (WindowsOrchestrator_run elevated_host
                       (WindowsOrchestrator_init CHROME 9222) machine_with_old_rule))
     = fs machine_with_old_rule.
Proof.
  apply (windows_early_failure_is_harmless elevated_host
           (WindowsOrchestrator_init CHROME 9222) machine_with_old_rule
           (mkWindowsSetupResult false "10.0.0.5" false false
              "Could not find chrome installation")).
  - vm_compute. reflexivity.
  - right. right. vm_compute. reflexivity.
Defined.

(** The fast path on the configured guest. *)
Lemma wsl_result_invariant_witness :
  wsl_success (mkWSLSetupResult true "192.168.1.1" true true "")
  = connection_verified (mkWSLSetupResult true "192.168.1.1" true true "")
  /\ (wsl_success (mkWSLSetupResult true "192.168.1.1" true true "") = true ->
      windows_setup_completed (mkWSLSetupResult true "192.168.1.1" true true "") = true
      /\ windows_host_ip (mkWSLSetupResult true "192.168.1.1" true true "") <> ""
      /\ wsl_error_message (mkWSLSetupResult true "192.168.1.1" true true "") = "").
Proof.
  apply (wsl_result_invariant configured_guest
           (WSLOrchestrator_init CHROME 9222) empty_machine).
  vm_compute. reflexivity.
Defined.

(** The host refuses the remote setup: no poll follows. *)
Lemma wsl_polls_only_after_remote_success_witness :
  wsl_success (mkWSLSetupResult false "192.168.1.1" false false
                 "Windows setup failed: Administrator privileges required.")
  = false
  /\ (connects (trace_of (WSLOrchestrator_run refusing_host_guest
                            (WSLOrchestrator_init CHROME 9222) empty_machine))
      <= 1)%nat
  /\ sleeps (trace_of (WSLOrchestrator_run refusing_host_guest
                         (WSLOrchestrator_init CHROME 9222) empty_machine))
     = 0%nat.
Proof.
  apply (wsl_polls_only_after_remote_success refusing_host_guest
           (WSLOrchestrator_init CHROME 9222) empty_machine).
  - vm_compute. reflexivity.
  - reflexivity.
Defined.

(** Scenario C: the remote setup succeeds but the port never answers. *)
Lemma wsl_verification_failure_after_five_polls_witness :
  mkWSLSetupResult false "192.168.1.1" true false "Connection verification failed"
  = mkWSLSetupResult false
      (windows_host_ip
         (mkWSLSetupResult false "192.168.1.1" true false
            "Connection verification failed"))
      true false "Connection verification failed"
  /\ remote_invocations
       (trace_of (WSLOrchestrator_run silent_host_guest
                    (WSLOrchestrator_init CHROME 9222) empty_machine)) = 1%nat
  /\ connects
       (trace_of (WSLOrchestrator_run silent_host_guest
                    (WSLOrchestrator_init CHROME 9222) empty_machine)) = 6%nat
  /\ sleeps
       (trace_of (WSLOrchestrator_run silent_host_guest
                    (WSLOrchestrator_init CHROME 9222) empty_machine)) = 4%nat.
Proof.
  apply (wsl_verification_failure_after_five_polls silent_host_guest
           (WSLOrchestrator_init CHROME 9222) empty_machine
           (mkWSLSetupResult false "192.168.1.1" true false
              "Connection verification failed")).
  - vm_compute. reflexivity.
  - reflexivity.
Defined.


(** Scenario C again: [/mnt/c/tools/wsl_dev_kit.py] becomes
    [C:\tools\wsl_dev_kit.py]. *)
Lemma wsl_remote_invocation_arguments_witness :
  ps_browser chrome_setup_script
  = Browser_value (wsl_browser (WSLOrchestrator_init CHROME 9222))
  /\ ps_port chrome_setup_script = wsl_debug_port (WSLOrchestrator_init CHROME 9222)
  /\ free_of "/" (ps_windows_path chrome_setup_script) = true
  /\ ps_windows_path chrome_setup_script =
       PyStr.upper (nth 2 (PyStr.split_on "/" (sys_script silent_host_guest)) "")
       ++ ":\"
       ++ PyStr.join "\" (skipn 3 (PyStr.split_on "/" (sys_script silent_host_guest))).
Proof.
  apply (wsl_remote_invocation_arguments silent_host_guest
           (WSLOrchestrator_init CHROME 9222) empty_machine chrome_setup_script).
  vm_compute. do 8 right. left. reflexivity.
Defined.

(** Scenario A: the first portproxy command is the 25th event of the run. *)
Lemma relay_commands_follow_listening_message_witness :
  In (listening_message (wo_debug_port (WindowsOrchestrator_init CHROME 9222)))
    (firstn 24
       (trace_of (WindowsOrchestrator_run elevated_host
                    (WindowsOrchestrator_init CHROME 9222) (windows_machine true)))).
Proof.
  apply (relay_commands_follow_listening_message elevated_host
           (WindowsOrchestrator_init CHROME 9222) (windows_machine true)
           (firstn 24
              (trace_of (WindowsOrchestrator_run elevated_host
                           (WindowsOrchestrator_init CHROME 9222)
                           (windows_machine true))))
           (skipn 25
              (trace_of (WindowsOrchestrator_run elevated_host
                           (WindowsOrchestrator_init CHROME 9222)
                           (windows_machine true))))
           (Run (NetshDelete "10.0.0.5" 9222))).
  - vm_compute. reflexivity.
  - reflexivity.
Defined.

(** [--validate] on the elevated host: the browser is there, the port is
    closed at that moment. *)
Lemma main_diagnostic_modes_witness :
  exit_of (main elevated_host empty_listing no_test_page validate_args
             (windows_machine true))
  = match exit_of (run_diagnostics elevated_host empty_listing
                     (arg_browser validate_args) (arg_port validate_args)
                     (windows_machine true)) with
    | Ret d =>
        Ret (if arg_diagnose validate_args then 0
             else if browser_found d && port_accessible d then 0 else 1)
    | Raise e => Raise e
    end
  /\ rules (state_of (main elevated_host empty_listing no_test_page validate_args
                        (windows_machine true)))
     = rules (windows_machine true)
  /\ fs (state_of (main elevated_host empty_listing no_test_page validate_args
                     (windows_machine true)))
     = fs (windows_machine true)
  /\ cli_none_of cli_destructive
       (events_of (main elevated_host empty_listing no_test_page validate_args
                     (windows_machine true))).
Proof.
  apply (main_diagnostic_modes elevated_host empty_listing no_test_page
           validate_args (windows_machine true)).
  - reflexivity.
  - reflexivity.
  - right. reflexivity.
Defined.

(** The elevated host without any browser: status 1, nothing touched. *)
Lemma main_detection_phase_witness :
  exit_of (main elevated_host empty_listing no_test_page default_args
             machine_with_old_rule)
  = Ret (if found_browser None then 0 else 1)
  /\ rules (state_of (main elevated_host empty_listing no_test_page default_args
                        machine_with_old_rule))
     = rules machine_with_old_rule
  /\ fs (state_of (main elevated_host empty_listing no_test_page default_args
                     machine_with_old_rule))
     = fs machine_with_old_rule
  /\ cli_none_of cli_destructive
       (events_of (main elevated_host empty_listing no_test_page default_args
                     machine_with_old_rule)).
Proof.
  apply (main_detection_phase elevated_host empty_listing no_test_page
           default_args machine_with_old_rule WINDOWS None).
  - repeat split.
  - vm_compute. reflexivity.
  - vm_compute. reflexivity.
  - left. reflexivity.
Defined.

(** [--cleanup] on the elevated host. *)
Lemma main_cleanup_mode_witness :
  exit_of (main elevated_host empty_listing no_test_page cleanup_args
             (windows_machine true)) = Ret 0
  /\ fs (state_of (main elevated_host empty_listing no_test_page cleanup_args
                     (windows_machine true)))
     = fs (windows_machine true)
  /\ cli_none_of cli_spawn
       (events_of (main elevated_host empty_listing no_test_page cleanup_args
                     (windows_machine true)))
  /\ (forall k, k.2 <> arg_port cleanup_args ->
        rules (state_of (main elevated_host empty_listing no_test_page cleanup_args
                           (windows_machine true))) !! k
        = rules (windows_machine true) !! k)
  /\ (WINDOWS <> WINDOWS ->
      rules (state_of (main elevated_host empty_listing no_test_page cleanup_args
                         (windows_machine true)))
      = rules (windows_machine true)).
Proof.
  apply (main_cleanup_mode elevated_host empty_listing no_test_page cleanup_args
           (windows_machine true) WINDOWS chrome_exe).
  - repeat split.
  - reflexivity.
  - reflexivity.
  - vm_compute. reflexivity.
  - vm_compute. reflexivity.
  - discriminate.
Defined.

(** Scenario A from the command line: status 0. *)
Lemma main_exit_code_reports_orchestration_witness :
  (WINDOWS = WINDOWS ->
   exit_of (main elevated_host empty_listing no_test_page default_args
              (windows_machine true))
   = match result_of (WindowsOrchestrator_run elevated_host
                        (WindowsOrchestrator_init (arg_browser default_args)
                           (arg_port default_args))
                        (windows_machine true)) with
     | Ret r => Ret (if success r then 0 else 1)
     | Raise e => Raise e
     end)
  /\ (WINDOWS = WSL ->
      exit_of (main elevated_host empty_listing no_test_page default_args
                 (windows_machine true))
      = match result_of (WSLOrchestrator_run elevated_host
                           (WSLOrchestrator_init (arg_browser default_args)
                              (arg_port default_args))
                           (machine_of (detect_wsl_host_ip elevated_host
                                          (windows_machine true)))) with
        | Ret r => Ret (if wsl_success r then 0 else 1)
        | Raise e => Raise e
        end).
Proof.
  apply (main_exit_code_reports_orchestration elevated_host empty_listing
           no_test_page default_args (windows_machine true) WINDOWS chrome_exe).
  - repeat split.
  - reflexivity.
  - reflexivity.
  - vm_compute. reflexivity.
  - vm_compute. reflexivity.
  - discriminate.
Defined.

(** The same run, evaluated: the tool exits with status 0. *)
Lemma scenario_A_exit_status :
  exit_of (main elevated_host empty_listing no_test_page default_args
             (windows_machine true)) = Ret 0.
Proof. vm_compute. reflexivity. Qed.

(** Without elevation the tool exits with status 1. *)
Lemma scenario_B_exit_status :
  exit_of (main plain_host empty_listing no_test_page default_args
             (windows_machine true)) = Ret 1.
Proof. vm_compute. reflexivity. Qed.

End MoreRuns.
